(** * md2conf/converter.py: Markdown HTML to Confluence storage format

    A shallow embedding of [src/md2conf/converter.py] and the properties
    its specification states about it.

    Python [str] values are modelled by [string]; a character stands for a
    code point below 256, so the regular-expression classes [\s] and [\d]
    are the ones Python's [re] uses on that range.  Exceptions are values
    of [exn] carried by the [result] monad.  The two libraries the module
    calls into, [lxml.etree] and [urllib.parse], are not part of the
    repository: the XML parser is a parameter of the development (and a
    reference parser for a fragment of XML instantiates it for concrete
    runs), the serialiser and [urlsplit] are transcribed as far as the
    module depends on them. *)

From Stdlib Require Import Ascii String List Arith Bool Lia.
From stdpp Require Import base list strings.
Import ListNotations.

Local Open Scope string_scope.
Local Open Scope list_scope.

(** ** Python exceptions and the result monad *)

(** The diagnostic carried by [lxml.etree.XMLSyntaxError]. *)
Definition XMLSyntaxError := string.

Inductive exn : Type :=
| ParseError (e : XMLSyntaxError)   (* class ParseError(RuntimeError) *)
| AttributeError                    (* attribute missing on an object *)
| KeyError (key : string)           (* attrib[key] with key missing *)
| IndexError                        (* node[index] out of range *)
| ValueError                        (* raised by urllib.parse *)
| RecursionError.                   (* recursion depth exhausted *)

Inductive result (A : Type) : Type :=
| Ok (a : A)
| Raise (e : exn).
Arguments Ok {A} a.
Arguments Raise {A} e.

Definition bind {A B : Type} (m : result A) (k : A -> result B) : result B :=
  match m with
  | Ok a => k a
  | Raise e => Raise e
  end.

Notation "'let!' x ':=' m 'in' k" := (bind m (fun x => k))
  (at level 10, x pattern, m at level 100, k at level 200).

(** ** Characters and strings *)

Definition code (c : ascii) : nat := nat_of_ascii c.

(** [\s] of Python's [re] on [str]: the code points [str.isspace] accepts. *)
Definition is_space (c : ascii) : bool :=
  let n := code c in
  (((9 <=? n) && (n <=? 13)) || ((28 <=? n) && (n <=? 32))
   || (n =? 133) || (n =? 160))%nat.

(** [\d] of Python's [re] on [str]: decimal digits (only 0-9 below 256). *)
Definition is_digit (c : ascii) : bool :=
  let n := code c in ((48 <=? n) && (n <=? 57))%nat.

Definition is_ascii_alpha (c : ascii) : bool :=
  let n := code c in
  (((65 <=? n) && (n <=? 90)) || ((97 <=? n) && (n <=? 122)))%nat.

Definition isascii (s : string) : bool :=
  forallb (fun c => (code c <? 128)%nat) (list_ascii_of_string s).

Definition char_in (c : ascii) (set : string) : bool :=
  existsb (Ascii.eqb c) (list_ascii_of_string set).

(** [c in s] for a one-character string [c]. *)
Definition contains (c : ascii) (s : string) : bool := char_in c s.

(** [s] without its first [n] characters, [s[n:]]. *)
Fixpoint drop_str (n : nat) (s : string) : string :=
  match n, s with
  | O, _ => s
  | S n', String _ s' => drop_str n' s'
  | S _, EmptyString => EmptyString
  end.

(** The first [n] characters of [s], [s[:n]]. *)
Fixpoint take_str (n : nat) (s : string) : string :=
  match n, s with
  | S n', String c s' => String c (take_str n' s')
  | _, _ => EmptyString
  end.

(** [s] after the literal [lit], when [s] starts with it. *)
Fixpoint strip_prefix (lit s : string) : option string :=
  match lit, s with
  | EmptyString, _ => Some s
  | String a lit', String b s' =>
      if Ascii.eqb a b then strip_prefix lit' s' else None
  | String _ _, EmptyString => None
  end.

(** The longest prefix of [s] whose characters satisfy [p], and the rest. *)
Fixpoint span (p : ascii -> bool) (s : string) : string * string :=
  match s with
  | EmptyString => (EmptyString, EmptyString)
  | String c s' =>
      if p c then let '(a, b) := span p s' in (String c a, b)
      else (EmptyString, s)
  end.

(** [s.lstrip(chars)] for a set of characters given by a predicate. *)
Definition lstrip (p : ascii -> bool) (s : string) : string := snd (span p s).

(** [s.replace(c, empty)]: every occurrence of [c] removed. *)
Fixpoint remove_char (c : ascii) (s : string) : string :=
  match s with
  | EmptyString => EmptyString
  | String a s' =>
      if Ascii.eqb a c then remove_char c s' else String a (remove_char c s')
  end.

Definition rev_str (s : string) : string :=
  string_of_list_ascii (rev (list_ascii_of_string s)).

(** [str(x)] inside an f-string: [None] prints as the word None. *)
Definition format_opt (x : option string) : string :=
  match x with
  | Some s => s
  | None => "None"
  end.

(** Source literals contain double quotes; they are written here with a
    backquote in place of each double quote. *)
Definition Q (s : string) : string :=
  string_of_list_ascii
    (map (fun c => if Ascii.eqb c "`" then ascii_of_nat 34 else c)
       (list_ascii_of_string s)).

Definition nonempty (s : string) : bool :=
  match s with
  | EmptyString => false
  | String _ _ => true
  end.

(** ** The three regular expressions of the module

    Each pattern is deterministic: a greedy class is always followed by a
    literal outside the class, so the backtracking matcher of [re] finds
    the match the functions below compute, or none. *)

(** A match object: [start()], [end()] and [group(1)]. *)
Record Match : Type := mkMatch {
  m_start : nat;
  m_end : nat;
  group1 : string
}.

(** [<!--\s+confluence-page-id:\s*(\d+)\s+-->] anchored at the head of [s]:
    the captured digits and the number of characters matched. *)
Definition match_page_id_here (s : string) : option (string * nat) :=
  match strip_prefix "<!--" s with
  | None => None
  | Some r1 =>
      let '(w1, r2) := span is_space r1 in
      if negb (nonempty w1) then None else
      match strip_prefix "confluence-page-id:" r2 with
      | None => None
      | Some r3 =>
          let '(w2, r4) := span is_space r3 in
          let '(d, r5) := span is_digit r4 in
          if negb (nonempty d) then None else
          let '(w3, r6) := span is_space r5 in
          if negb (nonempty w3) then None else
          match strip_prefix "-->" r6 with
          | None => None
          | Some _ =>
              Some (d, 4 + String.length w1 + 19 + String.length w2
                       + String.length d + String.length w3 + 3)
          end
      end
  end.

(** [re.search] of the identifier pattern in [html]: the leftmost position
    at which the pattern matches. *)
Fixpoint search_page_id_from (pos : nat) (s : string) : option Match :=
  match match_page_id_here s with
  | Some (d, n) => Some (mkMatch pos (pos + n) d)
  | None =>
      match s with
      | EmptyString => None
      | String _ s' => search_page_id_from (S pos) s'
      end
  end.

Definition re_search_page_id (html : string) : option Match :=
  search_page_id_from 0 html.

(** The number of identifier comments in [html]: the positions at which the
    pattern matches (matches cannot overlap, each starts with [<]). *)
Fixpoint count_page_id (s : string) : nat :=
  match match_page_id_here s with Some _ => 1 | None => 0 end +
  match s with
  | EmptyString => 0
  | String _ s' => count_page_id s'
  end.

Definition newline : ascii := ascii_of_nat 10.

(** [re.match] of the language pattern, [^language-] then the group [.*]
    then [$]: the dot excludes the newline and the dollar also matches just
    before a final newline. *)
Definition re_match_language (cls : string) : option string :=
  match strip_prefix "language-" cls with
  | None => None
  | Some rest =>
      let '(name, after) :=
        span (fun c => negb (Ascii.eqb c newline)) rest in
      match after with
      | EmptyString => Some name
      | String _ EmptyString => Some name
      | String _ (String _ _) => None
      end
  end.

(** [re.match] with [re.DOTALL] of the root pattern, [^<root\s+[^>]*>] then
    the group [.*] then [</root>\s*$]: group 1.  After the first [>] the
    rest must end in [</root>] followed by white space only; the group is
    what lies in between. *)
Definition re_match_root (xml : string) : option string :=
  match strip_prefix "<root" xml with
  | None => None
  | Some r1 =>
      let '(w, r2) := span is_space r1 in
      if negb (nonempty w) then None else
      let '(_, r3) := span (fun c => negb (Ascii.eqb c ">")) r2 in
      match r3 with
      | EmptyString => None
      | String _ body =>
          let back := lstrip is_space (rev_str body) in
          match strip_prefix (rev_str "</root>") back with
          | None => None
          | Some b => Some (rev_str b)
          end
      end
  end.

(** ** urllib.parse: the network location of a URL

    [urlsplit] of CPython 3.11 as far as it decides [netloc] and raises.
    Two validation helpers, reached only for a bracketed host and for a host
    outside ASCII, are parameters. *)

Section UrlParse.

(** [_check_bracketed_netloc(netloc)]: IPv6 and IPvFuture validation. *)
Variable _check_bracketed_netloc : string -> result unit.
(** The NFKC check of [_checknetloc] on a host outside ASCII. *)
Variable _checknetloc_nfkc : string -> result unit.

Definition scheme_chars : string :=
  "abcdefghijklmnopqrstuvwxyzABCDEFGHIJKLMNOPQRSTUVWXYZ0123456789+-.".

(** [_WHATWG_C0_CONTROL_OR_SPACE]: the code points 0 to 32. *)
Definition is_c0_control_or_space (c : ascii) : bool := (code c <=? 32)%nat.

(** [_UNSAFE_URL_BYTES_TO_REMOVE]: tab, carriage return, line feed. *)
Definition remove_unsafe (url : string) : string :=
  remove_char (ascii_of_nat 10)
    (remove_char (ascii_of_nat 13) (remove_char (ascii_of_nat 9) url)).

(** The scheme is cut off when the text before the first colon is not
    empty, starts with an ASCII letter and consists of [scheme_chars]. *)
Definition split_scheme (url : string) : string :=
  let '(head, rest) := span (fun c => negb (Ascii.eqb c ":")) url in
  match rest, head with
  | String _ after, String c0 _ =>
      if is_ascii_alpha c0
         && forallb (fun c => char_in c scheme_chars)
              (list_ascii_of_string head)
      then after else url
  | _, _ => url
  end.

(** [_splitnetloc(url, 2)]: from index 2 up to the first of [/?#]. *)
Definition _splitnetloc (url : string) : string * string :=
  span (fun c => negb (char_in c "/?#")) (drop_str 2 url).

Definition _checknetloc (netloc : string) : result unit :=
  if negb (nonempty netloc) || isascii netloc then Ok tt
  else _checknetloc_nfkc netloc.

(** [urlparse(url).netloc], or the [ValueError] that [urlsplit] raises. *)
Definition urlparse_netloc (url : string) : result string :=
  let url := lstrip is_c0_control_or_space url in
  let url := remove_unsafe url in
  let url := split_scheme url in
  let! netloc :=
    match strip_prefix "//" url with
    | Some _ =>
        let netloc := fst (_splitnetloc url) in
        let lb := contains "[" netloc in
        let rb := contains "]" netloc in
        if (lb && negb rb) || (rb && negb lb) then Raise ValueError
        else if lb && rb then
               let! _ := _check_bracketed_netloc netloc in Ok netloc
             else Ok netloc
    | None => Ok EmptyString
    end in
  let! _ := _checknetloc netloc in
  Ok netloc.

(** [def is_absolute_url(url): return bool(urlparse(url).netloc)] *)
Definition is_absolute_url (url : string) : result bool :=
  let! netloc := urlparse_netloc url in
  Ok (nonempty netloc).

End UrlParse.

(** ** The lxml tree

    libxml2 keeps text in nodes of its own; lxml shows the text nodes
    before the first child as [text] and those after a child as the child's
    [tail].  A namespace is a prefix and a URI; an element carries the
    declarations made on it ([nsDef]). *)

Record xmlNs : Type := mkNs {
  ns_prefix : option string;
  ns_href : string
}.

Inductive text_node : Type :=
| Text (s : string)
| CData (s : string).

Record attribute : Type := mkAttr {
  attr_ns : option xmlNs;
  attr_name : string;
  attr_value : string
}.

Local Unset Elimination Schemes.

Inductive element : Type :=
| Element (ns : option xmlNs) (name : string) (nsDef : list xmlNs)
    (attrs : list attribute) (text : list text_node)
    (children : list element) (tail : list text_node)
| Comment (content : string) (tail : list text_node)
| ProcessingInstruction (target content : string) (tail : list text_node).

Local Set Elimination Schemes.

(** [node.tag]: a string in Clark notation for an element, the factory
    function for a comment or a processing instruction. *)
Inductive tag_value : Type :=
| TagStr (s : string)
| TagComment
| TagPI.

Definition clark (ns : option xmlNs) (name : string) : string :=
  match ns with
  | Some n => "{" +:+ ns_href n +:+ "}" +:+ name
  | None => name
  end.

Definition tag (node : element) : tag_value :=
  match node with
  | Element ns name _ _ _ _ _ => TagStr (clark ns name)
  | Comment _ _ => TagComment
  | ProcessingInstruction _ _ _ => TagPI
  end.

(** [node.tag == s] *)
Definition tag_is (node : element) (s : string) : bool :=
  match tag node with
  | TagStr t => String.eqb t s
  | _ => false
  end.

Definition children (node : element) : list element :=
  match node with
  | Element _ _ _ _ _ cs _ => cs
  | _ => []
  end.

Definition set_children (node : element) (cs : list element) : element :=
  match node with
  | Element ns name nsdef attrs text _ tail =>
      Element ns name nsdef attrs text cs tail
  | _ => node
  end.

Definition attrs (node : element) : list attribute :=
  match node with
  | Element _ _ _ a _ _ _ => a
  | _ => []
  end.

Definition nsDef (node : element) : list xmlNs :=
  match node with
  | Element _ _ d _ _ _ _ => d
  | _ => []
  end.

Definition text_nodes (node : element) : list text_node :=
  match node with
  | Element _ _ _ _ t _ _ => t
  | Comment c _ => [Text c]
  | ProcessingInstruction _ c _ => [Text c]
  end.

Definition tail (node : element) : list text_node :=
  match node with
  | Element _ _ _ _ _ _ t => t
  | Comment _ t => t
  | ProcessingInstruction _ _ t => t
  end.

Definition text_content (t : text_node) : string :=
  match t with
  | Text s => s
  | CData s => s
  end.

(** [node.text]: [None] without a text node, else the texts joined. *)
Definition text (node : element) : option string :=
  match text_nodes node with
  | [] => None
  | ts => Some (String.concat EmptyString (map text_content ts))
  end.

(** [len(node)] *)
Definition len (node : element) : nat := length (children node).

(** [node[index]] *)
Definition getitem (node : element) (index : nat) : result element :=
  match children node !! index with
  | Some child => Ok child
  | None => Raise IndexError
  end.

(** [node[index] = target]: the new child takes the place of the old one,
    whose tail goes with it. *)
Definition setitem (node : element) (index : nat) (target : element)
  : element :=
  set_children node (<[index := target]> (children node)).

Definition attr_key (a : attribute) : string :=
  clark (attr_ns a) (attr_name a).

Definition lookup_attr (key : string) (l : list attribute) : option string :=
  match List.find (fun a => String.eqb (attr_key a) key) l with
  | Some a => Some (attr_value a)
  | None => None
  end.

(** [node.attrib.get(key)] *)
Definition attrib_get (node : element) (key : string) : option string :=
  lookup_attr key (attrs node).

(** [node.attrib[key]] *)
Definition attrib_getitem (node : element) (key : string) : result string :=
  match attrib_get node key with
  | Some v => Ok v
  | None => Raise (KeyError key)
  end.

(** [node.attrib.pop(key, None)].  The [attrib] of a comment or of a
    processing instruction is an empty mapping: no key is found in it,
    [pop] returns the default and the node stays as it is. *)
Definition attrib_pop (node : element) (key : string) : result element :=
  match node with
  | Element ns name nsdef a text cs tail =>
      Ok (Element ns name nsdef
            (List.filter (fun x => negb (String.eqb (attr_key x) key)) a)
            text cs tail)
  | _ => Ok node
  end.

(** An element object as lxml hands it out: the node, and the namespace
    declarations of the ancestors it is still attached to. *)
Record handle : Type := Handle {
  elem : element;
  outer_ns : list xmlNs
}.

(** ** The fragment builder *)

Definition xml_declaration : string := Q "<?xml version=`1.0`?>".

Definition root_open : string :=
  Q "<root xmlns:ac=`http://atlassian.com/content` xmlns:ri=`http://atlassian.com/resource/identifier`>".

Definition wrap (items : list string) : list string :=
  [xml_declaration; root_open] ++ items ++ ["</root>"].

Section Builder.

(** [ET.fromstringlist(data, parser=parser)] with
    [XMLParser(remove_blank_text=True, strip_cdata=False)]: the root
    element, or the diagnostic of an [XMLSyntaxError]. *)
Variable fromstringlist : list string -> XMLSyntaxError + element.

Definition element_from_string_list (items : list string) : result handle :=
  match fromstringlist (wrap items) with
  | inr root =>
      if (1 <? len root)%nat then Ok (Handle root [])
      else
        let! child := getitem root 0 in
        Ok (Handle child (nsDef root))
  | inl e => Raise (ParseError e)
  end.

Definition element_from_string (text : string) : result handle :=
  element_from_string_list [text].

End Builder.

Definition _languages : list string :=
  [ "actionscript3"; "bash"; "csharp"; "coldfusion"; "cpp"; "css"; "delphi";
    "diff"; "erlang"; "groovy"; "html"; "java"; "javafx"; "javascript";
    "json"; "perl"; "php"; "powershell"; "python"; "ruby"; "scala"; "sql";
    "vb"; "xml" ].

(** [x in _languages] *)
Definition in_languages (x : string) : bool :=
  existsb (String.eqb x) _languages.

(** ** NodeVisitor *)

Section NodeVisitor.

Context {Self : Type}.

(** The hook [transform(self, child)]: the visitor after the call, the
    child as the call leaves it, and the replacement it returns. *)
Variable transform :
  Self -> element -> result (Self * element * option element).

(** One round of the loop [for index in range(len(node))]. *)
Definition visit_index (visit : Self -> element -> result (Self * element))
    (acc : result (Self * element)) (index : nat)
  : result (Self * element) :=
  let! (self, node) := acc in
  let! source := getitem node index in
  let! (self, source, target) := transform self source in
  match target with
  | Some target => Ok (self, setitem node index target)
  | None =>
      let! (self, source) := visit self source in
      Ok (self, setitem node index source)
  end.

(** [visit(self, node)], with [depth] calls of [visit] left on the
    interpreter's stack. *)
Fixpoint visit (depth : nat) (self : Self) (node : element)
  : result (Self * element) :=
  if (len node <? 1)%nat then Ok (self, node)
  else
    match depth with
    | O => Raise RecursionError
    | S depth' =>
        fold_left (visit_index (visit depth')) (seq 0 (len node))
          (Ok (self, node))
    end.

End NodeVisitor.

(** The base class: [def transform(self, child): pass]. *)
Definition NodeVisitor_transform {Self : Type} (self : Self) (child : element)
  : result (Self * element * option element) :=
  Ok (self, child, None).

(** ** ConfluenceStorageFormatConverter *)

Record ConfluenceStorageFormatConverter : Type := mkConverter {
  links : list string;
  images : list string
}.

(** [__init__]: both lists empty. *)
Definition ConfluenceStorageFormatConverter_init
  : ConfluenceStorageFormatConverter := mkConverter [] [].

Definition image_items (path caption : string) : list string :=
  [ Q "<ac:image ac:align=`center` ac:layout=`center`>";
    Q "<ri:attachment ri:filename=`" +:+ path +:+ Q "` />";
    "<ac:caption><p>" +:+ caption +:+ "</p></ac:caption>";
    "</ac:image>" ].

Definition block_items (language content : string) : list string :=
  [ Q "<ac:structured-macro ac:name=`code` ac:schema-version=`1`>";
    Q "<ac:parameter ac:name=`theme`>Midnight</ac:parameter>";
    Q "<ac:parameter ac:name=`language`>" +:+ language +:+ "</ac:parameter>";
    Q "<ac:parameter ac:name=`linenumbers`>true</ac:parameter>";
    "<ac:plain-text-body><![CDATA[" +:+ content
      +:+ "]]></ac:plain-text-body>";
    "</ac:structured-macro>" ].

(** [language not in _languages] for an optional string. *)
Definition not_in_languages (x : option string) : bool :=
  match x with
  | Some s => negb (in_languages s)
  | None => true
  end.

Section StorageFormatConverter.

Variable fromstringlist : list string -> XMLSyntaxError + element.
Variable _check_bracketed_netloc : string -> result unit.
Variable _checknetloc_nfkc : string -> result unit.

Definition _transform_link (self : ConfluenceStorageFormatConverter)
    (anchor : element)
  : result (ConfluenceStorageFormatConverter * option element) :=
  let! url := attrib_getitem anchor "href" in
  let! absolute :=
    is_absolute_url _check_bracketed_netloc _checknetloc_nfkc url in
  if negb absolute
  then Ok (mkConverter (links self ++ [url]) (images self), None)
  else Ok (self, None).

Definition _transform_image (self : ConfluenceStorageFormatConverter)
    (image : element)
  : result (ConfluenceStorageFormatConverter * option element) :=
  let! path := attrib_getitem image "src" in
  let self := mkConverter (links self) (images self ++ [path]) in
  let! caption := attrib_getitem image "alt" in
  let! macro :=
    element_from_string_list fromstringlist (image_items path caption) in
  Ok (self, Some (elem macro)).

Definition _transform_block (self : ConfluenceStorageFormatConverter)
    (code : element)
  : result (ConfluenceStorageFormatConverter * option element) :=
  let language := attrib_get code "class" in
  let! language :=
    match language with
    | Some cls =>
        if nonempty cls then
          match re_match_language cls with
          | Some name => Ok (Some name)
          | None => Raise AttributeError
          end
        else Ok language
    | None => Ok language
    end in
  let language :=
    if not_in_languages language then Some "none" else language in
  let content := text code in
  let! macro :=
    element_from_string_list fromstringlist
      (block_items (format_opt language) (format_opt content)) in
  Ok (self, Some (elem macro)).

(** [child[0].tag == s], reached only when [len(child) == 1]. *)
Definition child0_tag_is (child : element) (s : string) : bool :=
  match children child !! 0 with
  | Some c => tag_is c s
  | None => false
  end.

(** [ConfluenceStorageFormatConverter.transform]: the first shape that
    matches decides; the child is not changed in place. *)
Definition ConfluenceStorageFormatConverter_transform
    (self : ConfluenceStorageFormatConverter) (child : element)
  : result (ConfluenceStorageFormatConverter * element * option element) :=
  let! (self, target) :=
    if tag_is child "p" && (len child =? 1)%nat && child0_tag_is child "img"
    then let! image := getitem child 0 in _transform_image self image
    else if tag_is child "img" then _transform_image self child
    else if tag_is child "a" then _transform_link self child
    else if tag_is child "pre" && (len child =? 1)%nat
            && child0_tag_is child "code"
    then let! code := getitem child 0 in _transform_block self code
    else Ok (self, None) in
  Ok (self, child, target).

End StorageFormatConverter.

(** ** ConfluenceStorageFormatCleaner *)

Definition macro_id : string := "{http://atlassian.com/content}macro-id".

Definition version_at_save : string :=
  "{http://atlassian.com/resource/identifier}version-at-save".

Definition ConfluenceStorageFormatCleaner_transform (self : unit)
    (child : element)
  : result (unit * element * option element) :=
  let! child := attrib_pop child macro_id in
  let! child := attrib_pop child version_at_save in
  Ok (self, child, None).

(** ** Serialisation

    [ET.tostring(root, encoding=utf8, method=xml)] decoded: no XML
    declaration, text escaped as libxml2 does for an output encoding, and
    the declarations in scope from the ancestors copied onto the node. *)

Definition dq : string := Q "`".

(** [xmlEscapeContent] *)
Fixpoint escape_content (s : string) : string :=
  match s with
  | EmptyString => EmptyString
  | String c s' =>
      (if Ascii.eqb c "<" then "&lt;"
       else if Ascii.eqb c ">" then "&gt;"
       else if Ascii.eqb c "&" then "&amp;"
       else if (code c =? 13)%nat then "&#13;"
       else String c EmptyString) +:+ escape_content s'
  end.

(** [xmlBufAttrSerializeTxtContent] *)
Fixpoint escape_attr (s : string) : string :=
  match s with
  | EmptyString => EmptyString
  | String c s' =>
      (if Ascii.eqb c "<" then "&lt;"
       else if Ascii.eqb c ">" then "&gt;"
       else if Ascii.eqb c "&" then "&amp;"
       else if (code c =? 34)%nat then "&quot;"
       else if (code c =? 10)%nat then "&#10;"
       else if (code c =? 13)%nat then "&#13;"
       else if (code c =? 9)%nat then "&#9;"
       else String c EmptyString) +:+ escape_attr s'
  end.

Definition qname (ns : option xmlNs) (name : string) : string :=
  match ns with
  | Some (mkNs (Some p) _) => p +:+ ":" +:+ name
  | _ => name
  end.

Definition dump_ns (n : xmlNs) : string :=
  match ns_prefix n with
  | Some p => " xmlns:" +:+ p +:+ "=" +:+ dq +:+ escape_attr (ns_href n) +:+ dq
  | None => " xmlns=" +:+ dq +:+ escape_attr (ns_href n) +:+ dq
  end.

Definition dump_attr (a : attribute) : string :=
  " " +:+ qname (attr_ns a) (attr_name a) +:+ "=" +:+ dq
      +:+ escape_attr (attr_value a) +:+ dq.

Definition dump_text (t : text_node) : string :=
  match t with
  | Text s => escape_content s
  | CData s => "<![CDATA[" +:+ s +:+ "]]>"
  end.

Definition dump_texts (ts : list text_node) : string :=
  String.concat EmptyString (map dump_text ts).

(** The markup of a node, without its tail. *)
Fixpoint dump (node : element) : string :=
  match node with
  | Element ns name nsdef attrs text cs _ =>
      "<" +:+ qname ns name
        +:+ String.concat EmptyString (map dump_ns nsdef)
        +:+ String.concat EmptyString (map dump_attr attrs)
        +:+ match text, cs with
            | [], [] => "/>"
            | _, _ =>
                ">" +:+ dump_texts text
                  +:+ String.concat EmptyString
                        (map (fun c => dump c +:+ dump_texts (tail c)) cs)
                  +:+ "</" +:+ qname ns name +:+ ">"
            end
  | Comment c _ => "<!--" +:+ c +:+ "-->"
  | ProcessingInstruction t c _ =>
      "<?" +:+ t +:+ (if nonempty c then " " +:+ c else EmptyString) +:+ "?>"
  end.

Definition same_prefix (a b : xmlNs) : bool :=
  match ns_prefix a, ns_prefix b with
  | Some p, Some q => String.eqb p q
  | None, None => true
  | _, _ => false
  end.

(** [_copyParentNamespaces]: a declaration of an ancestor is added unless
    the prefix is declared already. *)
Definition copy_parent_namespaces (own outer : list xmlNs) : list xmlNs :=
  fold_left
    (fun acc n => if existsb (same_prefix n) acc then acc else acc ++ [n])
    outer own.

Definition with_nsDef (node : element) (d : list xmlNs) : element :=
  match node with
  | Element ns name _ attrs text cs tail =>
      Element ns name d attrs text cs tail
  | _ => node
  end.

Definition tostring (h : handle) : string :=
  dump (with_nsDef (elem h)
          (copy_parent_namespaces (nsDef (elem h)) (outer_ns h)))
    +:+ dump_texts (tail (elem h)).

(** [_content_to_string(root)]: [m.group(1)], on [None] when the pattern
    does not match. *)
Definition _content_to_string (root : handle) : result string :=
  match re_match_root (tostring root) with
  | Some g => Ok g
  | None => Raise AttributeError
  end.

(** ** ConfluenceDocument and sanitize_confluence *)

Record ConfluenceDocument : Type := mkDocument {
  id : string;
  doc_links : list string;
  doc_images : list string;
  root : handle
}.

Definition banner : list string :=
  [ Q "<ac:structured-macro ac:name=`info` ac:schema-version=`1`>";
    "<ac:rich-text-body><p>This page has been generated with a tool.</p></ac:rich-text-body>";
    "</ac:structured-macro>" ].

Section Document.

Variable fromstringlist : list string -> XMLSyntaxError + element.
Variable _check_bracketed_netloc : string -> result unit.
Variable _checknetloc_nfkc : string -> result unit.

(** [ConfluenceDocument.__init__(self, html)] *)
Definition ConfluenceDocument_init (depth : nat) (html : string)
  : result ConfluenceDocument :=
  match re_search_page_id html with
  | None => Raise AttributeError
  | Some m =>
      let! root :=
        element_from_string_list fromstringlist
          (banner ++ [take_str (m_start m) html; drop_str (m_end m) html]) in
      let! (converter, node) :=
        visit
          (ConfluenceStorageFormatConverter_transform fromstringlist
             _check_bracketed_netloc _checknetloc_nfkc)
          depth ConfluenceStorageFormatConverter_init (elem root) in
      Ok (mkDocument (group1 m) (links converter) (images converter)
            (Handle node (outer_ns root)))
  end.

Definition xhtml (self : ConfluenceDocument) : result string :=
  _content_to_string (root self).

Definition sanitize_confluence (depth : nat) (html : string)
  : result string :=
  let! root := element_from_string fromstringlist html in
  let! (_, node) :=
    visit ConfluenceStorageFormatCleaner_transform depth tt (elem root) in
  _content_to_string (Handle node (outer_ns root)).

End Document.

(** ** A reference parser

    [fromstringlist] for a fragment of XML 1.0 with namespaces: an optional
    XML declaration, elements with quoted attributes and namespace
    declarations, character data, the five predefined entities, character
    references to code points below 256, comments, CDATA sections and
    processing instructions, over ASCII names.  White space that libxml2
    judges ignorable is dropped as [remove_blank_text] asks; the text of a
    reference is handed on as it is, without that judgement.  Anything
    else (a DOCTYPE, other character references, names outside ASCII) is
    reported as a syntax error and lies outside the fragment. *)

Module Reference.

Definition parse (A : Type) : Type := (XMLSyntaxError + A)%type.

Definition pbind {A B : Type} (m : parse A) (k : A -> parse B) : parse B :=
  match m with
  | inr a => k a
  | inl e => inl e
  end.

Notation "'let?' x ':=' m 'in' k" := (pbind m (fun x => k))
  (at level 10, x pattern, m at level 100, k at level 200).

Definition fail {A : Type} (msg : string) : parse A := inl msg.

(** What libxml2 keeps in the child list of an element. *)
Inductive xnode : Type :=
| XText (s : string)
| XCData (s : string)
| XNode (e : element).

(** An open element: its start tag, the children so far (last first) and
    whether libxml2 keeps all white space in it from now on, which it does
    once it has kept character data that began with white space or held
    a character outside ASCII. *)
Record frame : Type := mkFrame {
  f_raw : string;
  f_ns : option xmlNs;
  f_name : string;
  f_nsDef : list xmlNs;
  f_attrs : list attribute;
  f_content : list xnode;
  f_mixed : bool
}.

Definition is_blank (c : ascii) : bool :=
  let n := code c in ((n =? 32) || (n =? 9) || (n =? 10) || (n =? 13))%nat.

Definition is_name_start (c : ascii) : bool :=
  is_ascii_alpha c || Ascii.eqb c "_".

Definition is_name_char (c : ascii) : bool :=
  is_name_start c || is_digit c || Ascii.eqb c "-" || Ascii.eqb c ".".

Definition is_char (c : ascii) : bool :=
  let n := code c in ((32 <=? n) || (n =? 9) || (n =? 10) || (n =? 13))%nat.

(** The text up to the first occurrence of [stop], and what follows it. *)
Fixpoint split_at (stop s : string) : option (string * string) :=
  match strip_prefix stop s with
  | Some rest => Some (EmptyString, rest)
  | None =>
      match s with
      | EmptyString => None
      | String c s' =>
          match split_at stop s' with
          | Some (a, b) => Some (String c a, b)
          | None => None
          end
      end
  end.

Definition has_infix (needle s : string) : bool :=
  match split_at needle s with
  | Some _ => true
  | None => false
  end.

(** End-of-line handling: CR LF and a lone CR become LF. *)
Fixpoint normalize_eol (s : string) : string :=
  match s with
  | EmptyString => EmptyString
  | String c s' =>
      if (code c =? 13)%nat then
        match s' with
        | String d _ =>
            if (code d =? 10)%nat then normalize_eol s'
            else String newline (normalize_eol s')
        | EmptyString => String newline EmptyString
        end
      else String c (normalize_eol s')
  end.

(** An NCName, or a prefixed name [prefix:local]. *)
Definition parse_qname (s : string)
  : option (option string * string * string) :=
  let '(a, r) := span is_name_char s in
  match a with
  | EmptyString => None
  | String c0 _ =>
      if negb (is_name_start c0) then None else
      match r with
      | String ":" r' =>
          let '(b, r'') := span is_name_char r' in
          match b with
          | EmptyString => None
          | String d0 _ =>
              if is_name_start d0 then Some (Some a, b, r'') else None
          end
      | _ => Some (None, a, r)
      end
  end.

Definition raw_name (p : option string) (l : string) : string :=
  match p with
  | Some p => p +:+ ":" +:+ l
  | None => l
  end.

Definition is_hex_digit (c : ascii) : bool :=
  let n := code c in
  (is_digit c || ((65 <=? n) && (n <=? 70)) || ((97 <=? n) && (n <=? 102)))%nat.

Definition digit_value (c : ascii) : N :=
  let n := code c in
  N.of_nat (if is_digit c then n - 48
            else if (n <=? 70)%nat then n - 55 else n - 87).

(** The number that the digits [s] denote in the given base, after
    [acc]. *)
Fixpoint number_of (base : N) (s : string) (acc : N) : N :=
  match s with
  | EmptyString => acc
  | String c s' => number_of base s' (N.add (N.mul acc base) (digit_value c))
  end.

(** A character reference at the head of [s], decimal or hexadecimal, to
    a character of XML below 256. *)
Definition parse_char_ref (s : string) : option (string * string) :=
  let finish := fun (base : N) (digits rest : string) =>
    match rest with
    | String ";" rest' =>
        let n := number_of base digits 0%N in
        if nonempty digits && N.ltb n 256
           && is_char (ascii_of_N n)
        then Some (String (ascii_of_N n) EmptyString, rest')
        else None
    | _ => None
    end in
  match strip_prefix "&#x" s with
  | Some r => let '(digits, rest) := span is_hex_digit r in
              finish 16%N digits rest
  | None =>
      match strip_prefix "&#" s with
      | Some r => let '(digits, rest) := span is_digit r in
                  finish 10%N digits rest
      | None => None
      end
  end.

(** A character reference or a predefined entity reference at the head of
    [s]. *)
Definition parse_reference (s : string) : option (string * string) :=
  match parse_char_ref s with
  | Some r => Some r
  | None =>
  match strip_prefix "&lt;" s with
  | Some r => Some ("<", r)
  | None =>
  match strip_prefix "&gt;" s with
  | Some r => Some (">", r)
  | None =>
  match strip_prefix "&amp;" s with
  | Some r => Some ("&", r)
  | None =>
  match strip_prefix "&quot;" s with
  | Some r => Some (dq, r)
  | None =>
  match strip_prefix "&apos;" s with
  | Some r => Some ("'", r)
  | None => None
  end end end end end end.

Definition reference_error (s : string) : string :=
  match strip_prefix "&#" s with
  | Some _ => "xmlParseCharRef: invalid xmlChar value"
  | None => "xmlParseEntityRef: no name"
  end.

(** The value of an attribute from the text between its quotes. *)
Fixpoint attr_value_of (fuel : nat) (s : string) : parse string :=
  match fuel with
  | O => fail "attribute value too long"
  | S fuel' =>
      match s with
      | EmptyString => inr EmptyString
      | String c s' =>
          if Ascii.eqb c "<"
          then fail "Unescaped '<' not allowed in attributes values"
          else if Ascii.eqb c "&" then
            match parse_reference s with
            | Some (v, r) =>
                let? rest := attr_value_of fuel' r in inr (v +:+ rest)
            | None => fail (reference_error s)
            end
          else if negb (is_char c) then fail "PCDATA invalid Char value"
          else
            let? rest := attr_value_of fuel' s' in
            inr (String (if is_blank c then " "%char else c) rest)
      end
  end.

(** The attributes of a start tag as written, and whether the tag is
    closed by [/>]. *)
Fixpoint parse_attributes (fuel : nat) (s : string)
  : parse (list (option string * string * string) * bool * string) :=
  match fuel with
  | O => fail "start tag too long"
  | S fuel' =>
      let '(w, r) := span is_blank s in
      match strip_prefix "/>" r with
      | Some rest => inr ([], true, rest)
      | None =>
      match strip_prefix ">" r with
      | Some rest => inr ([], false, rest)
      | None =>
          if negb (nonempty w) then fail "attributes construct error" else
          match parse_qname r with
          | None => fail "error parsing attribute name"
          | Some (p, l, r1) =>
              let r2 := lstrip is_blank r1 in
              match strip_prefix "=" r2 with
              | None => fail "Specification mandates value for attribute"
              | Some r3 =>
                  let r4 := lstrip is_blank r3 in
                  match r4 with
                  | String q r5 =>
                      if Ascii.eqb q "'" || (code q =? 34)%nat then
                        match split_at (String q EmptyString) r5 with
                        | None => fail "AttValue: ' expected"
                        | Some (raw, r6) =>
                            let? v :=
                              attr_value_of (S (String.length raw)) raw in
                            let? (more, closed, rest) :=
                              parse_attributes fuel' r6 in
                            inr ((p, l, v) :: more, closed, rest)
                        end
                      else fail "AttValue: quote expected"
                  | EmptyString => fail "AttValue: quote expected"
                  end
              end
          end
      end end
  end.

Definition xml_ns : xmlNs :=
  mkNs (Some "xml") "http://www.w3.org/XML/1998/namespace".

Definition raw_attr : Type := (option string * string * string)%type.

(** The namespace declarations among the attributes of a start tag. *)
Definition declarations (raw : list raw_attr) : list xmlNs :=
  flat_map
    (fun '(p, l, v) =>
       match p with
       | None => if String.eqb l "xmlns" then [mkNs None v] else []
       | Some p' => if String.eqb p' "xmlns" then [mkNs (Some l) v] else []
       end) raw.

Definition is_declaration (a : raw_attr) : bool :=
  let '(p, l, _) := a in
  match p with
  | None => String.eqb l "xmlns"
  | Some p' => String.eqb p' "xmlns"
  end.

Definition declares (p : option string) (n : xmlNs) : bool :=
  match p, ns_prefix n with
  | Some a, Some b => String.eqb a b
  | None, None => true
  | _, _ => false
  end.

(** The declaration of a prefix in scope, innermost first. *)
Definition lookup_ns (p : option string) (scope : list xmlNs)
  : option xmlNs :=
  match p with
  | Some p' =>
      if String.eqb p' "xml" then Some xml_ns
      else List.find (declares p) scope
  | None => List.find (declares p) scope
  end.

Fixpoint resolve_attrs (scope : list xmlNs) (raw : list raw_attr)
  : parse (list attribute) :=
  match raw with
  | [] => inr []
  | (p, l, v) :: rest =>
      let? more := resolve_attrs scope rest in
      if is_declaration (p, l, v) then inr more else
      match p with
      | None => inr (mkAttr None l v :: more)
      | Some _ =>
          match lookup_ns p scope with
          | Some n => inr (mkAttr (Some n) l v :: more)
          | None => fail "Namespace prefix of attribute is not defined"
          end
      end
  end.

Fixpoint has_duplicate (keys : list string) : bool :=
  match keys with
  | [] => false
  | k :: rest => existsb (String.eqb k) rest || has_duplicate rest
  end.

Definition add_tail (e : element) (t : text_node) : element :=
  match e with
  | Element ns name d a text cs tail =>
      Element ns name d a text cs (tail ++ [t])
  | Comment c tail => Comment c (tail ++ [t])
  | ProcessingInstruction tg c tail =>
      ProcessingInstruction tg c (tail ++ [t])
  end.

(** The lxml view of a child list: leading text, and the children each
    with the text that follows it. *)
Fixpoint assemble (nodes : list xnode) (text : list text_node)
    (cs : list element) : list text_node * list element :=
  match nodes with
  | [] => (text, rev cs)
  | XNode e :: rest => assemble rest text (e :: cs)
  | XText t :: rest =>
      match cs with
      | [] => assemble rest (text ++ [Text t]) cs
      | c :: cs' => assemble rest text (add_tail c (Text t) :: cs')
      end
  | XCData t :: rest =>
      match cs with
      | [] => assemble rest (text ++ [CData t]) cs
      | c :: cs' => assemble rest text (add_tail c (CData t) :: cs')
      end
  end.

Definition close_frame (f : frame) : element :=
  let '(text, cs) := assemble (rev (f_content f)) [] [] in
  Element (f_ns f) (f_name f) (f_nsDef f) (f_attrs f) text cs [].

Definition with_content (f : frame) (c : list xnode) (mixed : bool)
  : frame :=
  mkFrame (f_raw f) (f_ns f) (f_name f) (f_nsDef f) (f_attrs f) c mixed.

Definition add_node (f : frame) (e : element) : frame :=
  with_content f (XNode e :: f_content f) (f_mixed f).

(** Character data joins a text node that ends the child list. *)
Definition add_text (f : frame) (t : string) (mixed : bool) : frame :=
  match f_content f with
  | XText t0 :: rest => with_content f (XText (t0 +:+ t) :: rest) mixed
  | c => with_content f (XText t :: c) mixed
  end.

Definition add_cdata (f : frame) (t : string) : frame :=
  match f_content f with
  | XCData t0 :: rest =>
      with_content f (XCData (t0 +:+ t) :: rest) (f_mixed f)
  | c => with_content f (XCData t :: c) (f_mixed f)
  end.

(** [areBlanks] of libxml2 without a DTD: is the white space [chunk],
    followed by [rest], ignorable inside the open element? *)
Definition are_blanks (f : frame) (rest : string) : bool :=
  if f_mixed f then false else
  match rest with
  | String "<" _ =>
      match f_content f with
      | [] =>
          match strip_prefix "</" rest with
          | Some _ => false
          | None => true
          end
      | XText _ :: _ => false
      | _ =>
          match last (f_content f) with
          | Some (XText _) => false
          | _ => true
          end
      end
  | _ => false
  end.

Definition starts_blank (s : string) : bool :=
  match s with
  | String c _ => is_blank c
  | EmptyString => false
  end.

Definition all_blank (s : string) : bool :=
  forallb is_blank (list_ascii_of_string s).

Definition all_char (s : string) : bool :=
  forallb is_char (list_ascii_of_string s).

Definition scope_of (stack : list frame) : list xmlNs :=
  flat_map f_nsDef stack.

(** A start tag after its [<]: the frame it opens, whether it is closed
    at once, and the input after it. *)
Definition start_tag (stack : list frame) (s : string)
  : parse (frame * bool * string) :=
  match parse_qname s with
  | None => fail "StartTag: invalid element name"
  | Some (p, l, r) =>
      let? (raw, closed, rest) := parse_attributes (S (String.length r)) r in
      let d := declarations raw in
      if existsb (fun n => negb (nonempty (ns_href n))) d
      then fail "xmlns: empty namespace name" else
      let scope := d ++ scope_of stack in
      let? a := resolve_attrs scope raw in
      if has_duplicate (map (fun '(p, l, _) => raw_name p l) raw)
         || has_duplicate (map attr_key a)
      then fail "Attribute redefined" else
      match p, lookup_ns p scope with
      | Some _, None => fail "Namespace prefix on element is not defined"
      | _, n =>
          inr (mkFrame (raw_name p l) n l d a [] false, closed, rest)
      end
  end.

(** A comment, a CDATA section or a processing instruction at [<]. *)
Definition markup (s : string) : parse (option (xnode * string)) :=
  match strip_prefix "<!--" s with
  | Some r =>
      match split_at "--" r with
      | None => fail "Comment not terminated"
      | Some (c, r') =>
          match strip_prefix ">" r' with
          | Some rest =>
              if all_char c then inr (Some (XNode (Comment c []), rest))
              else fail "xmlParseComment: invalid xmlChar value"
          | None => fail "Double hyphen within comment"
          end
      end
  | None =>
  match strip_prefix "<![CDATA[" s with
  | Some r =>
      match split_at "]]>" r with
      | None => fail "CData section not finished"
      | Some (c, rest) =>
          if all_char c then inr (Some (XCData c, rest))
          else fail "CData section: invalid xmlChar value"
      end
  | None =>
  match strip_prefix "<?" s with
  | Some r =>
      match parse_qname r with
      | Some (None, target, r1) =>
          if String.eqb target "xml" || String.eqb target "XML"
             || String.eqb target "Xml"
          then fail "XML declaration allowed only at the start of the document"
          else
            match split_at "?>" r1 with
            | None => fail "ParsePI: PI never end"
            | Some (c, rest) =>
                let '(w, body) := span is_blank c in
                if nonempty c && negb (nonempty w)
                then fail "ParsePI: PI space expected"
                else if all_char c then
                  inr (Some (XNode (ProcessingInstruction target body []),
                             rest))
                else fail "ParsePI: invalid xmlChar value"
            end
      | _ => fail "xmlParsePI : no target name"
      end
  | None =>
      match strip_prefix "<!" s with
      | Some _ => fail "StartTag: invalid element name"
      | None => inr None
      end
  end end end.

Definition add_xnode (f : frame) (x : xnode) : frame :=
  match x with
  | XNode e => add_node f e
  | XCData t => add_cdata f t
  | XText t => add_text f t (f_mixed f)
  end.

(** The content of the open element [cur] up to the end tag of the
    outermost element: that element, and the input after it. *)
Fixpoint content (fuel : nat) (stack : list frame) (cur : frame)
    (s : string) : parse (element * string) :=
  match fuel with
  | O => fail "input too long"
  | S fuel' =>
      match s with
      | EmptyString => fail "Premature end of data"
      | String c s' =>
          if Ascii.eqb c "<" then
            let? m := markup s in
            match m with
            | Some (x, rest) => content fuel' stack (add_xnode cur x) rest
            | None =>
                match strip_prefix "</" s with
                | Some r =>
                    match parse_qname r with
                    | None => fail "expected an end tag name"
                    | Some (p, l, r1) =>
                        if negb (String.eqb (raw_name p l) (f_raw cur))
                        then fail "Opening and ending tag mismatch"
                        else
                          match strip_prefix ">" (lstrip is_blank r1) with
                          | None => fail "expected '>'"
                          | Some rest =>
                              let e := close_frame cur in
                              match stack with
                              | [] => inr (e, rest)
                              | parent :: stack' =>
                                  content fuel' stack' (add_node parent e)
                                    rest
                              end
                          end
                    end
                | None =>
                    let? (f, closed, rest) := start_tag (cur :: stack) s' in
                    if closed
                    then content fuel' stack (add_node cur (close_frame f))
                           rest
                    else content fuel' (cur :: stack) f rest
                end
            end
          else if Ascii.eqb c "&" then
            match parse_reference s with
            | Some (v, rest) =>
                content fuel' stack (add_text cur v (f_mixed cur)) rest
            | None => fail (reference_error s)
            end
          else
            let '(chunk, rest) :=
              span (fun c => negb (Ascii.eqb c "<" || Ascii.eqb c "&")) s in
            if negb (all_char chunk) then fail "PCDATA invalid Char value"
            else if has_infix "]]>" chunk
            then fail "Sequence ']]>' not allowed in content"
            else if all_blank chunk && are_blanks cur rest
            then content fuel' stack cur rest
            else
              let mixed :=
                f_mixed cur || starts_blank chunk || negb (isascii chunk) in
              content fuel' stack (add_text cur chunk mixed) rest
      end
  end.

(** Comments, processing instructions and white space outside the root
    element. *)
Fixpoint misc (fuel : nat) (s : string) : parse string :=
  match fuel with
  | O => fail "input too long"
  | S fuel' =>
      let r := lstrip is_blank s in
      match r with
      | String "<" _ =>
          let? m := markup r in
          match m with
          | Some (XNode _, rest) => misc fuel' rest
          | Some (_, _) => fail "Extra content at the end of the document"
          | None => inr r
          end
      | _ => inr r
      end
  end.

Definition xml_decl (s : string) : parse string :=
  match strip_prefix "<?xml" s with
  | Some (String c r) =>
      if is_blank c then
        match split_at "?>" r with
        | Some (_, rest) => inr rest
        | None => fail "parsing XML declaration: '?>' expected"
        end
      else inr s
  | _ => inr s
  end.

Definition document (input : string) : parse element :=
  let s := normalize_eol input in
  let fuel := S (String.length s) in
  let? s := xml_decl s in
  let? s := misc fuel s in
  match s with
  | String "<" s' =>
      let? (f, closed, rest) := start_tag [] s' in
      let? (root, rest) :=
        if closed then inr (close_frame f, rest)
        else content fuel [] f rest in
      let? rest := misc fuel rest in
      if nonempty rest then fail "Extra content at the end of the document"
      else inr root
  | EmptyString => fail "Document is empty"
  | _ => fail "Start tag expected, '<' not found"
  end.

(** [ET.fromstringlist(data, parser)] *)
Definition fromstringlist (data : list string) : XMLSyntaxError + element :=
  document (String.concat EmptyString data).

End Reference.

(** ** The specification's reading of the visitor, and measures *)

Section VisitSpec.

Context {Self : Type}.
Variable transform :
  Self -> element -> result (Self * element * option element).

(** The children from left to right, as the specification words the loop:
    a child with a replacement is replaced and not entered, a child without
    one is visited. *)
Fixpoint visit_children_spec
    (visit : Self -> element -> result (Self * element))
    (self : Self) (cs : list element) : result (Self * list element) :=
  match cs with
  | [] => Ok (self, [])
  | child :: rest =>
      let! (self, child, transformed) := transform self child in
      match transformed with
      | Some replacement =>
          let! (self, rest) := visit_children_spec visit self rest in
          Ok (self, replacement :: rest)
      | None =>
          let! (self, child) := visit self child in
          let! (self, rest) := visit_children_spec visit self rest in
          Ok (self, child :: rest)
      end
  end.

End VisitSpec.

(** The depth of recursion a full walk of [node] needs. *)
Fixpoint height (node : element) : nat :=
  match node with
  | Element _ _ _ _ _ cs _ =>
      match cs with
      | [] => 0
      | _ => S (list_max (map height cs))
      end
  | _ => 0
  end.

(** The two attributes the cleaner removes. *)
Definition is_volatile (a : attribute) : bool :=
  String.eqb (attr_key a) macro_id || String.eqb (attr_key a) version_at_save.

Definition keep (a : attribute) : bool := negb (is_volatile a).

(** A tree with the volatile attributes gone from every element. *)
Fixpoint strip_deep (node : element) : element :=
  match node with
  | Element ns name d a text cs tail =>
      Element ns name d (List.filter keep a) text (map strip_deep cs) tail
  | _ => node
  end.

(** The same below [node] only. *)
Definition strip_below (node : element) : element :=
  set_children node (map strip_deep (children node)).

(** No comment and no processing instruction in the tree. *)
Fixpoint elements_only (node : element) : bool :=
  match node with
  | Element _ _ _ _ _ cs _ => forallb elements_only cs
  | _ => false
  end.

(** No volatile attribute on any element of the tree. *)
Fixpoint no_volatile (node : element) : bool :=
  match node with
  | Element _ _ _ a _ cs _ =>
      forallb keep a && forallb no_volatile cs
  | _ => true
  end.

(** [d] lies strictly below [node]. *)
Inductive descendant : element -> element -> Prop :=
| descendant_child (c node : element) :
    In c (children node) -> descendant c node
| descendant_deeper (d c node : element) :
    descendant d c -> In c (children node) -> descendant d node.

(** ** Notions used in the statements, and sample data *)

(** A node without its own volatile attributes. *)
Definition strip (node : element) : element :=
  match node with
  | Element ns name d a text cs tail =>
      Element ns name d (List.filter keep a) text cs tail
  | _ => node
  end.

(** Every character of [s] satisfies [p]. *)
Definition all_of (p : ascii -> bool) (s : string) : bool :=
  forallb p (list_ascii_of_string s).

(** [c] is an identifier comment that captures the digits [d]. *)
Definition is_page_id_comment (d c : string) : Prop :=
  exists w1 w2 w3 : string,
    c = "<!--" +:+ w1 +:+ "confluence-page-id:" +:+ w2 +:+ d +:+ w3 +:+ "-->"
    /\ nonempty w1 = true /\ all_of is_space w1 = true
    /\ all_of is_space w2 = true
    /\ nonempty d = true /\ all_of is_digit d = true
    /\ nonempty w3 = true /\ all_of is_space w3 = true.

(** The name an element is serialised under. *)
Definition element_qname (node : element) : option string :=
  match node with
  | Element ns name _ _ _ _ _ => Some (qname ns name)
  | _ => None
  end.

(** What follows the name in a start tag begins with a space, [/] or [>]. *)
Definition opens_tag (x : string) : Prop :=
  exists c x', x = String c x' /\ (c = " " \/ c = "/" \/ c = ">")%char.

(** The text [urlsplit] takes for the network location. *)
Definition netloc_text (url : string) : string :=
  let url := split_scheme (remove_unsafe (lstrip is_c0_control_or_space url)) in
  match strip_prefix "//" url with
  | Some _ => fst (_splitnetloc url)
  | None => EmptyString
  end.

(** In concrete runs the two validation helpers of [urllib.parse] accept
    every host. *)
Definition no_check (netloc : string) : result unit := Ok tt.

(** The two namespaces bound on the synthetic root. *)
Definition ac : xmlNs := mkNs (Some "ac") "http://atlassian.com/content".

Definition ri : xmlNs :=
  mkNs (Some "ri") "http://atlassian.com/resource/identifier".

(** The paragraph around an image with the source [a.png] and the
    alternative text [Cap], as parsed. *)
Definition paragraph_with_image : element :=
  Element None "p" [] [] []
    [Element None "img" []
       [mkAttr None "src" "a.png"; mkAttr None "alt" "Cap"] [] [] []]
    [].

(** The image macro for the path [a.png] and the caption [Cap]. *)
Definition image_macro : element :=
  Element (Some ac) "image" []
    [mkAttr (Some ac) "align" "center"; mkAttr (Some ac) "layout" "center"] []
    [Element (Some ri) "attachment" []
       [mkAttr (Some ri) "filename" "a.png"] [] [] [];
     Element (Some ac) "caption" [] [] []
       [Element None "p" [] [] [Text "Cap"] [] []] []]
    [].

(** The informational banner, as parsed. *)
Definition banner_macro : element :=
  Element (Some ac) "structured-macro" []
    [mkAttr (Some ac) "name" "info"; mkAttr (Some ac) "schema-version" "1"] []
    [Element (Some ac) "rich-text-body" [] [] []
       [Element None "p" [] []
          [Text "This page has been generated with a tool."] [] []]
       []]
    [].

(** A page that holds the identifier comment and the image paragraph. *)
Definition html_image_page : string :=
  Q "<!-- confluence-page-id: 12 --><p><img src=`a.png` alt=`Cap`/></p>".

(** A macro that carries a macro identifier, around a paragraph that
    carries one too. *)
Definition macro_with_ids : element :=
  Element (Some ac) "structured-macro" []
    [mkAttr (Some ac) "name" "info"; mkAttr (Some ac) "macro-id" "7"] []
    [Element None "p" [] [mkAttr (Some ac) "macro-id" "8"] [Text "x"] [] []]
    [].

(** The depth of recursion granted in concrete runs. *)
Definition run_limit : nat := 1000.

(** Pages and elements for the concrete runs. *)
Definition html_two_comments : string :=
  "<!-- confluence-page-id: 1 --><p>x</p><!-- confluence-page-id: 2 -->".

Definition html_anchor_without_href : string :=
  "<!-- confluence-page-id: 1 --><a>x</a>".

Definition relative_anchor : element :=
  Element None "a" [] [mkAttr None "href" "./doc.md"] [Text "text"] [] [].

Definition code_with_class (cls : string) : element :=
  Element None "code" [] [mkAttr None "class" cls] [Text "x=1"] [] [].

Definition pre_with_class (cls : string) : element :=
  Element None "pre" [] [] [] [code_with_class cls] [].

Definition code_macro (language : string) : element :=
  let parameter := fun name value =>
    Element (Some ac) "parameter" [] [mkAttr (Some ac) "name" name]
      [Text value] [] [] in
  Element (Some ac) "structured-macro" []
    [mkAttr (Some ac) "name" "code"; mkAttr (Some ac) "schema-version" "1"] []
    [parameter "theme" "Midnight"; parameter "language" language;
     parameter "linenumbers" "true";
     Element (Some ac) "plain-text-body" [] [] [CData "x=1"] [] []]
    [].

Definition single_root_element : string := Q "<root id=`r`><p/></root>".

Definition single_root_text : string := Q "<root id=`r`>text</root>".

Definition two_paragraphs : string := Q "<p ac:macro-id=`1`><b/></p><q/>".

(** The hook of the converter over the reference parser. *)
Definition T_ref (self : ConfluenceStorageFormatConverter) (child : element)
  : result (ConfluenceStorageFormatConverter * element * option element) :=
  ConfluenceStorageFormatConverter_transform Reference.fromstringlist
    no_check no_check self child.

(** ** Further notions used in the statements *)

(** The lists of [b] are those of [a] with entries appended. *)
Definition extends (a b : ConfluenceStorageFormatConverter) : Prop :=
  exists more_links more_images : list string,
    links b = links a ++ more_links /\ images b = images a ++ more_images.

(** No element of the tree is an image, an anchor or a preformatted
    block. *)
Fixpoint no_shapes (node : element) : bool :=
  match node with
  | Element _ _ _ _ _ cs _ =>
      negb (tag_is node "img") && negb (tag_is node "a")
      && negb (tag_is node "pre") && forallb no_shapes cs
  | _ => true
  end.

(** The code macro for a language and a body. *)
Definition code_macro_body (language body : string) : element :=
  let parameter := fun name value =>
    Element (Some ac) "parameter" [] [mkAttr (Some ac) "name" name]
      [Text value] [] [] in
  Element (Some ac) "structured-macro" []
    [mkAttr (Some ac) "name" "code"; mkAttr (Some ac) "schema-version" "1"] []
    [parameter "theme" "Midnight"; parameter "language" language;
     parameter "linenumbers" "true";
     Element (Some ac) "plain-text-body" [] [] [CData body] [] []]
    [].

(** The markup of what an element contains. *)
Definition inner_markup (node : element) : string :=
  dump_texts (text_nodes node)
    +:+ String.concat EmptyString
          (map (fun c => dump c +:+ dump_texts (tail c)) (children node)).

(** The synthetic root around a text and children. *)
Definition synthetic_root (text : list text_node) (cs : list element)
  : element :=
  Element None "root" [ac; ri] [] text cs [].

(** Tab, carriage return and line feed, which [urlsplit] removes. *)
Definition is_unsafe (c : ascii) : bool :=
  let n := code c in ((n =? 9) || (n =? 13) || (n =? 10))%nat.

(** A character of a host that [urlsplit] takes as it is. *)
Definition is_host_char (c : ascii) : bool :=
  (code c <? 128)%nat && negb (char_in c "/?#[]") && negb (is_unsafe c).

(** A division around an anchor and the image paragraph. *)
Definition division_with_link_and_image : element :=
  Element None "div" [] [] []
    [relative_anchor; paragraph_with_image] [].

(** A paragraph of text with emphasis, free of the shapes the converter
    rewrites. *)
Definition plain_paragraph : element :=
  Element None "p" [] [] [Text "one "]
    [Element None "em" [] [] [Text "two"] [] [Text " three"]] [].

(** The attribute the converter looks up on [child] and does not find:
    [src] then [alt] on an image, bare or alone in a paragraph, and [href]
    on an anchor. *)
Definition missing_key (child : element) : option string :=
  let of_image := fun image : element =>
    match attrib_get image "src", attrib_get image "alt" with
    | None, _ => Some "src"
    | Some _, None => Some "alt"
    | Some _, Some _ => None
    end in
  if tag_is child "img" then of_image child
  else if tag_is child "a" then
    match attrib_get child "href" with
    | None => Some "href"
    | Some _ => None
    end
  else if tag_is child "p" then
    match children child with
    | [image] => if tag_is image "img" then of_image image else None
    | _ => None
    end
  else None.

(** An image without a caption. *)
Definition image_without_alt : element :=
  Element None "img" [] [mkAttr None "src" "a.png"] [] [] [].

(** No two slashes in a row. *)
Fixpoint no_double_slash (s : string) : bool :=
  match s with
  | String a r =>
      match r with
      | String b _ => negb (Ascii.eqb a "/" && Ascii.eqb b "/")
      | EmptyString => true
      end && no_double_slash r
  | EmptyString => true
  end.

(** A scheme [urlsplit] cuts off: an ASCII letter, then [scheme_chars]. *)
Definition is_scheme (s : string) : bool :=
  match s with
  | String c0 _ =>
      is_ascii_alpha c0 && all_of (fun c => char_in c scheme_chars) s
  | EmptyString => false
  end.

(** Nothing, or a path, a query or a fragment. *)
Definition starts_path (rest : string) : bool :=
  match rest with
  | String c _ => char_in c "/?#"
  | EmptyString => true
  end.

(** A page that is nothing but its identifier comment. *)
Definition html_comment_only : string := "<!-- confluence-page-id: 12 -->".

(** A preformatted block around a code element without text. *)
Definition pre_with_empty_code : element :=
  Element None "pre" [] [] [] [Element None "code" [] [] [] [] []] [].

(** The document built from [html_image_page]. *)
Definition image_page_document : ConfluenceDocument :=
  mkDocument "12" [] ["a.png"]
    (Handle (synthetic_root [] [banner_macro; image_macro]) []).

(** The name under which the root pattern accepts a start tag: [root],
    then nothing or white space. *)
Definition is_root_name (q : string) : bool :=
  match strip_prefix "root" q with
  | Some EmptyString => true
  | Some (String c _) => is_space c
  | None => false
  end.

(** What a start tag holds after the name of the element: the namespace
    declarations, then the attributes. *)
Definition attribute_markup (d : list xmlNs) (a : list attribute) : string :=
  String.concat EmptyString (map dump_ns d)
    +:+ String.concat EmptyString (map dump_attr a).

(** Names as XML has them: without the character that ends a tag. *)
Definition plain_ns (n : xmlNs) : bool :=
  match ns_prefix n with
  | Some p => negb (contains ">" p)
  | None => true
  end.

Definition plain_attr (a : attribute) : bool :=
  negb (contains ">" (qname (attr_ns a) (attr_name a))).

(** A division that holds a comment, a processing instruction and a
    paragraph with a macro identifier. *)
Definition division_with_comment : element :=
  Element None "div" [] [mkAttr (Some ac) "macro-id" "7"] []
    [Comment " note " []; ProcessingInstruction "pi" "x" [];
     Element None "p" [] [mkAttr (Some ac) "macro-id" "8"] [Text "x"] [] []]
    [].

(** The name of a node, for a record of the nodes a hook was handed. *)
Definition node_name (node : element) : string :=
  match node with
  | Element _ name _ _ _ _ _ => name
  | Comment _ _ => "#comment"
  | ProcessingInstruction _ _ _ => "#pi"
  end.

(** What [noting_transform] puts in the place of an element named [old]. *)
Definition noted_replacement : element :=
  Element None "new" [] [] [] [Element None "inner" [] [] [] [] []] [].

(** A hook that notes the name of every child it is handed, and replaces
    the elements named [old]. *)
Definition noting_transform (noted : list string) (child : element)
  : result (list string * element * option element) :=
  Ok (noted ++ [node_name child], child,
      if tag_is child "old" then Some noted_replacement else None).

(** A tree with a child that is replaced and a child that is entered. *)
Definition noted_kept : element :=
  Element None "kept" [] [] [] [Element None "entered" [] [] [] [] []] [].

Definition noted_tree : element :=
  Element None "top" [] [mkAttr None "id" "t"] [Text "x"]
    [Element None "old" [] [] [] [Element None "skipped" [] [] [] [] []] [];
     noted_kept]
    [].

(** Anchors for the concrete runs. *)
Definition absolute_anchor : element :=
  Element None "a" [] [mkAttr None "href" "https://x.com/y"] [Text "text"]
    [] [].

Definition anchor_to (url : string) : element :=
  Element None "a" [] [mkAttr None "href" url] [] [] [].

(** ** Results about the visitor *)

(** Short names for the two hooks. *)
Abbreviation Cleaner_transform :=
  ConfluenceStorageFormatCleaner_transform (only parsing).
Abbreviation Converter_transform :=
  ConfluenceStorageFormatConverter_transform (only parsing).

Section element_induction.

Variable P : element -> Prop.
Hypothesis P_element : forall ns name d a text cs tail,
  Forall P cs -> P (Element ns name d a text cs tail).
Hypothesis P_comment : forall c tail, P (Comment c tail).
Hypothesis P_pi : forall t c tail, P (ProcessingInstruction t c tail).

Lemma element_induction (node : element) : P node.
Proof.
  revert node. fix rec 1. intros node.
  destruct node as [ns name d a text cs tail|c tail|t c tail].
  - apply P_element. induction cs as [|c cs IH].
    + apply List.Forall_nil.
    + apply List.Forall_cons; [apply rec | exact IH].
  - apply P_comment.
  - apply P_pi.
Qed.

End element_induction.

Lemma set_children_children (node : element) :
  set_children node (children node) = node.
Proof. destruct node; reflexivity. Qed.

Lemma children_set_children (node : element) (cs : list element) :
  children node <> [] -> children (set_children node cs) = cs.
Proof. destruct node; simpl; congruence. Qed.

Lemma set_children_twice (node : element) (cs cs' : list element) :
  set_children (set_children node cs) cs' = set_children node cs'.
Proof. destruct node; reflexivity. Qed.

Lemma fold_left_raise {A B : Type} (f : result A -> B -> result A) (l : list B)
    (e : exn) :
  (forall b, f (Raise e) b = Raise e) -> fold_left f l (Raise e) = Raise e.
Proof.
  intros Hf. induction l as [|b l IH]; simpl; [reflexivity|].
  rewrite Hf. exact IH.
Qed.

Section VisitLaws.

Context {Self : Type}.
Variable transform :
  Self -> element -> result (Self * element * option element).

(** The loop from index [length done] on: the children already handled
    stay, the others are treated from left to right. *)
Lemma visit_loop (visit : Self -> element -> result (Self * element))
    (todo done : list element) (self : Self) (node : element) :
  children node = done ++ todo -> todo <> [] ->
  fold_left (visit_index transform visit) (seq (length done) (length todo))
    (Ok (self, node))
  = let! (self', todo') := visit_children_spec transform visit self todo in
    Ok (self', set_children node (done ++ todo')).
Proof.
  revert done self node.
  induction todo as [|c todo IH]; intros done self node Hcs Hne.
  - congruence.
  - assert (Hget : getitem node (length done) = Ok c).
    { unfold getitem. rewrite Hcs, list_lookup_middle by reflexivity.
      reflexivity. }
    assert (Hset : forall t, setitem node (length done) t
                             = set_children node ((done ++ [t]) ++ todo)).
    { intros t. unfold setitem. rewrite Hcs.
      replace (length done) with (length done + 0) by lia.
      rewrite insert_app_r. simpl. now rewrite <- app_assoc. }
    assert (Hnode : children node <> []).
    { rewrite Hcs. destruct done; discriminate. }
    cbn [length seq fold_left visit_children_spec].
    unfold visit_index at 2. cbn [bind]. rewrite Hget. cbn [bind].
    destruct (transform self c) as [[[self1 c1] [t|]]|e]; cbn [bind].
    + rewrite Hset.
      destruct todo as [|c' todo'].
      * simpl. now rewrite <- app_assoc.
      * replace (S (length done)) with (length (done ++ [t]))
          by (rewrite length_app; simpl; lia).
        rewrite IH.
        -- destruct (visit_children_spec transform visit self1 (c' :: todo'))
             as [[s r]|e]; cbn [bind]; [|reflexivity].
           now rewrite set_children_twice, <- app_assoc.
        -- now rewrite children_set_children.
        -- discriminate.
    + destruct (visit self1 c1) as [[self2 c2]|e]; cbn [bind].
      * rewrite Hset.
        destruct todo as [|c' todo'].
        -- simpl. now rewrite <- app_assoc.
        -- replace (S (length done)) with (length (done ++ [c2]))
             by (rewrite length_app; simpl; lia).
           rewrite IH.
           ++ destruct (visit_children_spec transform visit self2 (c' :: todo'))
                as [[s r]|e]; cbn [bind]; [|reflexivity].
              now rewrite set_children_twice, <- app_assoc.
           ++ now rewrite children_set_children.
           ++ discriminate.
      * apply fold_left_raise. reflexivity.
    + apply fold_left_raise. reflexivity.
Qed.

(** [visit] on a node with children. *)
Lemma visit_unfold (depth : nat) (self : Self) (node : element) :
  children node <> [] ->
  visit transform (S depth) self node
  = let! (self', cs) :=
      visit_children_spec transform (visit transform depth) self
        (children node) in
    Ok (self', set_children node cs).
Proof.
  intros Hne.
  destruct (children node) as [|c cs] eqn:Hcs; [congruence|].
  cbn [visit]. unfold len. rewrite Hcs.
  replace (length (c :: cs) <? 1)%nat with false by reflexivity.
  exact (visit_loop (visit transform depth) (c :: cs) [] self node Hcs Hne).
Qed.

Lemma visit_leaf (depth : nat) (self : Self) (node : element) :
  children node = [] -> visit transform depth self node = Ok (self, node).
Proof.
  intros H. destruct depth; cbn [visit]; unfold len; rewrite H; reflexivity.
Qed.

End VisitLaws.

(** ** Results about the cleaner *)

Lemma filter_both_keys (a : list attribute) :
  List.filter (fun x => negb (String.eqb (attr_key x) version_at_save))
    (List.filter (fun x => negb (String.eqb (attr_key x) macro_id)) a)
  = List.filter keep a.
Proof.
  induction a as [|x a IH]; [reflexivity|].
  unfold keep, is_volatile in *. cbn [List.filter].
  destruct (String.eqb (attr_key x) macro_id); cbn [negb orb List.filter].
  - exact IH.
  - destruct (String.eqb (attr_key x) version_at_save); cbn [negb];
      [exact IH | now rewrite IH].
Qed.

Lemma Cleaner_transform_element ns name d a text cs tail :
  Cleaner_transform tt (Element ns name d a text cs tail)
  = Ok (tt, strip (Element ns name d a text cs tail), None).
Proof.
  unfold Cleaner_transform. cbn [attrib_pop bind strip].
  now rewrite filter_both_keys.
Qed.

Lemma Cleaner_transform_strip (child : element) :
  Cleaner_transform tt child = Ok (tt, strip child, None).
Proof.
  destruct child; [apply Cleaner_transform_element | reflexivity ..].
Qed.

Lemma height_child (c : element) (cs : list element) :
  In c cs -> height c <= list_max (map height cs).
Proof.
  intros Hin. induction cs as [|x cs IH]; [destruct Hin|].
  simpl. destruct Hin as [->|Hin]; [lia|].
  specialize (IH Hin). lia.
Qed.

(** The walk of the cleaner over the children of a node. *)
Lemma cleaner_children (depth : nat) (cs : list element) :
  Forall (fun c => forall depth, height c <= depth ->
            visit Cleaner_transform depth tt (strip c) = Ok (tt, strip_deep c))
    cs ->
  list_max (map height cs) <= depth ->
  visit_children_spec Cleaner_transform (visit Cleaner_transform depth) tt cs
  = Ok (tt, map strip_deep cs).
Proof.
  induction 1 as [|c cs Hc _ IH]; intros Hh; [reflexivity|].
  simpl in Hh.
  cbn [visit_children_spec map].
  rewrite Cleaner_transform_strip. cbn [bind].
  rewrite (Hc depth) by lia. cbn [bind].
  rewrite IH by lia. reflexivity.
Qed.

Lemma cleaner_strip_deep (node : element) :
  forall depth, height node <= depth ->
    visit Cleaner_transform depth tt (strip node) = Ok (tt, strip_deep node).
Proof.
  induction node as [ns name d a text cs tail IH| |] using element_induction;
    intros depth Hh; try (now apply visit_leaf).
  destruct cs as [|c cs].
  - apply visit_leaf. reflexivity.
  - cbn [height] in Hh. destruct depth as [|depth]; [lia|].
    cbn [strip]. rewrite visit_unfold by discriminate.
    cbn [children]. rewrite (cleaner_children depth (c :: cs) IH) by lia.
    reflexivity.
Qed.

(** With depth enough for the tree, the cleaner returns the tree stripped
    below the node, comments and processing instructions included. *)
Lemma cleaner_strip_below (depth : nat) (node : element) :
  height node <= depth ->
  visit Cleaner_transform depth tt node = Ok (tt, strip_below node).
Proof.
  intros Hh. unfold strip_below.
  destruct (children node) as [|c cs] eqn:Hcs.
  - rewrite visit_leaf by assumption. cbn [map].
    now rewrite <- Hcs, set_children_children.
  - destruct node as [ns name d a text cs0 tail| |]; try discriminate.
    cbn [children] in Hcs. subst cs0.
    cbn [height] in Hh. destruct depth as [|depth]; [lia|].
    rewrite visit_unfold by discriminate. cbn [children].
    rewrite cleaner_children; [reflexivity| |lia].
    apply Forall_forall. intros x _. apply cleaner_strip_deep.
Qed.

Lemma lookup_attr_filter_keep (a : list attribute) :
  lookup_attr macro_id (List.filter keep a) = None
  /\ lookup_attr version_at_save (List.filter keep a) = None.
Proof.
  unfold lookup_attr. induction a as [|x a [IH1 IH2]]; [split; reflexivity|].
  cbn [List.filter]. destruct (keep x) eqn:K; [|split; assumption].
  cbn [List.find]. unfold keep, is_volatile in K.
  apply negb_true_iff, orb_false_iff in K as [E1 E2].
  rewrite E1, E2. split; assumption.
Qed.

Lemma descendant_strip_deep (d x : element) :
  descendant d x -> forall c, x = strip_deep c -> exists d0, d = strip_deep d0.
Proof.
  induction 1 as [d x Hin|d c1 x _ IH Hin]; intros c ->.
  - destruct c; cbn [strip_deep children] in Hin; try destruct Hin.
    apply in_map_iff in Hin as (d0 & <- & _). now exists d0.
  - destruct c; cbn [strip_deep children] in Hin; try destruct Hin.
    apply in_map_iff in Hin as (c0 & <- & _). now apply (IH c0).
Qed.

Lemma descendant_strip_below (d node : element) :
  descendant d (strip_below node) -> exists d0, d = strip_deep d0.
Proof.
  assert (Hch : forall c, In c (children (strip_below node)) ->
                          exists c0, c = strip_deep c0).
  { intros c Hin. unfold strip_below in Hin.
    destruct node; cbn [set_children children map] in Hin; try destruct Hin.
    apply in_map_iff in Hin as (c0 & <- & _). now exists c0. }
  inversion 1 as [c n Hin|d' c n Hd Hin]; subst.
  - now apply Hch.
  - destruct (Hch c Hin) as (c0 & ->).
    now apply (descendant_strip_deep d _ Hd c0).
Qed.

Lemma strip_deep_clean (d0 : element) :
  attrib_get (strip_deep d0) macro_id = None
  /\ attrib_get (strip_deep d0) version_at_save = None.
Proof.
  destruct d0; cbn [strip_deep]; unfold attrib_get; cbn [attrs];
    [apply lookup_attr_filter_keep | split; reflexivity ..].
Qed.

Lemma filter_keep_id (a : list attribute) :
  forallb keep a = true -> List.filter keep a = a.
Proof.
  induction a as [|x a IH]; [reflexivity|].
  cbn [forallb List.filter]. intros H. apply andb_prop in H as [-> H].
  now rewrite IH.
Qed.

Lemma strip_deep_id (node : element) :
  no_volatile node = true -> strip_deep node = node.
Proof.
  induction node as [ns name d a text cs tail IH| |] using element_induction;
    intros H; try reflexivity.
  cbn [no_volatile] in H. apply andb_prop in H as [Ha Hcs].
  cbn [strip_deep]. rewrite filter_keep_id by assumption. f_equal.
  induction IH as [|c cs Hc _ IHcs]; [reflexivity|].
  cbn [forallb] in Hcs. apply andb_prop in Hcs as [H1 H2].
  cbn [map]. now rewrite Hc, IHcs.
Qed.

Lemma strip_below_id (node : element) :
  forallb no_volatile (children node) = true -> strip_below node = node.
Proof.
  intros H. unfold strip_below.
  replace (map strip_deep (children node)) with (children node).
  - apply set_children_children.
  - induction (children node) as [|c cs IH]; [reflexivity|].
    cbn [forallb] in H. apply andb_prop in H as [H1 H2].
    cbn [map]. now rewrite strip_deep_id, <- IH.
Qed.

(** ** Results about strings and the identifier pattern *)

Lemma append_cons (x : ascii) (a b : string) :
  String x a +:+ b = String x (a +:+ b).
Proof. reflexivity. Qed.

Lemma append_nil (b : string) : EmptyString +:+ b = b.
Proof. reflexivity. Qed.

Lemma append_assoc (a b c : string) : (a +:+ b) +:+ c = a +:+ (b +:+ c).
Proof.
  induction a as [|x a IH]; [reflexivity|].
  now rewrite !append_cons, IH.
Qed.

Lemma length_append (a b : string) :
  String.length (a +:+ b) = String.length a + String.length b.
Proof.
  induction a as [|x a IH]; [reflexivity|].
  rewrite append_cons. simpl. now rewrite IH.
Qed.

Lemma strip_prefix_sound (lit s r : string) :
  strip_prefix lit s = Some r -> s = lit +:+ r.
Proof.
  revert s. induction lit as [|a lit IH]; intros s H; simpl in H.
  - now inversion H.
  - destruct s as [|b s]; [discriminate|].
    destruct (Ascii.eqb a b) eqn:E; [|discriminate].
    apply Ascii.eqb_eq in E. subst b. rewrite append_cons. f_equal.
    now apply IH.
Qed.

Lemma strip_prefix_append (lit r : string) :
  strip_prefix lit (lit +:+ r) = Some r.
Proof.
  induction lit as [|a lit IH]; [reflexivity|].
  rewrite append_cons. simpl. now rewrite Ascii.eqb_refl.
Qed.

Lemma span_sound (p : ascii -> bool) (s a b : string) :
  span p s = (a, b) -> s = a +:+ b /\ all_of p a = true.
Proof.
  revert a b. induction s as [|c s IH]; intros a b H; simpl in H.
  - inversion H. split; reflexivity.
  - destruct (p c) eqn:E.
    + destruct (span p s) as [a' b'] eqn:Hs. inversion H; subst.
      destruct (IH a' b eq_refl) as [-> Hall]. split; [reflexivity|].
      unfold all_of in *. simpl. now rewrite E.
    + inversion H. split; reflexivity.
Qed.

Lemma span_rest (p : ascii -> bool) (s a b : string) :
  span p s = (a, b) ->
  match b with String c _ => p c = false | EmptyString => True end.
Proof.
  revert a b. induction s as [|c s IH]; intros a b H; simpl in H.
  - inversion H. exact I.
  - destruct (p c) eqn:E.
    + destruct (span p s) as [a' b']. inversion H; subst. now apply (IH a').
    + inversion H; subst. exact E.
Qed.

(** A run of [p] followed by text that does not start in [p] is what
    [span] cuts off. *)
Lemma span_append (p : ascii -> bool) (a b : string) :
  all_of p a = true ->
  match b with String c _ => p c = false | EmptyString => True end ->
  span p (a +:+ b) = (a, b).
Proof.
  intros Ha Hb. induction a as [|x a IH].
  - rewrite append_nil. destruct b as [|c b]; [reflexivity|].
    simpl. now rewrite Hb.
  - unfold all_of in Ha. simpl in Ha. apply andb_prop in Ha as [Hx Ha].
    rewrite append_cons. simpl. now rewrite Hx, IH.
Qed.

Lemma drop_str_append (a r : string) : drop_str (String.length a) (a +:+ r) = r.
Proof.
  induction a as [|x a IH]; [reflexivity|]. rewrite append_cons. exact IH.
Qed.

Lemma drop_str_add (n k : nat) (s : string) :
  drop_str (n + k) s = drop_str k (drop_str n s).
Proof.
  revert s. induction n as [|n IH]; intros s; [reflexivity|].
  destruct s as [|c s]; simpl; [now destruct k | apply IH].
Qed.

Lemma nonempty_length (s : string) : nonempty s = true -> 1 <= String.length s.
Proof. destruct s; [discriminate | simpl; lia]. Qed.

(** A match of the pattern at the head of [s] is an identifier comment, and
    the length reported is the length of that comment. *)
Lemma match_page_id_here_sound (s d : string) (n : nat) :
  match_page_id_here s = Some (d, n) ->
  exists c : string,
    is_page_id_comment d c /\ s = c +:+ drop_str n s /\ String.length c = n.
Proof.
  unfold match_page_id_here. intros H.
  destruct (strip_prefix "<!--" s) as [r1|] eqn:H1; [|discriminate].
  destruct (span is_space r1) as [w1 r2] eqn:S1.
  destruct (nonempty w1) eqn:N1; [|discriminate]. cbn [negb] in H.
  destruct (strip_prefix "confluence-page-id:" r2) as [r3|] eqn:H2;
    [|discriminate].
  destruct (span is_space r3) as [w2 r4] eqn:S2.
  destruct (span is_digit r4) as [dd r5] eqn:S3.
  destruct (nonempty dd) eqn:N2; [|discriminate]. cbn [negb] in H.
  destruct (span is_space r5) as [w3 r6] eqn:S4.
  destruct (nonempty w3) eqn:N3; [|discriminate]. cbn [negb] in H.
  destruct (strip_prefix "-->" r6) as [r7|] eqn:H3; [|discriminate].
  injection H as Hdd Hn. subst dd.
  apply strip_prefix_sound in H1, H2, H3.
  apply span_sound in S1 as [E1 A1], S2 as [E2 A2], S3 as [E3 A3],
    S4 as [E4 A4].
  set (c := "<!--" +:+ w1 +:+ "confluence-page-id:" +:+ w2 +:+ d +:+ w3
            +:+ "-->").
  assert (Hs : s = c +:+ r7).
  { subst c. rewrite H1, E1, H2, E2, E3, E4, H3.
    now rewrite !append_assoc. }
  assert (Hl : String.length c = n).
  { subst c n. rewrite !length_append. simpl. lia. }
  exists c. split; [|split].
  - exists w1, w2, w3. repeat split; assumption.
  - rewrite <- Hl. rewrite Hs at 2. now rewrite drop_str_append.
  - exact Hl.
Qed.

(** Every identifier comment is matched. *)
Lemma match_page_id_here_complete (d c rest : string) :
  is_page_id_comment d c ->
  match_page_id_here (c +:+ rest) = Some (d, String.length c).
Proof.
  intros (w1 & w2 & w3 & -> & N1 & A1 & A2 & N2 & A3 & N3 & A4).
  assert (Hd : exists x d', d = String x d' /\ is_digit x = true).
  { destruct d as [|x d']; [discriminate|]. exists x, d'. split; [reflexivity|].
    unfold all_of in A3. simpl in A3. now apply andb_prop in A3 as [? _]. }
  destruct Hd as (x & d' & Hd & Hx).
  assert (Hw3 : exists y w', w3 = String y w' /\ is_space y = true).
  { destruct w3 as [|y w']; [discriminate|]. exists y, w'.
    split; [reflexivity|].
    unfold all_of in A4. simpl in A4. now apply andb_prop in A4 as [? _]. }
  destruct Hw3 as (y & w' & Hw3 & Hy).
  assert (Hxs : is_space x = false).
  { revert Hx. unfold is_digit, is_space.
    generalize (code x). intros k Hk.
    apply andb_prop in Hk as [K1 K2].
    apply Nat.leb_le in K1, K2.
    repeat match goal with
           | |- context [(?a <=? ?b)%nat] =>
               destruct (Nat.leb_spec a b)
           | |- context [(?a =? ?b)%nat] =>
               destruct (Nat.eqb_spec a b)
           end; simpl; try reflexivity; lia. }
  assert (Hyd : is_digit y = false).
  { revert Hy. unfold is_digit, is_space.
    generalize (code y). intros k Hk.
    repeat match goal with
           | H : context [(?a <=? ?b)%nat] |- _ =>
               destruct (Nat.leb_spec a b)
           | H : context [(?a =? ?b)%nat] |- _ =>
               destruct (Nat.eqb_spec a b)
           | |- context [(?a <=? ?b)%nat] =>
               destruct (Nat.leb_spec a b)
           end; simpl in *; try reflexivity; try discriminate; lia. }
  unfold match_page_id_here.
  rewrite !append_assoc. rewrite strip_prefix_append.
  rewrite (span_append is_space w1) by (assumption || reflexivity).
  rewrite N1. cbn [negb]. rewrite strip_prefix_append.
  rewrite (span_append is_space w2)
    by (assumption || (rewrite Hd; exact Hxs)).
  rewrite (span_append is_digit d)
    by (assumption || (rewrite Hw3; exact Hyd)).
  rewrite N2. cbn [negb].
  rewrite (span_append is_space w3) by (assumption || reflexivity).
  rewrite N3. cbn [negb]. rewrite strip_prefix_append.
  f_equal. f_equal. rewrite !length_append. simpl. lia.
Qed.

Lemma search_none_of_count (s : string) (pos : nat) :
  count_page_id s = 0 -> search_page_id_from pos s = None.
Proof.
  revert pos. induction s as [|c s IH]; intros pos H; [reflexivity|].
  cbn [count_page_id search_page_id_from] in H |- *.
  destruct (match_page_id_here (String c s)); [discriminate|].
  apply IH. lia.
Qed.

(** The match [re.search] returns is the leftmost one. *)
Lemma search_page_id_leftmost (s : string) (pos : nat) (m : Match) :
  search_page_id_from pos s = Some m ->
  exists k n, m_start m = pos + k /\ m_end m = pos + k + n
    /\ match_page_id_here (drop_str k s) = Some (group1 m, n)
    /\ forall j, j < k -> match_page_id_here (drop_str j s) = None.
Proof.
  revert pos. induction s as [|c s IH]; intros pos H; [discriminate|].
  cbn [search_page_id_from] in H.
  destruct (match_page_id_here (String c s)) as [[d n]|] eqn:E.
  - inversion H; subst; clear H. exists 0, n. cbn [m_start m_end group1].
    split; [lia|]. split; [lia|]. split; [exact E|]. intros j Hj; lia.
  - destruct (IH _ H) as (k & n & H1 & H2 & H3 & H4).
    exists (S k), n.
    split; [lia|]. split; [lia|]. split; [exact H3|].
    intros [|j] Hj; [exact E | apply H4; lia].
Qed.

Lemma search_some_of_count (s : string) (pos : nat) :
  1 <= count_page_id s -> exists m, search_page_id_from pos s = Some m.
Proof.
  revert pos. induction s as [|c s IH]; intros pos H; [simpl in H; lia|].
  cbn [count_page_id search_page_id_from] in H |- *.
  destruct (match_page_id_here (String c s)) as [[d n]|]; [eauto|].
  apply IH. lia.
Qed.

(** ** The visitor changes children only *)

Section VisitShell.

Context {Self : Type}.
Variable transform :
  Self -> element -> result (Self * element * option element).

Lemma visit_shell (depth : nat) (self self' : Self) (node node' : element) :
  visit transform depth self node = Ok (self', node') ->
  node' = set_children node (children node').
Proof.
  intros H. destruct (children node) as [|c cs] eqn:Hcs.
  - rewrite visit_leaf in H by assumption. inversion H; subst.
    now rewrite set_children_children.
  - destruct depth as [|depth].
    + cbn [visit] in H. unfold len in H. rewrite Hcs in H. discriminate.
    + rewrite visit_unfold in H by (rewrite Hcs; discriminate).
      destruct (visit_children_spec transform (visit transform depth) self
                  (children node)) as [[s cs']|e]; [|discriminate].
      cbn [bind] in H. inversion H; subst.
      rewrite children_set_children by (rewrite Hcs; discriminate).
      reflexivity.
Qed.

(** The attributes of the visited node play no part in the walk. *)
Lemma visit_strip (depth : nat) (self : Self) (node : element) :
  visit transform depth self (strip node)
  = let! (self', node') := visit transform depth self node in
    Ok (self', strip node').
Proof.
  assert (Hch : children (strip node) = children node)
    by (destruct node; reflexivity).
  destruct (children node) as [|c cs] eqn:Hcs.
  - rewrite !visit_leaf by congruence. reflexivity.
  - destruct depth as [|depth].
    + cbn [visit]. unfold len. rewrite Hch, Hcs. reflexivity.
    + rewrite !visit_unfold by (rewrite ?Hch, ?Hcs; discriminate).
      rewrite Hch, Hcs.
      destruct (visit_children_spec transform (visit transform depth) self
                  (c :: cs)) as [[s cs']|e]; [|reflexivity].
      cbn [bind]. destruct node; reflexivity.
Qed.

End VisitShell.

(** The cleaner fails only for want of depth. *)
Lemma cleaner_raises (node : element) :
  forall depth e,
    visit Cleaner_transform depth tt node = Raise e ->
    e = RecursionError /\ depth < height node.
Proof.
  induction node as [ns name d a text cs tail IH| |] using element_induction;
    intros depth e H;
    try (rewrite visit_leaf in H by reflexivity; discriminate).
  destruct cs as [|c0 cs0] eqn:Hcs.
  { rewrite visit_leaf in H by reflexivity. discriminate. }
  rewrite <- Hcs in *.
  assert (Hh : height (Element ns name d a text cs tail)
               = S (list_max (map height cs))) by (subst cs; reflexivity).
  rewrite Hh.
  destruct depth as [|depth].
  { cbn [visit] in H. unfold len in H. cbn [children] in H. subst cs.
    cbn in H. inversion H. split; [reflexivity | lia]. }
  rewrite visit_unfold in H by (subst cs; discriminate).
  cbn [children] in H.
  assert (Hcs' : forall e,
    visit_children_spec Cleaner_transform (visit Cleaner_transform depth)
      tt cs = Raise e ->
    e = RecursionError /\ depth < list_max (map height cs)).
  { clear H Hh Hcs. intros e'.
    induction IH as [|c cs Hc _ IHcs]; intros H; [discriminate|].
    cbn [visit_children_spec] in H.
    assert (Hmax : list_max (map height (c :: cs))
                   = Nat.max (height c) (list_max (map height cs)))
      by reflexivity.
    rewrite Hmax.
    rewrite Cleaner_transform_strip in H. cbn [bind] in H.
    rewrite visit_strip in H.
    destruct (visit Cleaner_transform depth tt c) as [[[] c2]|e2] eqn:Hv;
      cbn [bind] in H.
    - destruct (visit_children_spec Cleaner_transform
                  (visit Cleaner_transform depth) tt cs)
        as [[[] r]|e3] eqn:Hr; cbn [bind] in H; [discriminate|].
      inversion H; subst e3. destruct (IHcs eq_refl) as [-> Hlt].
      split; [reflexivity | lia].
    - inversion H; subst e2. destruct (Hc _ _ Hv) as [-> Hlt].
      split; [reflexivity | lia]. }
  destruct (visit_children_spec Cleaner_transform
              (visit Cleaner_transform depth) tt cs) as [[s r]|e'] eqn:Hr;
    cbn [bind] in H; [discriminate|].
  inversion H; subst e'. destruct (Hcs' _ eq_refl) as [-> Hlt].
  split; [reflexivity | lia].
Qed.

(** ** Results about serialisation and the root pattern *)

Lemma opens_tag_append (x y : string) : opens_tag x -> opens_tag (x +:+ y).
Proof.
  intros (c & x' & -> & Hc). exists c, (x' +:+ y). now rewrite append_cons.
Qed.

Lemma dump_element ns name d a text cs tail :
  exists x, dump (Element ns name d a text cs tail)
            = "<" +:+ qname ns name +:+ x /\ opens_tag x.
Proof.
  cbn [dump]. eexists. split; [reflexivity|].
  destruct d as [|n d].
  - destruct a as [|at1 a].
    + cbn [map String.concat]. rewrite !append_nil.
      destruct text, cs; eexists _, _; split; try reflexivity; auto.
    + cbn [map]. rewrite append_nil.
      apply opens_tag_append.
      assert (Hc : forall l, opens_tag (String.concat EmptyString (dump_attr at1 :: l))).
      { intros l. unfold dump_attr.
        destruct l; cbn [String.concat]; rewrite ?append_nil;
          repeat rewrite ?append_cons, ?append_nil;
          eexists _, _; split; try reflexivity; auto. }
      apply Hc.
  - cbn [map]. apply opens_tag_append.
    assert (Hc : forall l, opens_tag (String.concat EmptyString (dump_ns n :: l))).
    { intros l. unfold dump_ns.
      destruct (ns_prefix n), l; cbn [String.concat]; rewrite ?append_nil;
        repeat rewrite ?append_cons, ?append_nil;
        eexists _, _; split; try reflexivity; auto. }
    apply Hc.
Qed.

(** ** Results about the URL classification *)

Lemma all_of_append (p : ascii -> bool) (a b : string) :
  all_of p (a +:+ b) = all_of p a && all_of p b.
Proof.
  induction a as [|x a IH]; [reflexivity|].
  rewrite append_cons. unfold all_of in *. simpl. now rewrite IH, andb_assoc.
Qed.

Lemma all_of_span (p q : ascii -> bool) (s : string) :
  all_of p s = true ->
  all_of p (fst (span q s)) = true /\ all_of p (snd (span q s)) = true.
Proof.
  intros H. destruct (span q s) as [a b] eqn:E.
  apply span_sound in E as [-> _]. rewrite all_of_append in H.
  now apply andb_prop in H.
Qed.

Lemma all_of_remove_char (p : ascii -> bool) (c : ascii) (s : string) :
  all_of p s = true -> all_of p (remove_char c s) = true.
Proof.
  unfold all_of. induction s as [|x s IH]; [reflexivity|].
  simpl. intros H. apply andb_prop in H as [Hx Hs].
  destruct (Ascii.eqb x c); simpl; [auto | now rewrite Hx, IH].
Qed.

Lemma all_of_drop_str (p : ascii -> bool) (n : nat) (s : string) :
  all_of p s = true -> all_of p (drop_str n s) = true.
Proof.
  revert s. induction n as [|n IH]; intros s H; [exact H|].
  destruct s as [|x s]; [reflexivity|].
  unfold all_of in H. simpl in H. apply andb_prop in H as [_ H].
  now apply IH.
Qed.

Lemma all_of_split_scheme (p : ascii -> bool) (s : string) :
  all_of p s = true -> all_of p (split_scheme s) = true.
Proof.
  intros H. unfold split_scheme.
  destruct (all_of_span p (fun c => negb (Ascii.eqb c ":")) s H) as [_ Hb].
  destruct (span (fun c => negb (Ascii.eqb c ":")) s) as [head rest].
  cbn [snd] in Hb.
  destruct rest as [|c after]; [exact H|].
  destruct head as [|c0 head]; [exact H|].
  destruct (_ && _); [|exact H].
  unfold all_of in Hb. simpl in Hb. now apply andb_prop in Hb as [_ Hb].
Qed.

Lemma all_of_netloc_text (p : ascii -> bool) (url : string) :
  all_of p url = true -> all_of p (netloc_text url) = true.
Proof.
  intros H. unfold netloc_text.
  assert (H1 : all_of p (split_scheme (remove_unsafe
                 (lstrip is_c0_control_or_space url))) = true).
  { apply all_of_split_scheme. unfold remove_unsafe.
    do 3 apply all_of_remove_char. unfold lstrip.
    now apply all_of_span. }
  destruct (strip_prefix "//" _); [|reflexivity].
  unfold _splitnetloc. apply all_of_span. now apply all_of_drop_str.
Qed.

Lemma contains_all_of (c : ascii) (s : string) :
  contains c s = negb (all_of (fun x => negb (Ascii.eqb c x)) s).
Proof.
  unfold contains, char_in, all_of.
  induction (list_ascii_of_string s) as [|x l IH]; [reflexivity|].
  simpl. rewrite IH. now destruct (Ascii.eqb c x).
Qed.

Section UrlLaws.

Variable _check_bracketed_netloc : string -> result unit.
Variable _checknetloc_nfkc : string -> result unit.

Lemma urlparse_netloc_unfold (url : string) :
  urlparse_netloc _check_bracketed_netloc _checknetloc_nfkc url
  = let netloc := netloc_text url in
    let lb := contains "[" netloc in
    let rb := contains "]" netloc in
    let! netloc :=
      if (lb && negb rb) || (rb && negb lb) then Raise ValueError
      else if lb && rb then
             let! _ := _check_bracketed_netloc netloc in Ok netloc
           else Ok netloc in
    let! _ := _checknetloc _checknetloc_nfkc netloc in
    Ok netloc.
Proof.
  unfold urlparse_netloc, netloc_text.
  destruct (strip_prefix "//" _); reflexivity.
Qed.

(** Brackets that do not pair up in the network location: [ValueError]. *)
Lemma urlparse_unbalanced (url : string) :
  contains "[" (netloc_text url) <> contains "]" (netloc_text url) ->
  is_absolute_url _check_bracketed_netloc _checknetloc_nfkc url
  = Raise ValueError.
Proof.
  intros H. unfold is_absolute_url. rewrite urlparse_netloc_unfold. cbv zeta.
  destruct (contains "[" (netloc_text url)),
    (contains "]" (netloc_text url)); try congruence; reflexivity.
Qed.

Lemma urlparse_plain (url : string) :
  isascii url = true -> contains "[" url = false -> contains "]" url = false ->
  urlparse_netloc _check_bracketed_netloc _checknetloc_nfkc url
  = Ok (netloc_text url).
Proof.
  intros Ha Hl Hr. rewrite urlparse_netloc_unfold. cbv zeta.
  rewrite contains_all_of in Hl, Hr. apply negb_false_iff in Hl, Hr.
  rewrite !contains_all_of.
  rewrite (all_of_netloc_text _ url Hl), (all_of_netloc_text _ url Hr).
  cbn [negb andb orb bind]. unfold _checknetloc.
  change (isascii (netloc_text url))
    with (all_of (fun c => (code c <? 128)%nat) (netloc_text url)).
  rewrite (all_of_netloc_text _ url Ha). rewrite orb_true_r. reflexivity.
Qed.

End UrlLaws.

(** ** Results about the converter *)

Lemma tag_is_other (node : element) (s s' : string) :
  tag_is node s = true -> tag_is node s' = String.eqb s s'.
Proof.
  unfold tag_is. destruct (tag node); try discriminate.
  intros H. apply String.eqb_eq in H. now subst.
Qed.

Section VisitLength.

Context {Self : Type}.
Variable transform :
  Self -> element -> result (Self * element * option element).

Lemma visit_children_spec_length
    (visit : Self -> element -> result (Self * element))
    (cs cs' : list element) (self self' : Self) :
  visit_children_spec transform visit self cs = Ok (self', cs') ->
  length cs' = length cs.
Proof.
  revert self self' cs'. induction cs as [|c cs IH]; intros self self' cs' H.
  - inversion H. reflexivity.
  - cbn [visit_children_spec] in H.
    destruct (transform self c) as [[[s1 c1] [t|]]|e]; cbn [bind] in H;
      try discriminate.
    + destruct (visit_children_spec transform visit s1 cs) as [[s2 r]|e] eqn:E;
        cbn [bind] in H; [|discriminate].
      inversion H; subst. simpl. f_equal. eapply IH, E.
    + destruct (visit s1 c1) as [[s2 c2]|e]; cbn [bind] in H; [|discriminate].
      destruct (visit_children_spec transform visit s2 cs) as [[s3 r]|e] eqn:E;
        cbn [bind] in H; [|discriminate].
      inversion H; subst. simpl. f_equal. eapply IH, E.
Qed.

Lemma visit_len (depth : nat) (self self' : Self) (node node' : element) :
  visit transform depth self node = Ok (self', node') -> len node' = len node.
Proof.
  intros H. unfold len. destruct (children node) as [|c cs] eqn:Hcs.
  - rewrite visit_leaf in H by assumption. inversion H; subst. now rewrite Hcs.
  - destruct depth as [|depth].
    + cbn [visit] in H. unfold len in H. rewrite Hcs in H. discriminate.
    + rewrite visit_unfold in H by (rewrite Hcs; discriminate).
      destruct (visit_children_spec transform (visit transform depth) self
                  (children node)) as [[s cs']|e] eqn:E; [|discriminate].
      cbn [bind] in H. inversion H; subst.
      rewrite children_set_children by (rewrite Hcs; discriminate).
      rewrite <- Hcs. eapply visit_children_spec_length, E.
Qed.

End VisitLength.

(** ** Cleaning twice *)

Lemma filter_keep_twice (a : list attribute) :
  List.filter keep (List.filter keep a) = List.filter keep a.
Proof.
  apply filter_keep_id. apply forallb_forall. intros x Hx.
  now apply filter_In in Hx.
Qed.

Lemma strip_twice (node : element) : strip (strip node) = strip node.
Proof.
  destruct node; cbn [strip];
    [now rewrite filter_keep_twice | reflexivity ..].
Qed.

Lemma strip_deep_twice (node : element) :
  strip_deep (strip_deep node) = strip_deep node.
Proof.
  induction node as [ns name d a text cs tail IH| |] using element_induction;
    try reflexivity.
  cbn [strip_deep]. rewrite filter_keep_twice, map_map. f_equal.
  apply map_ext_in. intros c Hc.
  rewrite List.Forall_forall in IH. now apply IH.
Qed.

Lemma strip_strip_below (node : element) :
  strip (strip_below node) = strip_deep node.
Proof. destruct node; reflexivity. Qed.

(** When the cleaner succeeds on children, it has stripped them, and it
    leaves the outcome as it is when run again. *)
Lemma cleaner_children_ok (depth : nat) (cs : list element) :
  Forall (fun c => forall depth c',
            visit Cleaner_transform depth tt c = Ok (tt, c') ->
            c' = strip_below c
            /\ visit Cleaner_transform depth tt c' = Ok (tt, c')) cs ->
  forall cs',
    visit_children_spec Cleaner_transform (visit Cleaner_transform depth)
      tt cs = Ok (tt, cs') ->
    cs' = map strip_deep cs
    /\ visit_children_spec Cleaner_transform (visit Cleaner_transform depth)
         tt cs' = Ok (tt, cs').
Proof.
  induction 1 as [|c cs Hc _ IH]; intros cs' H.
  - inversion H. split; reflexivity.
  - cbn [visit_children_spec] in H.
    rewrite Cleaner_transform_strip in H. cbn [bind] in H.
    rewrite visit_strip in H.
    destruct (visit Cleaner_transform depth tt c) as [[[] c1]|e] eqn:Hv;
      cbn [bind] in H; [|discriminate].
    destruct (visit_children_spec Cleaner_transform
                (visit Cleaner_transform depth) tt cs) as [[[] r]|e] eqn:Hr;
      cbn [bind] in H; [|discriminate].
    inversion H; subst cs'; clear H.
    destruct (Hc _ _ Hv) as [Hc1 Hagain].
    destruct (IH _ eq_refl) as [-> Hragain].
    assert (Hs : strip c1 = strip_deep c)
      by (rewrite Hc1; apply strip_strip_below).
    split; [cbn [map]; now rewrite Hs|].
    cbn [visit_children_spec]. rewrite Hs.
    rewrite Cleaner_transform_strip.
    rewrite <- Hs, strip_twice. cbn [bind].
    rewrite visit_strip, Hagain. cbn [bind]. rewrite Hragain. reflexivity.
Qed.

Lemma cleaner_ok (node : element) :
  forall depth node',
    visit Cleaner_transform depth tt node = Ok (tt, node') ->
    node' = strip_below node
    /\ visit Cleaner_transform depth tt node' = Ok (tt, node').
Proof.
  induction node as [ns name d a text cs tail IH| |] using element_induction;
    intros depth node' H;
    try (rewrite visit_leaf in H by reflexivity; inversion H; subst;
         split; [reflexivity | now apply visit_leaf]).
  destruct cs as [|c0 cs0] eqn:Hcs.
  { rewrite visit_leaf in H by reflexivity. inversion H; subst.
    split; [reflexivity | now apply visit_leaf]. }
  rewrite <- Hcs in *.
  destruct depth as [|depth].
  { cbn [visit] in H. unfold len in H. cbn [children] in H. subst cs.
    discriminate. }
  rewrite visit_unfold in H by (subst cs; discriminate).
  cbn [children] in H.
  destruct (visit_children_spec Cleaner_transform
              (visit Cleaner_transform depth) tt cs) as [[[] cs']|e] eqn:E;
    cbn [bind] in H; [|discriminate].
  inversion H; subst node'; clear H.
  destruct (cleaner_children_ok depth cs IH cs' E) as [-> Hagain].
  split; [reflexivity|].
  cbn [set_children].
  rewrite visit_unfold by (subst cs; discriminate).
  cbn [children]. rewrite Hagain. reflexivity.
Qed.

(** ** The language and root patterns, declaratively *)

Lemma re_match_language_sound (cls name : string) :
  re_match_language cls = Some name ->
  all_of (fun c => negb (Ascii.eqb c newline)) name = true
  /\ (cls = "language-" +:+ name
      \/ cls = "language-" +:+ name +:+ String newline EmptyString).
Proof.
  unfold re_match_language. intros H.
  destruct (strip_prefix "language-" cls) as [rest|] eqn:Hp; [|discriminate].
  apply strip_prefix_sound in Hp.
  destruct (span (fun c => negb (Ascii.eqb c newline)) rest) as [n after]
    eqn:Hs.
  assert (Hafter : match after with
                   | String c _ => c = newline
                   | EmptyString => True
                   end).
  { pose proof (span_rest _ _ _ _ Hs) as Hr.
    destruct after as [|c after]; [exact I|].
    apply negb_false_iff in Hr. now apply Ascii.eqb_eq in Hr. }
  apply span_sound in Hs as [-> Hall].
  destruct after as [|c [|c' after]]; try discriminate;
    inversion H; subst n; (split; [exact Hall|]).
  - left. rewrite Hp. f_equal.
    clear. induction name as [|x n IH]; [reflexivity|].
    now rewrite append_cons, IH.
  - right. now rewrite Hp, Hafter.
Qed.

Lemma list_of_append (a b : string) :
  list_ascii_of_string (a +:+ b)
  = list_ascii_of_string a ++ list_ascii_of_string b.
Proof.
  induction a as [|x a IH]; [reflexivity|].
  rewrite append_cons. simpl. now rewrite IH.
Qed.

Lemma string_of_app (l1 l2 : list ascii) :
  string_of_list_ascii (l1 ++ l2)
  = string_of_list_ascii l1 +:+ string_of_list_ascii l2.
Proof.
  induction l1 as [|x l1 IH]; [reflexivity|].
  simpl. now rewrite append_cons, IH.
Qed.

Lemma rev_str_append (a b : string) :
  rev_str (a +:+ b) = rev_str b +:+ rev_str a.
Proof.
  unfold rev_str. now rewrite list_of_append, rev_app_distr, string_of_app.
Qed.

Lemma rev_str_involutive (s : string) : rev_str (rev_str s) = s.
Proof.
  unfold rev_str.
  now rewrite list_ascii_of_string_of_list_ascii, rev_involutive,
    string_of_list_ascii_of_string.
Qed.

Lemma all_of_rev_str (p : ascii -> bool) (s : string) :
  all_of p (rev_str s) = all_of p s.
Proof.
  unfold all_of, rev_str. rewrite list_ascii_of_string_of_list_ascii.
  induction (list_ascii_of_string s) as [|x l IH]; [reflexivity|].
  simpl. rewrite forallb_app, IH. simpl.
  now rewrite andb_true_r, andb_comm.
Qed.

(** What the root pattern matches: [<root], white space, text without
    [>], a [>], the group, [</root>] and white space to the end. *)
Lemma re_match_root_sound (xml g : string) :
  re_match_root xml = Some g ->
  exists w a t : string,
    xml = "<root" +:+ w +:+ a +:+ ">" +:+ g +:+ "</root>" +:+ t
    /\ nonempty w = true /\ all_of is_space w = true
    /\ all_of (fun c => negb (Ascii.eqb c ">")) a = true
    /\ all_of is_space t = true.
Proof.
  unfold re_match_root. intros H.
  destruct (strip_prefix "<root" xml) as [r1|] eqn:H1; [|discriminate].
  apply strip_prefix_sound in H1.
  destruct (span is_space r1) as [w r2] eqn:S1.
  destruct (nonempty w) eqn:N; [|discriminate]. cbn [negb] in H.
  destruct (span (fun c => negb (Ascii.eqb c ">")) r2) as [a r3] eqn:S2.
  assert (Hr3 : match r3 with
                | String c _ => c = ">"%char
                | EmptyString => True
                end).
  { pose proof (span_rest _ _ _ _ S2) as Hr.
    destruct r3 as [|c r3]; [exact I|].
    apply negb_false_iff in Hr. now apply Ascii.eqb_eq in Hr. }
  apply span_sound in S1 as [E1 A1], S2 as [E2 A2].
  destruct r3 as [|c body]; [discriminate|]. subst c.
  unfold lstrip in H.
  destruct (span is_space (rev_str body)) as [t' back] eqn:S3.
  cbn [snd] in H. apply span_sound in S3 as [E3 A3].
  destruct (strip_prefix (rev_str "</root>") back) as [b|] eqn:H2;
    [|discriminate].
  apply strip_prefix_sound in H2. inversion H; subst g; clear H.
  exists w, a, (rev_str t'). repeat split; try assumption.
  - rewrite H1, E1, E2. do 3 f_equal.
    change (String ">" body) with (">" +:+ body). f_equal.
    rewrite <- (rev_str_involutive body), E3, H2.
    rewrite !rev_str_append, rev_str_involutive.
    now rewrite !append_assoc.
  - now rewrite all_of_rev_str.
Qed.

(** ** Further helpers *)

Lemma set_children_shell (node : element) (cs : list element) :
  tag (set_children node cs) = tag node
  /\ attrs (set_children node cs) = attrs node
  /\ text_nodes (set_children node cs) = text_nodes node
  /\ tail (set_children node cs) = tail node.
Proof. destruct node; repeat split; reflexivity. Qed.

Lemma re_match_language_named (name : string) :
  all_of (fun c => negb (Ascii.eqb c newline)) name = true ->
  re_match_language ("language-" +:+ name) = Some name.
Proof.
  intros H. unfold re_match_language. rewrite strip_prefix_append.
  replace name with (name +:+ EmptyString) at 1
    by (clear H; induction name as [|x n IH]; [reflexivity|];
        now rewrite append_cons, IH).
  rewrite span_append by (assumption || exact I). reflexivity.
Qed.

Lemma take_drop_str (n : nat) (s : string) :
  s = take_str n s +:+ drop_str n s.
Proof.
  revert s. induction n as [|n IH]; intros s; [now destruct s|].
  destruct s as [|c s]; [reflexivity|].
  cbn [take_str drop_str]. rewrite append_cons. f_equal. apply IH.
Qed.

(** ** Further properties of the visitor *)

Section VisitPreorder.

Context {Self : Type}.
Variable transform :
  Self -> element -> result (Self * element * option element).
Variable R : Self -> Self -> Prop.
Hypothesis R_refl : forall a, R a a.
Hypothesis R_trans : forall a b c, R a b -> R b c -> R a c.
Hypothesis transform_R : forall self child self' child' target,
  transform self child = Ok (self', child', target) -> R self self'.

Lemma visit_children_preorder
    (visit : Self -> element -> result (Self * element)) :
  (forall s c s' c', visit s c = Ok (s', c') -> R s s') ->
  forall cs self self' cs',
    visit_children_spec transform visit self cs = Ok (self', cs') ->
    R self self'.
Proof.
  intros Hvisit. induction cs as [|c cs IH]; intros self self' cs' H.
  - inversion H. apply R_refl.
  - cbn [visit_children_spec] in H.
    destruct (transform self c) as [[[s1 c1] [t|]]|e] eqn:Ht; cbn [bind] in H;
      try discriminate; apply transform_R in Ht.
    + destruct (visit_children_spec transform visit s1 cs) as [[s2 r]|e] eqn:E;
        cbn [bind] in H; [|discriminate].
      inversion H; subst. eapply R_trans; [exact Ht | eapply IH, E].
    + destruct (visit s1 c1) as [[s2 c2]|e] eqn:Hv; cbn [bind] in H;
        [|discriminate].
      destruct (visit_children_spec transform visit s2 cs) as [[s3 r]|e] eqn:E;
        cbn [bind] in H; [|discriminate].
      inversion H; subst.
      eapply R_trans; [exact Ht|].
      eapply R_trans; [eapply Hvisit, Hv | eapply IH, E].
Qed.

(** A preorder the hook respects is respected by the whole walk. *)
Lemma visit_preorder (depth : nat) :
  forall self node self' node',
    visit transform depth self node = Ok (self', node') -> R self self'.
Proof.
  induction depth as [|depth IH]; intros self node self' node' H;
    destruct (children node) as [|c cs] eqn:Hcs;
    try (rewrite visit_leaf in H by assumption; inversion H; apply R_refl).
  - cbn [visit] in H. unfold len in H. rewrite Hcs in H. discriminate.
  - rewrite visit_unfold in H by (rewrite Hcs; discriminate).
    destruct (visit_children_spec transform (visit transform depth) self
                (children node)) as [[s cs']|e] eqn:E; [|discriminate].
    cbn [bind] in H. inversion H; subst.
    eapply visit_children_preorder; [exact IH | exact E].
Qed.

End VisitPreorder.

Section VisitIdentity.

Context {Self : Type}.
Variable transform :
  Self -> element -> result (Self * element * option element).
Variable Q : element -> Prop.
Hypothesis Q_children : forall node c, Q node -> In c (children node) -> Q c.
Hypothesis transform_Q : forall self child,
  Q child -> transform self child = Ok (self, child, None).

(** Where the hook neither replaces nor changes anything, the walk returns
    the node and the visitor as they were. *)
Lemma visit_identity (node : element) :
  forall depth self,
    (forall c, In c (children node) -> Q c) -> height node <= depth ->
    visit transform depth self node = Ok (self, node).
Proof.
  induction node as [ns name d a text cs tail IH| |] using element_induction;
    intros depth self HQ Hh; try (now apply visit_leaf).
  destruct cs as [|c0 cs0] eqn:Hcs; [now apply visit_leaf|].
  rewrite <- Hcs in *.
  assert (Hheight : height (Element ns name d a text cs tail)
                    = S (list_max (map height cs))) by (subst cs; reflexivity).
  rewrite Hheight in Hh. destruct depth as [|depth]; [lia|].
  rewrite visit_unfold by (subst cs; discriminate).
  cbn [children] in *.
  assert (Hcs' : forall self,
    visit_children_spec transform (visit transform depth) self cs
    = Ok (self, cs)).
  { assert (Hmax : list_max (map height cs) <= depth) by lia.
    clear Hcs Hheight Hh. intros s.
    induction IH as [|c cs Hc _ IHcs]; [reflexivity|].
    simpl in Hmax. cbn [visit_children_spec].
    rewrite transform_Q by (apply HQ; now left). cbn [bind].
    rewrite Hc; [|intros x Hx; eapply Q_children; [apply HQ; now left|exact Hx]
                 |lia].
    cbn [bind]. rewrite IHcs; [reflexivity| |lia].
    intros x Hx. apply HQ. now right. }
  rewrite Hcs'. reflexivity.
Qed.

End VisitIdentity.

(** X1. Whatever the hook, a walk that returns has changed at most the
    children of the node it was run on: tag, attributes, text and tail are
    those of the input, and so is the number of children. *)
Theorem X1_visit_keeps_node_and_size {Self : Type}
    (transform : Self -> element -> result (Self * element * option element))
    (depth : nat) (self self' : Self) (node node' : element) :
  visit transform depth self node = Ok (self', node') ->
  tag node' = tag node /\ attrs node' = attrs node
  /\ text_nodes node' = text_nodes node /\ tail node' = tail node
  /\ len node' = len node.
Proof.
  intros Hv.
  pose proof (visit_shell transform _ _ _ _ _ Hv) as Hshell.
  pose proof (visit_len transform _ _ _ _ _ Hv) as Hlen.
  destruct (set_children_shell node (children node')) as (H1 & H2 & H3 & H4).
  rewrite <- Hshell in H1, H2, H3, H4. repeat split; assumption.
Qed.

Lemma X1_witness :
  len (Element None "div" [] [] []
         [Element None "a" [] [mkAttr None "href" "./doc.md"]
            [Text "text"] [] [];
          image_macro] [])
  = len division_with_link_and_image.
Proof.
  refine (proj2 (proj2 (proj2 (proj2
    (X1_visit_keeps_node_and_size T_ref run_limit
       ConfluenceStorageFormatConverter_init
       (mkConverter ["./doc.md"] ["a.png"])
       division_with_link_and_image _ _))))).
  vm_compute. reflexivity.
Defined.

(** X2. The hook of the base class does nothing: with depth enough for the
    height of the node, [visit] of a plain [NodeVisitor] returns the tree
    and the visitor unchanged. *)
Theorem X2_base_visitor_is_identity {Self : Type} (depth : nat) (self : Self)
    (node : element) :
  height node <= depth ->
  visit NodeVisitor_transform depth self node = Ok (self, node).
Proof.
  intros Hh.
  apply (visit_identity NodeVisitor_transform (fun _ => True)); auto.
Qed.

Lemma X2_witness :
  visit NodeVisitor_transform 2 tt division_with_link_and_image
  = Ok (tt, division_with_link_and_image).
Proof.
  apply X2_base_visitor_is_identity. vm_compute. apply le_n.
Defined.

(** ** Further properties of the converter *)

Lemma extends_refl (a : ConfluenceStorageFormatConverter) : extends a a.
Proof. exists [], []. now rewrite !app_nil_r. Qed.

Lemma extends_trans (a b c : ConfluenceStorageFormatConverter) :
  extends a b -> extends b c -> extends a c.
Proof.
  intros (l1 & i1 & H1 & H2) (l2 & i2 & H3 & H4).
  exists (l1 ++ l2), (i1 ++ i2).
  rewrite H3, H4, H1, H2, <- !app_assoc. split; reflexivity.
Qed.

Section ConverterLaws.

Variable fromstringlist : list string -> XMLSyntaxError + element.
Variable chk nf : string -> result unit.

Lemma transform_link_extends self anchor self' target :
  _transform_link chk nf self anchor = Ok (self', target) ->
  extends self self' /\ target = None.
Proof.
  unfold _transform_link. intros H.
  destruct (attrib_getitem anchor "href") as [url|e]; [|discriminate].
  cbn [bind] in H.
  destruct (is_absolute_url chk nf url) as [[|]|e]; cbn [bind negb] in H;
    inversion H; subst; (split; [|reflexivity]).
  - apply extends_refl.
  - exists [url], []. cbn [links images]. now rewrite app_nil_r.
Qed.

Lemma transform_image_extends self image self' target :
  _transform_image fromstringlist self image = Ok (self', target) ->
  extends self self'.
Proof.
  unfold _transform_image. intros H.
  destruct (attrib_getitem image "src") as [path|e]; [|discriminate].
  cbn [bind] in H.
  destruct (attrib_getitem image "alt") as [caption|e]; [|discriminate].
  cbn [bind] in H.
  destruct (element_from_string_list _ _) as [macro|e]; [|discriminate].
  cbn [bind] in H. inversion H; subst.
  exists [], [path]. cbn [links images]. now rewrite app_nil_r.
Qed.

Lemma transform_block_same self code self' target :
  _transform_block fromstringlist self code = Ok (self', target) ->
  self' = self.
Proof.
  unfold _transform_block. intros H.
  destruct (match attrib_get code "class" with
            | Some cls =>
                if nonempty cls then
                  match re_match_language cls with
                  | Some name => Ok (Some name)
                  | None => Raise AttributeError
                  end
                else Ok (attrib_get code "class")
            | None => Ok (attrib_get code "class")
            end) as [language|e]; [|discriminate].
  cbn [bind] in H.
  destruct (element_from_string_list _ _) as [macro|e]; [|discriminate].
  cbn [bind] in H. now inversion H.
Qed.

Lemma Converter_transform_extends self child self' child' target :
  Converter_transform fromstringlist chk nf self child
  = Ok (self', child', target) ->
  extends self self'.
Proof.
  unfold ConfluenceStorageFormatConverter_transform. intros H.
  destruct (tag_is child "p" && (len child =? 1)%nat
            && child0_tag_is child "img").
  { destruct (getitem child 0) as [image|e]; [|discriminate].
    cbn [bind] in H.
    destruct (_transform_image fromstringlist self image) as [[s t]|e] eqn:E;
      [|discriminate].
    cbn [bind] in H. inversion H; subst. eapply transform_image_extends, E. }
  destruct (tag_is child "img").
  { destruct (_transform_image fromstringlist self child) as [[s t]|e] eqn:E;
      [|discriminate].
    cbn [bind] in H. inversion H; subst. eapply transform_image_extends, E. }
  destruct (tag_is child "a").
  { destruct (_transform_link chk nf self child) as [[s t]|e] eqn:E;
      [|discriminate].
    cbn [bind] in H. inversion H; subst.
    eapply transform_link_extends, E. }
  destruct (tag_is child "pre" && (len child =? 1)%nat
            && child0_tag_is child "code").
  { destruct (getitem child 0) as [code|e]; [|discriminate].
    cbn [bind] in H.
    destruct (_transform_block fromstringlist self code) as [[s t]|e] eqn:E;
      [|discriminate].
    cbn [bind] in H. inversion H; subst.
    apply transform_block_same in E. subst. apply extends_refl. }
  cbn [bind] in H. inversion H; subst. apply extends_refl.
Qed.

Lemma no_shapes_children (node c : element) :
  no_shapes node = true -> In c (children node) -> no_shapes c = true.
Proof.
  destruct node as [ns name d a text cs tail| |]; cbn [children];
    try (intros _ []).
  cbn [no_shapes]. intros H Hin.
  apply andb_prop in H as [_ H]. rewrite forallb_forall in H. now apply H.
Qed.

Lemma no_shapes_tags (c : element) :
  no_shapes c = true ->
  tag_is c "img" = false /\ tag_is c "a" = false /\ tag_is c "pre" = false.
Proof.
  destruct c as [ns name d a text cs tail| |];
    try (intros _; repeat split; reflexivity).
  cbn [no_shapes]. intros H.
  apply andb_prop in H as [H _]. apply andb_prop in H as [H H3].
  apply andb_prop in H as [H1 H2].
  apply negb_true_iff in H1, H2, H3. repeat split; assumption.
Qed.

Lemma Converter_transform_no_shapes self child :
  no_shapes child = true ->
  Converter_transform fromstringlist chk nf self child
  = Ok (self, child, None).
Proof.
  intros H. unfold ConfluenceStorageFormatConverter_transform.
  destruct (no_shapes_tags child H) as (H1 & H2 & H3).
  rewrite H1, H2, H3.
  assert (H0 : child0_tag_is child "img" = false).
  { unfold child0_tag_is.
    destruct (children child) as [|c cs] eqn:Hcs; [reflexivity|].
    cbn [lookup list_lookup].
    apply (no_shapes_tags c), (no_shapes_children child); [exact H|].
    rewrite Hcs. now left. }
  rewrite H0, !andb_false_r. cbn [andb bind]. reflexivity.
Qed.

End ConverterLaws.

(** X3. The converter only ever appends: whenever its walk over a tree
    returns, the lists [links] and [images] it ends with are the ones it
    started with, followed by what was found. *)
Theorem X3_converter_appends_only
    (fromstringlist : list string -> XMLSyntaxError + element)
    (chk nf : string -> result unit) (depth : nat)
    (self self' : ConfluenceStorageFormatConverter) (node node' : element) :
  visit (ConfluenceStorageFormatConverter_transform fromstringlist chk nf)
    depth self node = Ok (self', node') ->
  exists more_links more_images,
    links self' = links self ++ more_links
    /\ images self' = images self ++ more_images.
Proof.
  apply (visit_preorder _ extends extends_refl extends_trans).
  apply Converter_transform_extends.
Qed.

Lemma X3_witness :
  exists more_links more_images,
    ["seen.md"; "./doc.md"] = ["seen.md"] ++ more_links
    /\ ["a.png"] = [] ++ more_images.
Proof.
  refine (X3_converter_appends_only Reference.fromstringlist no_check no_check
            run_limit (mkConverter ["seen.md"] [])
            (mkConverter ["seen.md"; "./doc.md"] ["a.png"])
            division_with_link_and_image _ _).
  vm_compute. reflexivity.
Defined.

Section VisitRaises.

Context {Self : Type}.
Variable transform :
  Self -> element -> result (Self * element * option element).
Variable Q : element -> Prop.
Hypothesis Q_children : forall node c, Q node -> In c (children node) -> Q c.
Hypothesis transform_Q : forall self child,
  Q child -> transform self child = Ok (self, child, None).

(** The walk stops with the error of the first child on which the hook
    fails, when the hook leaves the children before it alone. *)
Lemma visit_raises_at (depth : nat) (self : Self) (node : element)
    (before after : list element) (child : element) (e : exn) :
  children node = before ++ child :: after ->
  (forall c, In c before -> Q c) ->
  (forall c, In c before -> height c <= depth) ->
  transform self child = Raise e ->
  visit transform (S depth) self node = Raise e.
Proof.
  intros Hcs HQ Hh He.
  rewrite visit_unfold by (rewrite Hcs; now destruct before).
  rewrite Hcs. clear Hcs.
  assert (H : visit_children_spec transform (visit transform depth) self
                (before ++ child :: after) = Raise e).
  { induction before as [|b before IH].
    - cbn [app visit_children_spec]. now rewrite He.
    - cbn [app visit_children_spec].
      rewrite transform_Q by (apply HQ; now left). cbn [bind].
      rewrite (visit_identity transform Q Q_children transform_Q);
        [|intros c Hc; eapply Q_children; [apply HQ; now left|exact Hc]
         |apply Hh; now left].
      cbn [bind]. rewrite IH; [reflexivity| |];
        intros c Hc; [apply HQ|apply Hh]; now right. }
  now rewrite H.
Qed.

End VisitRaises.

Section VisitInvariant.

Context {Self : Type}.
Variable transform :
  Self -> element -> result (Self * element * option element).
Variable Q : element -> Prop.
Variable Inv : Self -> Prop.
Hypothesis Q_children : forall node c, Q node -> In c (children node) -> Q c.
Hypothesis transform_Inv : forall self child self' child' target,
  Q child -> Inv self -> transform self child = Ok (self', child', target) ->
  Inv self' /\ Q child'.

Lemma visit_children_invariant
    (visit : Self -> element -> result (Self * element)) :
  (forall s c s' c',
     (forall x, In x (children c) -> Q x) -> Inv s ->
     visit s c = Ok (s', c') -> Inv s') ->
  forall cs self self' cs',
    (forall c, In c cs -> Q c) -> Inv self ->
    visit_children_spec transform visit self cs = Ok (self', cs') ->
    Inv self'.
Proof.
  intros Hvisit. induction cs as [|c cs IH]; intros self self' cs' HQ HI H.
  - now inversion H; subst.
  - cbn [visit_children_spec] in H.
    destruct (transform self c) as [[[s1 c1] [t|]]|e] eqn:Ht; cbn [bind] in H;
      try discriminate;
      apply transform_Inv in Ht as [HI1 HQ1]; try (apply HQ; now left);
      try assumption.
    + destruct (visit_children_spec transform visit s1 cs) as [[s2 r]|e] eqn:E;
        cbn [bind] in H; [|discriminate].
      inversion H; subst. eapply IH; [|exact HI1|exact E].
      intros x Hx. apply HQ. now right.
    + destruct (visit s1 c1) as [[s2 c2]|e] eqn:Hv; cbn [bind] in H;
        [|discriminate].
      destruct (visit_children_spec transform visit s2 cs) as [[s3 r]|e] eqn:E;
        cbn [bind] in H; [|discriminate].
      inversion H; subst. eapply IH; [| |exact E].
      * intros x Hx. apply HQ. now right.
      * eapply Hvisit; [|exact HI1|exact Hv].
        intros x Hx. eapply Q_children; [exact HQ1|exact Hx].
Qed.

(** An invariant of the visitor that the hook keeps on the nodes it is
    handed is kept by the whole walk. *)
Lemma visit_invariant (depth : nat) :
  forall self node self' node',
    (forall c, In c (children node) -> Q c) -> Inv self ->
    visit transform depth self node = Ok (self', node') -> Inv self'.
Proof.
  induction depth as [|depth IH]; intros self node self' node' HQ HI H;
    destruct (children node) as [|c cs] eqn:Hcs;
    try (rewrite visit_leaf in H by assumption; now inversion H; subst).
  - cbn [visit] in H. unfold len in H. rewrite Hcs in H. discriminate.
  - rewrite visit_unfold in H by (rewrite Hcs; discriminate).
    destruct (visit_children_spec transform (visit transform depth) self
                (children node)) as [[s cs']|e] eqn:E; [|discriminate].
    cbn [bind] in H. inversion H; subst.
    eapply visit_children_invariant; [exact IH| |exact HI|exact E].
    rewrite Hcs. exact HQ.
Qed.

End VisitInvariant.

Lemma descendant_of_child (node c d : element) :
  descendant c node -> In d (children c) -> descendant d node.
Proof.
  intros H Hd. induction H as [c node Hc|x c node Hx IH Hc].
  - eapply descendant_deeper; [apply descendant_child, Hd|exact Hc].
  - eapply descendant_deeper; [apply IH, Hd|exact Hc].
Qed.

Section ConverterWalk.

Variable fromstringlist : list string -> XMLSyntaxError + element.
Variable chk nf : string -> result unit.

Lemma Converter_transform_image_paragraph self para image :
  tag_is para "p" = true -> children para = [image] ->
  tag_is image "img" = true ->
  Converter_transform fromstringlist chk nf self para
  = let! (self', target) := _transform_image fromstringlist self image in
    Ok (self', para, target).
Proof.
  intros Hp Hcs Hi. unfold ConfluenceStorageFormatConverter_transform.
  unfold child0_tag_is, len, getitem. rewrite Hp, Hcs. cbn. rewrite Hi.
  reflexivity.
Qed.

Lemma Converter_transform_image self image :
  tag_is image "img" = true ->
  Converter_transform fromstringlist chk nf self image
  = let! (self', target) := _transform_image fromstringlist self image in
    Ok (self', image, target).
Proof.
  intros Hi. unfold ConfluenceStorageFormatConverter_transform.
  rewrite (tag_is_other _ _ "p" Hi), Hi. reflexivity.
Qed.

Lemma Converter_transform_anchor self anchor :
  tag_is anchor "a" = true ->
  Converter_transform fromstringlist chk nf self anchor
  = let! (self', target) := _transform_link chk nf self anchor in
    Ok (self', anchor, target).
Proof.
  intros Ha. unfold ConfluenceStorageFormatConverter_transform.
  rewrite (tag_is_other _ _ "p" Ha), (tag_is_other _ _ "img" Ha), Ha.
  reflexivity.
Qed.

Lemma transform_image_missing self image key :
  match attrib_get image "src", attrib_get image "alt" with
  | None, _ => Some "src"
  | Some _, None => Some "alt"
  | Some _, Some _ => None
  end = Some key ->
  _transform_image fromstringlist self image = Raise (KeyError key).
Proof.
  unfold _transform_image, attrib_getitem.
  destruct (attrib_get image "src") as [path|];
    [destruct (attrib_get image "alt") as [caption|]|];
    intros H; inversion H; reflexivity.
Qed.

Lemma Converter_transform_missing self child key :
  missing_key child = Some key ->
  Converter_transform fromstringlist chk nf self child
  = Raise (KeyError key).
Proof.
  unfold missing_key. intros H.
  destruct (tag_is child "img") eqn:Hi.
  { rewrite Converter_transform_image by exact Hi.
    now rewrite (transform_image_missing _ _ key H). }
  destruct (tag_is child "a") eqn:Ha.
  { rewrite Converter_transform_anchor by exact Ha.
    unfold _transform_link, attrib_getitem.
    destruct (attrib_get child "href"); inversion H. reflexivity. }
  destruct (tag_is child "p") eqn:Hp; [|discriminate].
  destruct (children child) as [|image [|c cs]] eqn:Hcs; try discriminate.
  destruct (tag_is image "img") eqn:Him; [|discriminate].
  rewrite (Converter_transform_image_paragraph _ _ image Hp Hcs Him).
  now rewrite (transform_image_missing _ _ key H).
Qed.

(** What a call of the hook that returns has recorded. *)
Lemma Converter_transform_records self child self' child' target :
  Converter_transform fromstringlist chk nf self child
  = Ok (self', child', target) ->
  child' = child
  /\ (self' = self
      \/ (exists image path,
            (image = child \/ In image (children child))
            /\ tag_is image "img" = true
            /\ attrib_get image "src" = Some path
            /\ self' = mkConverter (links self) (images self ++ [path]))
      \/ (exists url,
            tag_is child "a" = true /\ attrib_get child "href" = Some url
            /\ is_absolute_url chk nf url = Ok false
            /\ self' = mkConverter (links self ++ [url]) (images self))).
Proof.
  assert (Himage : forall image s t,
    _transform_image fromstringlist self image = Ok (s, t) ->
    exists path, attrib_get image "src" = Some path
      /\ s = mkConverter (links self) (images self ++ [path])).
  { intros image s t. unfold _transform_image, attrib_getitem.
    destruct (attrib_get image "src") as [path|]; [|discriminate].
    cbn [bind].
    destruct (attrib_get image "alt") as [caption|]; [|discriminate].
    cbn [bind].
    destruct (element_from_string_list _ _) as [macro|e]; [|discriminate].
    cbn [bind]. intros H. inversion H. now exists path. }
  unfold ConfluenceStorageFormatConverter_transform. intros H.
  destruct (tag_is child "p" && (len child =? 1)%nat
            && child0_tag_is child "img") eqn:Hp.
  { apply andb_prop in Hp as [_ Hp]. unfold child0_tag_is in Hp.
    unfold getitem in H.
    destruct (children child) as [|image cs] eqn:Hcs; [discriminate|].
    cbn [lookup list_lookup bind] in H, Hp.
    destruct (_transform_image fromstringlist self image) as [[s t]|e] eqn:E;
      [|discriminate].
    cbn [bind] in H. inversion H; subst.
    apply Himage in E as (path & Hsrc & ->).
    split; [reflexivity|]. right; left. exists image, path.
    repeat split; try assumption. right. now left. }
  destruct (tag_is child "img") eqn:Hi.
  { destruct (_transform_image fromstringlist self child) as [[s t]|e] eqn:E;
      [|discriminate].
    cbn [bind] in H. inversion H; subst.
    apply Himage in E as (path & Hsrc & ->).
    split; [reflexivity|]. right; left. exists child', path.
    repeat split; try assumption. now left. }
  destruct (tag_is child "a") eqn:Ha.
  { unfold _transform_link, attrib_getitem in H.
    destruct (attrib_get child "href") as [url|] eqn:Hu; [|discriminate].
    cbn [bind] in H.
    destruct (is_absolute_url chk nf url) as [[|]|e] eqn:Habs;
      cbn [bind negb] in H; inversion H; subst.
    - split; [reflexivity|]. now left.
    - split; [reflexivity|]. right; right. now exists url. }
  destruct (tag_is child "pre" && (len child =? 1)%nat
            && child0_tag_is child "code").
  { destruct (getitem child 0) as [code|e]; [|discriminate].
    cbn [bind] in H.
    destruct (_transform_block fromstringlist self code) as [[s t]|e] eqn:E;
      [|discriminate].
    cbn [bind] in H. inversion H; subst.
    apply transform_block_same in E. subst. split; [reflexivity|]. now left. }
  cbn [bind] in H. inversion H; subst. split; [reflexivity|]. now left.
Qed.

End ConverterWalk.

(** X4. A tree without images, anchors and preformatted blocks passes
    through the converter unchanged, and nothing is recorded: with depth
    enough for the height of the node, the walk returns the node and the
    converter as they were. *)
Theorem X4_converter_leaves_plain_markup
    (fromstringlist : list string -> XMLSyntaxError + element)
    (chk nf : string -> result unit) (depth : nat)
    (self : ConfluenceStorageFormatConverter) (node : element) :
  forallb no_shapes (children node) = true -> height node <= depth ->
  visit (ConfluenceStorageFormatConverter_transform fromstringlist chk nf)
    depth self node = Ok (self, node).
Proof.
  intros Hn Hh.
  apply (visit_identity _ (fun c => no_shapes c = true)); try assumption.
  - apply no_shapes_children.
  - intros s c Hc. now apply Converter_transform_no_shapes.
  - apply forallb_forall. exact Hn.
Qed.

Lemma X4_witness :
  visit T_ref 2 ConfluenceStorageFormatConverter_init
    (Element None "div" [] [] [] [plain_paragraph; plain_paragraph] [])
  = Ok (ConfluenceStorageFormatConverter_init,
        Element None "div" [] [] [] [plain_paragraph; plain_paragraph] []).
Proof.
  apply (X4_converter_leaves_plain_markup Reference.fromstringlist no_check
           no_check); vm_compute; [reflexivity | apply le_n].
Defined.

(** X5. A missing attribute ends the walk with [KeyError]: when the
    children before it are free of the shapes the converter rewrites, the
    first child that is an image without [src] or without [alt] (bare or
    alone in a paragraph) or an anchor without [href] makes [visit] raise
    the [KeyError] of that attribute. *)
Theorem X5_missing_attribute_raises_key_error
    (fromstringlist : list string -> XMLSyntaxError + element)
    (chk nf : string -> result unit) (depth : nat)
    (self : ConfluenceStorageFormatConverter) (node : element)
    (before after : list element) (child : element) (key : string) :
  children node = before ++ child :: after ->
  forallb no_shapes before = true ->
  Forall (fun c => height c <= depth) before ->
  missing_key child = Some key ->
  visit (ConfluenceStorageFormatConverter_transform fromstringlist chk nf)
    (S depth) self node = Raise (KeyError key).
Proof.
  intros Hcs Hn Hh Hk.
  apply (visit_raises_at _ (fun c => no_shapes c = true)) with
    (before := before) (after := after) (child := child); try assumption.
  - apply no_shapes_children.
  - intros s c Hc. now apply Converter_transform_no_shapes.
  - apply forallb_forall. exact Hn.
  - apply List.Forall_forall. exact Hh.
  - now apply Converter_transform_missing.
Qed.

Lemma X5_witness :
  visit T_ref 2 ConfluenceStorageFormatConverter_init
    (Element None "div" [] [] []
       [plain_paragraph; image_without_alt; plain_paragraph] [])
  = Raise (KeyError "alt").
Proof.
  apply (X5_missing_attribute_raises_key_error Reference.fromstringlist
           no_check no_check 1 _ _ [plain_paragraph] [plain_paragraph]
           image_without_alt).
  - reflexivity.
  - vm_compute. reflexivity.
  - repeat constructor.
  - vm_compute. reflexivity.
Defined.

(** X6. An image alone in a paragraph is handled as the image itself: the
    hook called on the paragraph records and returns what it records and
    returns on the image, errors included. *)
Theorem X6_image_paragraph_as_image
    (fromstringlist : list string -> XMLSyntaxError + element)
    (chk nf : string -> result unit)
    (self : ConfluenceStorageFormatConverter) (para image : element) :
  tag_is para "p" = true -> children para = [image] ->
  tag_is image "img" = true ->
  let T := ConfluenceStorageFormatConverter_transform fromstringlist chk nf in
  T self para
  = let! (self', _, target) := T self image in Ok (self', para, target).
Proof.
  intros Hp Hcs Hi T. unfold T.
  rewrite (Converter_transform_image_paragraph _ _ _ _ _ _ Hp Hcs Hi).
  rewrite (Converter_transform_image _ _ _ _ _ Hi).
  destruct (_transform_image fromstringlist self image) as [[s t]|e];
    reflexivity.
Qed.

Lemma X6_witness :
  T_ref ConfluenceStorageFormatConverter_init paragraph_with_image
  = let! (self', _, target) :=
      T_ref ConfluenceStorageFormatConverter_init
        (Element None "img" []
           [mkAttr None "src" "a.png"; mkAttr None "alt" "Cap"] [] [] []) in
    Ok (self', paragraph_with_image, target).
Proof.
  apply (X6_image_paragraph_as_image Reference.fromstringlist no_check
           no_check); reflexivity.
Defined.

(** X7. The language written into a code macro is always one of the
    supported languages or the word none, whatever the class of the code
    element: a call of [_transform_block] that returns has built the macro
    from [block_items] of such a language and of the text of the element,
    and has left the converter as it was. *)
Theorem X7_code_macro_language_is_supported
    (fromstringlist : list string -> XMLSyntaxError + element)
    (self self' : ConfluenceStorageFormatConverter) (code : element)
    (target : option element) :
  _transform_block fromstringlist self code = Ok (self', target) ->
  exists language macro,
    (language = "none" \/ In language _languages)
    /\ element_from_string_list fromstringlist
         (block_items language (format_opt (text code))) = Ok macro
    /\ target = Some (elem macro) /\ self' = self.
Proof.
  unfold _transform_block. intros H.
  assert (Hin : forall l, in_languages l = true -> In l _languages).
  { intros l Hl. unfold in_languages in Hl.
    apply existsb_exists in Hl as (x & Hx & E).
    apply String.eqb_eq in E. now subst. }
  destruct (match attrib_get code "class" with
            | Some cls =>
                if nonempty cls then
                  match re_match_language cls with
                  | Some name => Ok (Some name)
                  | None => Raise AttributeError
                  end
                else Ok (attrib_get code "class")
            | None => Ok (attrib_get code "class")
            end) as [language|e]; [|discriminate].
  cbn [bind] in H.
  destruct (element_from_string_list _ _) as [macro|e] eqn:E; [|discriminate].
  cbn [bind] in H. inversion H; subst.
  exists (format_opt (if not_in_languages language then Some "none"
                      else language)), macro.
  split; [|repeat split; assumption].
  destruct language as [l|]; cbn [not_in_languages]; [|now left].
  destruct (in_languages l) eqn:Hl; cbn [negb format_opt]; [|now left].
  right. now apply Hin.
Qed.

Lemma X7_witness :
  exists language macro,
    (language = "none" \/ In language _languages)
    /\ element_from_string_list Reference.fromstringlist
         (block_items language (format_opt (text (code_with_class "language-sql"))))
       = Ok macro
    /\ Some (code_macro "sql") = Some (elem macro)
    /\ ConfluenceStorageFormatConverter_init
       = ConfluenceStorageFormatConverter_init.
Proof.
  refine (X7_code_macro_language_is_supported Reference.fromstringlist
            ConfluenceStorageFormatConverter_init
            ConfluenceStorageFormatConverter_init
            (code_with_class "language-sql") (Some (code_macro "sql")) _).
  vm_compute. reflexivity.
Defined.

(** X8. Nothing is recorded that is not in the tree: after a walk that
    returns, every path in [images] was there before or is the [src] of an
    image element below the node, and every address in [links] was there
    before or is the [href] of an anchor below the node that
    [is_absolute_url] found not absolute. *)
Theorem X8_recorded_paths_come_from_the_tree
    (fromstringlist : list string -> XMLSyntaxError + element)
    (chk nf : string -> result unit) (depth : nat)
    (self self' : ConfluenceStorageFormatConverter) (node node' : element) :
  visit (ConfluenceStorageFormatConverter_transform fromstringlist chk nf)
    depth self node = Ok (self', node') ->
  (forall path, In path (images self') ->
     In path (images self)
     \/ exists image, descendant image node /\ tag_is image "img" = true
                      /\ attrib_get image "src" = Some path)
  /\ (forall url, In url (links self') ->
        In url (links self)
        \/ exists anchor, descendant anchor node /\ tag_is anchor "a" = true
                          /\ attrib_get anchor "href" = Some url
                          /\ is_absolute_url chk nf url = Ok false).
Proof.
  set (Inv := fun s : ConfluenceStorageFormatConverter =>
    (forall path, In path (images s) ->
       In path (images self)
       \/ exists image, descendant image node /\ tag_is image "img" = true
                        /\ attrib_get image "src" = Some path)
    /\ (forall url, In url (links s) ->
          In url (links self)
          \/ exists anchor, descendant anchor node
               /\ tag_is anchor "a" = true
               /\ attrib_get anchor "href" = Some url
               /\ is_absolute_url chk nf url = Ok false)).
  intros Hv.
  apply (visit_invariant
           (ConfluenceStorageFormatConverter_transform fromstringlist chk nf)
           (fun c => descendant c node) Inv) with
    (depth := depth) (self := self) (node := node) (node' := node').
  - intros x c Hx Hc. eapply descendant_of_child; [exact Hx|exact Hc].
  - intros s child s' child' target HQ [Hi Hl] Ht.
    apply Converter_transform_records in Ht
      as [-> [->|[(image & path & Him & Htag & Hsrc & ->)
                 |(url & Htag & Hhref & Habs & ->)]]];
      (split; [|exact HQ]).
    + split; assumption.
    + split; [|exact Hl]. cbn [images]. intros p Hp.
      apply in_app_or in Hp as [Hp|[<-|[]]]; [now apply Hi|].
      right. exists image. split; [|now split].
      destruct Him as [->|Him]; [exact HQ|].
      eapply descendant_of_child; [exact HQ|exact Him].
    + split; [exact Hi|]. cbn [links]. intros u Hu.
      apply in_app_or in Hu as [Hu|[<-|[]]]; [now apply Hl|].
      right. exists child. now repeat split.
  - intros c Hc. now apply descendant_child.
  - split; intros x Hx; now left.
  - exact Hv.
Qed.

Lemma X8_witness :
  (forall path, In path ["a.png"] ->
     In path []
     \/ exists image, descendant image division_with_link_and_image
                      /\ tag_is image "img" = true
                      /\ attrib_get image "src" = Some path)
  /\ (forall url, In url ["./doc.md"] ->
        In url []
        \/ exists anchor, descendant anchor division_with_link_and_image
                          /\ tag_is anchor "a" = true
                          /\ attrib_get anchor "href" = Some url
                          /\ is_absolute_url no_check no_check url
                             = Ok false).
Proof.
  refine (X8_recorded_paths_come_from_the_tree Reference.fromstringlist
            no_check no_check run_limit ConfluenceStorageFormatConverter_init
            (mkConverter ["./doc.md"] ["a.png"])
            division_with_link_and_image _ _).
  vm_compute. reflexivity.
Defined.

(** ** Further properties of the classification of addresses *)

Lemma all_of_impl (p q : ascii -> bool) (s : string) :
  (forall c, p c = true -> q c = true) ->
  all_of p s = true -> all_of q s = true.
Proof.
  intros Hpq. unfold all_of. rewrite !forallb_forall. auto.
Qed.

Lemma no_double_slash_tail (x : ascii) (s : string) :
  no_double_slash (String x s) = true -> no_double_slash s = true.
Proof.
  cbn [no_double_slash]. intros H. now apply andb_prop in H as [_ H].
Qed.

Lemma no_double_slash_suffix (a b : string) :
  no_double_slash (a +:+ b) = true -> no_double_slash b = true.
Proof.
  induction a as [|x a IH]; [now rewrite append_nil|].
  rewrite append_cons. intros H. apply IH.
  eapply no_double_slash_tail, H.
Qed.

Lemma no_double_slash_strip_prefix (s : string) :
  no_double_slash s = true -> strip_prefix "//" s = None.
Proof.
  destruct s as [|a [|b r]]; [reflexivity| |].
  - intros _. cbn [strip_prefix]. now destruct (Ascii.eqb "/" a).
  - cbn [no_double_slash]. intros H. apply andb_prop in H as [H _].
    apply negb_true_iff in H. cbn [strip_prefix].
    rewrite (Ascii.eqb_sym "/" a), (Ascii.eqb_sym "/" b).
    destruct (Ascii.eqb a "/"); [|reflexivity].
    cbn [andb] in H. now rewrite H.
Qed.

Lemma remove_char_append (c : ascii) (a b : string) :
  remove_char c (a +:+ b) = remove_char c a +:+ remove_char c b.
Proof.
  induction a as [|x a IH]; [now rewrite !append_nil|].
  rewrite append_cons. cbn [remove_char].
  destruct (Ascii.eqb x c); [exact IH|]. now rewrite append_cons, IH.
Qed.

Lemma remove_unsafe_append (a b : string) :
  remove_unsafe (a +:+ b) = remove_unsafe a +:+ remove_unsafe b.
Proof. unfold remove_unsafe. now rewrite !remove_char_append. Qed.

Lemma remove_char_id (c : ascii) (s : string) :
  all_of (fun x => negb (Ascii.eqb x c)) s = true -> remove_char c s = s.
Proof.
  unfold all_of. induction s as [|x s IH]; [reflexivity|].
  cbn [list_ascii_of_string forallb remove_char]. intros H.
  apply andb_prop in H as [Hx Hs]. apply negb_true_iff in Hx.
  now rewrite Hx, IH.
Qed.

Lemma is_unsafe_spec (c : ascii) :
  is_unsafe c = false ->
  Ascii.eqb c (ascii_of_nat 9) = false
  /\ Ascii.eqb c (ascii_of_nat 13) = false
  /\ Ascii.eqb c (ascii_of_nat 10) = false.
Proof.
  unfold is_unsafe, code. intros H.
  apply orb_false_elim in H as [H H10]. apply orb_false_elim in H as [H9 H13].
  apply Nat.eqb_neq in H9, H13, H10.
  repeat split; apply Ascii.eqb_neq; intros ->; vm_compute in *; congruence.
Qed.

Lemma remove_unsafe_id (s : string) :
  all_of (fun c => negb (is_unsafe c)) s = true -> remove_unsafe s = s.
Proof.
  intros H. unfold remove_unsafe.
  rewrite (remove_char_id (ascii_of_nat 9)), (remove_char_id (ascii_of_nat 13)),
    (remove_char_id (ascii_of_nat 10)); try reflexivity;
    (eapply all_of_impl; [|exact H]); intros c Hc;
    apply negb_true_iff in Hc; apply is_unsafe_spec in Hc as (H9 & H13 & H10);
    apply negb_true_iff; assumption.
Qed.

Lemma lstrip_suffix (p : ascii -> bool) (s : string) :
  exists a, s = a +:+ lstrip p s.
Proof.
  unfold lstrip. destruct (span p s) as [a b] eqn:E.
  apply span_sound in E as [-> _]. now exists a.
Qed.

Lemma split_scheme_suffix (s : string) : exists a, s = a +:+ split_scheme s.
Proof.
  unfold split_scheme.
  destruct (span (fun c => negb (Ascii.eqb c ":")) s) as [head rest] eqn:E.
  apply span_sound in E as [E _].
  assert (Hs : exists a, s = a +:+ s) by (exists EmptyString; reflexivity).
  destruct rest as [|c after]; [exact Hs|].
  destruct head as [|c0 head]; [exact Hs|].
  destruct (_ && _); [|exact Hs].
  exists (String c0 head +:+ String c EmptyString).
  rewrite E, append_assoc. reflexivity.
Qed.

Lemma scheme_char_safe (c : ascii) :
  char_in c scheme_chars = true ->
  Ascii.eqb c ":" = false /\ is_unsafe c = false.
Proof.
  unfold char_in. intros H. apply existsb_exists in H as (x & Hin & E).
  apply Ascii.eqb_eq in E. subst x. cbn in Hin.
  repeat (destruct Hin as [<-|Hin]; [split; reflexivity|]). contradiction.
Qed.

Lemma host_char_spec (c : ascii) :
  is_host_char c = true ->
  (code c <? 128)%nat = true /\ char_in c "/?#" = false
  /\ Ascii.eqb "[" c = false /\ Ascii.eqb "]" c = false
  /\ is_unsafe c = false.
Proof.
  unfold is_host_char. intros H.
  apply andb_prop in H as [H Hu]. apply andb_prop in H as [Ha Hc].
  apply negb_true_iff in Hu, Hc. split; [exact Ha|].
  unfold char_in in Hc.
  change (list_ascii_of_string "/?#[]") with ["/"; "?"; "#"; "["; "]"]%char
    in Hc.
  cbn [existsb] in Hc. rewrite orb_false_r in Hc.
  apply orb_false_elim in Hc as [H1 Hc]. apply orb_false_elim in Hc as [H2 Hc].
  apply orb_false_elim in Hc as [H3 Hc]. apply orb_false_elim in Hc as [H4 H5].
  rewrite (Ascii.eqb_sym "[" c), (Ascii.eqb_sym "]" c).
  split; [|repeat split; assumption].
  unfold char_in.
  change (list_ascii_of_string "/?#") with ["/"; "?"; "#"]%char.
  cbn [existsb]. now rewrite H1, H2, H3.
Qed.

Section UrlShapes.

Variable chk nf : string -> result unit.

Lemma is_absolute_url_of_netloc (url : string) :
  contains "[" (netloc_text url) = false ->
  contains "]" (netloc_text url) = false ->
  isascii (netloc_text url) = true ->
  is_absolute_url chk nf url = Ok (nonempty (netloc_text url)).
Proof.
  intros Hl Hr Ha. unfold is_absolute_url.
  rewrite urlparse_netloc_unfold. cbv zeta. rewrite Hl, Hr.
  cbn [andb orb negb bind]. unfold _checknetloc. rewrite Ha, orb_true_r.
  reflexivity.
Qed.
(** The classification in terms of the network location: an unpaired
    bracket raises, a bracketed location goes through the validation of
    bracketed hosts, and a location outside ASCII through the check of its
    normal form. *)
Lemma is_absolute_url_unfold (url : string) :
  is_absolute_url chk nf url
  = let netloc := netloc_text url in
    let lb := contains "[" netloc in
    let rb := contains "]" netloc in
    if xorb lb rb then Raise ValueError
    else
      let! _ := if lb then chk netloc else Ok tt in
      let! _ := _checknetloc nf netloc in
      Ok (nonempty netloc).
Proof.
  unfold is_absolute_url. rewrite urlparse_netloc_unfold. cbv zeta.
  destruct (contains "[" (netloc_text url)),
    (contains "]" (netloc_text url)); cbn [andb orb negb xorb bind];
    try reflexivity;
    [destruct (chk (netloc_text url)); cbn [bind]; [|reflexivity]|];
    destruct (_checknetloc nf (netloc_text url)); reflexivity.
Qed.

Lemma is_absolute_url_ok (url : string) (absolute : bool) :
  is_absolute_url chk nf url = Ok absolute ->
  absolute = nonempty (netloc_text url).
Proof.
  rewrite is_absolute_url_unfold. cbv zeta.
  destruct (xorb _ _); [discriminate|].
  destruct (if contains "[" (netloc_text url) then chk (netloc_text url)
            else Ok tt); [|discriminate].
  cbn [bind]. destruct (_checknetloc nf (netloc_text url)); [|discriminate].
  cbn [bind]. intros H. now inversion H.
Qed.


Lemma netloc_text_without_slashes (url : string) :
  no_double_slash (remove_unsafe url) = true ->
  netloc_text url = EmptyString.
Proof.
  intros H. unfold netloc_text.
  destruct (lstrip_suffix is_c0_control_or_space url) as [a Ha].
  rewrite Ha, remove_unsafe_append in H.
  apply no_double_slash_suffix in H.
  destruct (split_scheme_suffix
              (remove_unsafe (lstrip is_c0_control_or_space url)))
    as [b Hb].
  rewrite Hb in H. apply no_double_slash_suffix in H.
  now rewrite (no_double_slash_strip_prefix _ H).
Qed.

Lemma netloc_text_of_host (scheme host rest : string) :
  is_scheme scheme = true -> all_of is_host_char host = true ->
  starts_path rest = true ->
  netloc_text (scheme +:+ "://" +:+ host +:+ rest) = host.
Proof.
  intros Hs Hh Hr. unfold netloc_text.
  destruct scheme as [|c0 scheme']; [discriminate|].
  cbn [is_scheme] in Hs. apply andb_prop in Hs as [Hc0 Hs].
  set (scheme := String c0 scheme') in *.
  assert (Hsafe : all_of (fun c => negb (is_unsafe c)) scheme = true).
  { eapply all_of_impl; [|exact Hs]. intros c Hc.
    apply scheme_char_safe in Hc as [_ Hc]. now rewrite Hc. }
  assert (Hcolon : all_of (fun c => negb (Ascii.eqb c ":")) scheme = true).
  { eapply all_of_impl; [|exact Hs]. intros c Hc.
    apply scheme_char_safe in Hc as [Hc _]. now rewrite Hc. }
  assert (Hhost : all_of (fun c => negb (is_unsafe c)) host = true).
  { eapply all_of_impl; [|exact Hh]. intros c Hc.
    apply host_char_spec in Hc as (_ & _ & _ & _ & Hc). now rewrite Hc. }
  assert (Hpath : all_of (fun c => negb (char_in c "/?#")) host = true).
  { eapply all_of_impl; [|exact Hh]. intros c Hc.
    apply host_char_spec in Hc as (_ & Hc & _). now rewrite Hc. }
  assert (Hrest : starts_path (remove_unsafe rest) = true
                  /\ match remove_unsafe rest with
                     | String c _ => negb (char_in c "/?#") = false
                     | EmptyString => True
                     end).
  { destruct rest as [|c rest]; [split; [reflexivity|exact I]|].
    cbn [starts_path] in Hr.
    assert (E : remove_unsafe (String c rest) = String c (remove_unsafe rest)).
    { unfold remove_unsafe. cbn [remove_char].
      unfold char_in in Hr. cbn in Hr. rewrite orb_false_r in Hr.
      assert (H9 : Ascii.eqb c (ascii_of_nat 9) = false
                   /\ Ascii.eqb c (ascii_of_nat 13) = false
                   /\ Ascii.eqb c (ascii_of_nat 10) = false).
      { apply orb_prop in Hr as [Hr|Hr]; [|apply orb_prop in Hr as [Hr|Hr]];
          apply Ascii.eqb_eq in Hr; subst c; repeat split; reflexivity. }
      destruct H9 as (H9 & H13 & H10).
      rewrite H9. cbn [remove_char]. rewrite H13. cbn [remove_char].
      now rewrite H10. }
    rewrite E. cbn [starts_path]. rewrite Hr. split; reflexivity. }
  destruct Hrest as [_ Hrest].
  assert (Hl : lstrip is_c0_control_or_space
                 (scheme +:+ "://" +:+ host +:+ rest)
               = scheme +:+ "://" +:+ host +:+ rest).
  { unfold lstrip, scheme. rewrite append_cons. cbn [span].
    assert (E : is_c0_control_or_space c0 = false).
    { unfold is_c0_control_or_space. unfold is_ascii_alpha in Hc0.
      apply Nat.leb_gt.
      apply orb_prop in Hc0 as [H|H]; apply andb_prop in H as [H _];
        apply Nat.leb_le in H; lia. }
    now rewrite E. }
  rewrite Hl, !remove_unsafe_append, (remove_unsafe_id _ Hsafe),
    (remove_unsafe_id _ Hhost).
  replace (remove_unsafe "://") with "://" by reflexivity.
  assert (Hsplit : split_scheme
                     (scheme +:+ "://" +:+ host +:+ remove_unsafe rest)
                   = "//" +:+ host +:+ remove_unsafe rest).
  { unfold split_scheme.
    replace ("://" +:+ host +:+ remove_unsafe rest)
      with (String ":" ("//" +:+ host +:+ remove_unsafe rest))
      by reflexivity.
    rewrite span_append by (assumption || reflexivity).
    unfold scheme at 1. fold scheme.
    unfold all_of in Hs. now rewrite Hc0, Hs. }
  rewrite Hsplit, strip_prefix_append. unfold _splitnetloc.
  replace (drop_str 2 ("//" +:+ host +:+ remove_unsafe rest))
    with (host +:+ remove_unsafe rest) by reflexivity.
  now rewrite span_append by assumption.
Qed.

End UrlShapes.

(** X9. An address without two slashes in a row is never absolute, and its
    classification never fails: with tab, carriage return and line feed
    taken out as [urlsplit] does, no double slash means an empty network
    location, whatever stands before the first colon.  Relative paths,
    fragments and addresses such as those of the [mailto] scheme are all
    recorded as links. *)
Theorem X9_no_double_slash_is_relative (chk nf : string -> result unit)
    (url : string) :
  no_double_slash (remove_unsafe url) = true ->
  is_absolute_url chk nf url = Ok false
  /\ forall self anchor,
       attrib_get anchor "href" = Some url ->
       _transform_link chk nf self anchor
       = Ok (mkConverter (links self ++ [url]) (images self), None).
Proof.
  intros H. apply netloc_text_without_slashes in H.
  assert (E : is_absolute_url chk nf url = Ok false).
  { rewrite is_absolute_url_of_netloc; rewrite H; reflexivity. }
  split; [exact E|]. intros self anchor Hhref.
  unfold _transform_link, attrib_getitem. rewrite Hhref. cbn [bind].
  now rewrite E.
Qed.

Lemma X9_witness :
  is_absolute_url no_check no_check "mailto:someone@example.com" = Ok false
  /\ forall self anchor,
       attrib_get anchor "href" = Some "mailto:someone@example.com" ->
       _transform_link no_check no_check self anchor
       = Ok (mkConverter (links self ++ ["mailto:someone@example.com"])
               (images self), None).
Proof.
  apply X9_no_double_slash_is_relative. vm_compute. reflexivity.
Defined.

(** X10. An address made of a scheme, a colon, two slashes and a host is
    absolute: when the scheme is an ASCII letter followed by letters,
    digits, plus, minus or dot, the host is not empty and made of ASCII
    characters other than slash, question mark, hash, brackets, tab,
    carriage return and line feed, and what follows is empty or starts a
    path, a query or a fragment, the classification returns true and the
    anchor is not recorded. *)
Theorem X10_scheme_and_host_is_absolute (chk nf : string -> result unit)
    (scheme host rest : string) :
  is_scheme scheme = true ->
  nonempty host = true -> all_of is_host_char host = true ->
  starts_path rest = true ->
  let url := scheme +:+ "://" +:+ host +:+ rest in
  is_absolute_url chk nf url = Ok true
  /\ forall self anchor,
       attrib_get anchor "href" = Some url ->
       _transform_link chk nf self anchor = Ok (self, None).
Proof.
  intros Hs Hn Hh Hr url.
  pose proof (netloc_text_of_host scheme host rest Hs Hh Hr) as E.
  fold url in E.
  assert (Habs : is_absolute_url chk nf url = Ok true).
  { rewrite is_absolute_url_of_netloc; rewrite E; [now rewrite Hn| | |].
    - rewrite contains_all_of. apply negb_false_iff.
      eapply all_of_impl; [|exact Hh]. intros c Hc.
      apply host_char_spec in Hc as (_ & _ & Hc & _). now rewrite Hc.
    - rewrite contains_all_of. apply negb_false_iff.
      eapply all_of_impl; [|exact Hh]. intros c Hc.
      apply host_char_spec in Hc as (_ & _ & _ & Hc & _). now rewrite Hc.
    - eapply all_of_impl; [|exact Hh]. intros c Hc.
      now apply host_char_spec in Hc as (Hc & _). }
  split; [exact Habs|]. intros self anchor Hhref.
  unfold _transform_link, attrib_getitem. rewrite Hhref. cbn [bind].
  now rewrite Habs.
Qed.

Lemma X10_witness :
  is_absolute_url no_check no_check "https://example.com/a?b#c" = Ok true
  /\ forall self anchor,
       attrib_get anchor "href" = Some "https://example.com/a?b#c" ->
       _transform_link no_check no_check self anchor = Ok (self, None).
Proof.
  apply (X10_scheme_and_host_is_absolute no_check no_check "https"
           "example.com" "/a?b#c"); reflexivity.
Defined.

(** ** Further properties of documents and of sanitising *)

Lemma search_finds_later (pre s : string) (pos : nat) (x : string * nat) :
  match_page_id_here s = Some x ->
  exists m, search_page_id_from pos (pre +:+ s) = Some m.
Proof.
  intros Hs. revert pos. induction pre as [|a pre IH]; intros pos.
  - rewrite append_nil. destruct s; cbn [search_page_id_from]; rewrite Hs;
      destruct x; eauto.
  - rewrite append_cons. cbn [search_page_id_from].
    destruct (match_page_id_here (String a (pre +:+ s))) as [[d n]|];
      [eauto|apply IH].
Qed.

Lemma append_empty_r (s : string) : s +:+ EmptyString = s.
Proof.
  induction s as [|c s IH]; [reflexivity|]. now rewrite append_cons, IH.
Qed.

Lemma re_match_root_complete (w a g : string) :
  nonempty w = true -> all_of is_space w = true ->
  all_of (fun c => negb (Ascii.eqb c ">")) a = true ->
  match a with String c _ => is_space c = false | EmptyString => True end ->
  re_match_root ("<root" +:+ w +:+ a +:+ ">" +:+ g +:+ "</root>") = Some g.
Proof.
  intros Hn Hw Ha Hfirst. unfold re_match_root.
  rewrite strip_prefix_append.
  rewrite (span_append is_space w) by
    first [assumption
          | destruct a as [|c a];
            [reflexivity | rewrite append_cons; exact Hfirst]].
  rewrite Hn. cbn [negb].
  rewrite (span_append _ a) by (assumption || reflexivity).
  replace (">" +:+ g +:+ "</root>") with (String ">" (g +:+ "</root>"))
    by reflexivity.
  rewrite rev_str_append.
  replace (rev_str "</root>") with ">toor/<" by reflexivity.
  unfold lstrip. rewrite append_cons. cbn [span].
  replace (is_space ">") with false by reflexivity. cbn [snd].
  rewrite <- append_cons, strip_prefix_append, rev_str_involutive.
  reflexivity.
Qed.

Lemma content_of_synthetic_root (text : list text_node) (cs : list element) :
  _content_to_string (Handle (synthetic_root text cs) [])
  = match text, cs with
    | [], [] => Raise AttributeError
    | _, _ => Ok (inner_markup (synthetic_root text cs))
    end.
Proof.
  unfold _content_to_string.
  set (a := Q "xmlns:ac=`http://atlassian.com/content` xmlns:ri=`http://atlassian.com/resource/identifier`").
  assert (H : forall g,
    re_match_root ("<root" +:+ " " +:+ a +:+ ">" +:+ g +:+ "</root>")
    = Some g).
  { intros g. apply re_match_root_complete; reflexivity. }
  destruct text as [|t text], cs as [|c cs]; [reflexivity| | |];
    match goal with
    | |- context [tostring ?h] =>
        replace (tostring h)
          with ("<root" +:+ " " +:+ a +:+ ">"
                +:+ inner_markup (elem h) +:+ "</root>")
    end;
    try (now rewrite H);
    unfold tostring, inner_markup; cbn [elem outer_ns];
    unfold synthetic_root, copy_parent_namespaces;
    cbn [fold_left nsDef with_nsDef tail text_nodes children dump_texts map];
    rewrite (append_empty_r (dump _)), (append_assoc (dump_texts _));
    reflexivity.
Qed.

(** ** The root pattern on the serialisation of an element *)

Lemma span_append_stop (p : ascii -> bool) (s r : string) :
  match r with String c _ => p c = false | EmptyString => True end ->
  span p (s +:+ r) = (fst (span p s), snd (span p s) +:+ r).
Proof.
  intros Hr. induction s as [|x s IH].
  - rewrite append_nil. destruct r as [|c r]; [reflexivity|].
    cbn [span]. now rewrite Hr.
  - rewrite append_cons. cbn [span]. destruct (p x); [|reflexivity].
    rewrite IH. now destruct (span p s).
Qed.

Lemma span_all (p : ascii -> bool) (s : string) :
  all_of p s = true -> span p s = (s, EmptyString).
Proof.
  intros H. pose proof (span_append p s EmptyString H I) as E.
  now rewrite append_empty_r in E.
Qed.

Lemma re_match_root_open (s g t : string) :
  match s with String c _ => is_space c = true | EmptyString => False end ->
  all_of (fun c => negb (Ascii.eqb c ">")) s = true ->
  all_of is_space t = true ->
  re_match_root ("<root" +:+ s +:+ ">" +:+ g +:+ "</root>" +:+ t) = Some g.
Proof.
  intros Hs Hgt Ht. unfold re_match_root. rewrite strip_prefix_append.
  rewrite span_append_stop by reflexivity.
  destruct (all_of_span _ is_space s Hgt) as [_ Ha].
  destruct (span is_space s) as [w a] eqn:Hw. cbn [fst snd] in *.
  assert (Hn : nonempty w = true).
  { destruct s as [|c s]; [destruct Hs|]. cbn [span] in Hw. rewrite Hs in Hw.
    destruct (span is_space s). now inversion Hw. }
  rewrite Hn. cbn [negb].
  rewrite (span_append _ a) by (assumption || reflexivity).
  replace (">" +:+ g +:+ "</root>" +:+ t)
    with (String ">" (g +:+ "</root>" +:+ t)) by reflexivity.
  rewrite !rev_str_append.
  replace (rev_str "</root>") with ">toor/<" by reflexivity.
  unfold lstrip. rewrite append_assoc.
  rewrite (span_append is_space (rev_str t))
    by (reflexivity || now rewrite all_of_rev_str).
  cbn [snd]. rewrite strip_prefix_append, rev_str_involutive. reflexivity.
Qed.

Lemma re_match_root_empty_element (s t : string) :
  all_of (fun c => negb (Ascii.eqb c ">")) s = true ->
  all_of is_space t = true ->
  re_match_root ("<root" +:+ s +:+ "/>" +:+ t) = None.
Proof.
  intros Hgt Ht. unfold re_match_root. rewrite strip_prefix_append.
  rewrite span_append_stop by reflexivity.
  destruct (all_of_span _ is_space s Hgt) as [_ Ha].
  destruct (span is_space s) as [w a]. cbn [fst snd] in *.
  destruct (nonempty w); [|reflexivity]. cbn [negb].
  replace (a +:+ "/>" +:+ t) with ((a +:+ "/") +:+ String ">" t)
    by (now rewrite append_assoc).
  rewrite span_append;
    [|rewrite all_of_append, Ha; reflexivity|reflexivity].
  unfold lstrip. rewrite span_all by (now rewrite all_of_rev_str).
  reflexivity.
Qed.

Lemma is_root_name_of_prefix (q x r : string) :
  opens_tag x -> strip_prefix "root" (q +:+ x) = Some r ->
  match r with String c _ => is_space c = true | EmptyString => False end ->
  is_root_name q = true.
Proof.
  intros (c & x' & -> & Hc) H Hr. unfold is_root_name.
  apply strip_prefix_sound in H.
  destruct r as [|c0 r]; [destruct Hr|].
  assert (Hx : c <> "r"%char /\ c <> "o"%char /\ c <> "t"%char)
    by (destruct Hc as [-> | [-> | ->]]; repeat split; discriminate).
  destruct Hx as (Hx1 & Hx2 & Hx3).
  destruct q as [|q1 [|q2 [|q3 [|q4 q]]]];
    repeat rewrite ?append_cons, ?append_nil in H;
    injection H; intros; subst; try congruence.
  cbn [strip_prefix]. rewrite !Ascii.eqb_refl.
  destruct q as [|c1 q]; [reflexivity|].
  match goal with
  | E : String c1 q +:+ _ = _ |- _ =>
      rewrite append_cons in E; injection E as E1 E2
  end.
  rewrite E1. exact Hr.
Qed.

(** A serialisation the root pattern matches is that of an element
    serialised under the name [root]. *)
Lemma tostring_matches_root (node : element) (outer : list xmlNs)
    (g : string) :
  re_match_root (tostring (Handle node outer)) = Some g ->
  exists q, element_qname node = Some q /\ is_root_name q = true.
Proof.
  unfold re_match_root, tostring. cbn [elem outer_ns].
  destruct node as [ns name d a text cs tail|c tail|t c tail];
    cbn [with_nsDef]; [|discriminate ..].
  intros H. exists (qname ns name). split; [reflexivity|].
  destruct (dump_element ns name
              (copy_parent_namespaces
                 (nsDef (Element ns name d a text cs tail)) outer)
              a text cs tail) as (x & Hx & Hopen).
  rewrite Hx in H. rewrite !append_assoc in H.
  assert (E : forall y,
            strip_prefix "<root" ("<" +:+ y) = strip_prefix "root" y)
    by reflexivity.
  rewrite E in H.
  destruct (strip_prefix "root" _) as [r1|] eqn:Hp; [|discriminate].
  apply (is_root_name_of_prefix _ (x +:+ dump_texts tail) r1);
    [now apply opens_tag_append|exact Hp|].
  destruct r1 as [|c r1]; [discriminate|].
  cbn [span] in H. destruct (is_space c); [reflexivity|discriminate].
Qed.

Lemma all_of_concat (p : ascii -> bool) (l : list string) :
  Forall (fun s => all_of p s = true) l ->
  all_of p (String.concat EmptyString l) = true.
Proof.
  induction 1 as [|s l Hs _ IH]; [reflexivity|].
  cbn [String.concat]. destruct l as [|s' l]; [exact Hs|].
  now rewrite append_nil, all_of_append, Hs, IH.
Qed.

Lemma escape_attr_plain (v : string) :
  all_of (fun c => negb (Ascii.eqb c ">")) (escape_attr v) = true.
Proof.
  induction v as [|c v IH]; [reflexivity|].
  cbn [escape_attr]. rewrite all_of_append, IH, andb_true_r.
  repeat match goal with
         | |- context [if ?b then _ else _] => destruct b eqn:?
         end; try reflexivity.
  unfold all_of. cbn [list_ascii_of_string forallb].
  now rewrite andb_true_r, negb_true_iff.
Qed.

Lemma plain_of_contains (s : string) :
  negb (contains ">" s) = true ->
  all_of (fun c => negb (Ascii.eqb c ">")) s = true.
Proof.
  rewrite contains_all_of, negb_involutive.
  apply all_of_impl. intros c Hc. now rewrite Ascii.eqb_sym.
Qed.

Lemma attribute_markup_plain (d : list xmlNs) (a : list attribute) :
  forallb plain_ns d = true -> forallb plain_attr a = true ->
  all_of (fun c => negb (Ascii.eqb c ">")) (attribute_markup d a) = true.
Proof.
  intros Hd Ha. unfold attribute_markup.
  rewrite all_of_append, !all_of_concat; [reflexivity| |].
  - apply Forall_map, List.Forall_forall. intros x Hx.
    rewrite forallb_forall in Ha. specialize (Ha x Hx).
    unfold dump_attr. rewrite !all_of_append, escape_attr_plain.
    rewrite (plain_of_contains _ Ha). reflexivity.
  - apply Forall_map, List.Forall_forall. intros n Hn.
    rewrite forallb_forall in Hd. specialize (Hd n Hn).
    unfold dump_ns, plain_ns in *.
    destruct (ns_prefix n) as [p|];
      rewrite !all_of_append, escape_attr_plain;
      [rewrite (plain_of_contains _ Hd)|]; reflexivity.
Qed.

Lemma attribute_markup_space (d : list xmlNs) (a : list attribute) :
  d <> [] \/ a <> [] ->
  match attribute_markup d a with
  | String c _ => is_space c = true
  | EmptyString => False
  end.
Proof.
  unfold attribute_markup.
  destruct d as [|n d].
  - intros [H|H]; [now destruct H|].
    destruct a as [|x a]; [now destruct H|].
    cbn [map String.concat]. rewrite append_nil.
    destruct (map dump_attr a); unfold dump_attr;
      rewrite ?append_nil, ?append_cons; reflexivity.
  - intros _. cbn [map String.concat].
    destruct (map dump_ns d); unfold dump_ns; destruct (ns_prefix n);
      rewrite ?append_nil, ?append_cons; reflexivity.
Qed.

Lemma copy_parent_namespaces_nonempty (own outer : list xmlNs) :
  outer <> [] -> copy_parent_namespaces own outer <> [].
Proof.
  unfold copy_parent_namespaces.
  assert (Hkeep : forall l acc, acc <> [] ->
            fold_left (fun acc n =>
                         if existsb (same_prefix n) acc then acc
                         else acc ++ [n]) l acc <> []).
  { induction l as [|n l IH]; intros acc Hacc; [exact Hacc|].
    cbn [fold_left]. apply IH.
    destruct (existsb (same_prefix n) acc); [exact Hacc|].
    now destruct acc. }
  destruct outer as [|n outer]; [intros H; now destruct H|]. intros _.
  cbn [fold_left]. apply Hkeep.
  destruct (existsb (same_prefix n) own) eqn:E; [|now destruct own].
  now destruct own.
Qed.

(** The serialisation of an element, in its parts. *)
Lemma tostring_element ns name d a text cs tl outer :
  tostring (Handle (Element ns name d a text cs tl) outer)
  = "<" +:+ qname ns name
      +:+ attribute_markup (copy_parent_namespaces d outer) a
      +:+ match text, cs with
          | [], [] => "/>"
          | _, _ =>
              ">" +:+ inner_markup (Element ns name d a text cs tl)
                +:+ "</" +:+ qname ns name +:+ ">"
          end
      +:+ dump_texts tl.
Proof.
  unfold tostring, attribute_markup, inner_markup.
  cbn [elem outer_ns nsDef with_nsDef dump tail text_nodes children].
  rewrite !append_assoc. destruct text, cs; rewrite ?append_assoc; reflexivity.
Qed.

(** [_content_to_string] of an element named [root]: its content when it
    has any, and [AttributeError] for the empty-element form. *)
Lemma content_of_root_element ns d a text cs tl outer :
  qname ns "root" = "root" ->
  copy_parent_namespaces d outer <> [] \/ a <> [] ->
  forallb plain_ns (copy_parent_namespaces d outer) = true ->
  forallb plain_attr a = true ->
  all_of is_space (dump_texts tl) = true ->
  _content_to_string (Handle (Element ns "root" d a text cs tl) outer)
  = match text, cs with
    | [], [] => Raise AttributeError
    | _, _ => Ok (inner_markup (Element ns "root" d a text cs tl))
    end.
Proof.
  intros Hq Hne Hd Ha Ht. unfold _content_to_string.
  rewrite tostring_element, Hq.
  pose proof (attribute_markup_plain _ _ Hd Ha) as Hplain.
  pose proof (attribute_markup_space _ _ Hne) as Hspace.
  set (s := attribute_markup (copy_parent_namespaces d outer) a) in *.
  assert (Hopen : forall g,
    re_match_root ("<" +:+ "root" +:+ s +:+ (">" +:+ g +:+ "</" +:+ "root"
                     +:+ ">") +:+ dump_texts tl) = Some g).
  { intros g.
    replace ("<" +:+ "root" +:+ s +:+ (">" +:+ g +:+ "</" +:+ "root" +:+ ">")
               +:+ dump_texts tl)
      with ("<root" +:+ s +:+ ">" +:+ g +:+ "</root>" +:+ dump_texts tl).
    - now apply re_match_root_open.
    - rewrite !append_assoc. reflexivity. }
  destruct text as [|t text], cs as [|c cs]; try (now rewrite Hopen).
  replace ("<" +:+ "root" +:+ s +:+ "/>" +:+ dump_texts tl)
    with ("<root" +:+ s +:+ "/>" +:+ dump_texts tl) by reflexivity.
  now rewrite re_match_root_empty_element.
Qed.

Lemma search_here (s d : string) (n pos : nat) :
  match_page_id_here s = Some (d, n) ->
  search_page_id_from pos s = Some (mkMatch pos (pos + n) d).
Proof.
  intros H. destruct s; cbn [search_page_id_from]; now rewrite H.
Qed.

Lemma search_gives_comment (html : string) (m : Match) :
  re_search_page_id html = Some m ->
  exists pre c post,
    is_page_id_comment (group1 m) c /\ html = pre +:+ c +:+ post.
Proof.
  intros H. apply search_page_id_leftmost in H as (k & n & _ & _ & H & _).
  apply match_page_id_here_sound in H as (c & Hc & E & _).
  exists (take_str k html), c, (drop_str n (drop_str k html)).
  split; [exact Hc|]. rewrite <- E. apply take_drop_str.
Qed.

Lemma converter_visit_plain
    (fromstringlist : list string -> XMLSyntaxError + element)
    (chk nf : string -> result unit) (depth : nat)
    (self : ConfluenceStorageFormatConverter) (node : element) :
  forallb no_shapes (children node) = true -> height node <= depth ->
  visit (Converter_transform fromstringlist chk nf) depth self node
  = Ok (self, node).
Proof.
  intros Hn Hh.
  apply (visit_identity _ (fun c => no_shapes c = true)); try assumption.
  - apply no_shapes_children.
  - intros s c Hc. now apply Converter_transform_no_shapes.
  - apply forallb_forall. exact Hn.
Qed.

(** X11. The identifier is found exactly when the page holds an identifier
    comment: [re.search] matches if and only if the page is some text, a
    comment of the form the pattern describes, and some text; a page
    without such a comment makes the constructor raise [AttributeError],
    and the identifier of a document that was built is a non-empty string
    of digits. *)
Theorem X11_page_id_needs_a_comment
    (fromstringlist : list string -> XMLSyntaxError + element)
    (chk nf : string -> result unit) (depth : nat) (html : string) :
  ((exists m, re_search_page_id html = Some m)
   <-> (exists pre d c post,
          is_page_id_comment d c /\ html = pre +:+ c +:+ post))
  /\ ((forall pre d c post,
         is_page_id_comment d c -> html <> pre +:+ c +:+ post) ->
      ConfluenceDocument_init fromstringlist chk nf depth html
      = Raise AttributeError)
  /\ (forall doc,
        ConfluenceDocument_init fromstringlist chk nf depth html = Ok doc ->
        nonempty (id doc) = true /\ all_of is_digit (id doc) = true).
Proof.
  split; [split|split].
  - intros [m Hm]. apply search_gives_comment in Hm as (pre & c & post & H).
    now exists pre, (group1 m), c, post.
  - intros (pre & d & c & post & Hc & ->).
    apply (search_finds_later pre (c +:+ post) 0 (d, String.length c)).
    now apply match_page_id_here_complete.
  - intros Hno. unfold ConfluenceDocument_init.
    destruct (re_search_page_id html) as [m|] eqn:Hm; [|reflexivity].
    apply search_gives_comment in Hm as (pre & c & post & Hc & E).
    now destruct (Hno pre (group1 m) c post Hc).
  - intros doc. unfold ConfluenceDocument_init.
    destruct (re_search_page_id html) as [m|] eqn:Hm; [|discriminate].
    apply search_gives_comment in Hm
      as (pre & c & post & (w1 & w2 & w3 & _ & _ & _ & _ & Hn & Hd & _) & _).
    destruct (element_from_string_list _ _) as [r|e]; [|discriminate].
    cbn [bind].
    destruct (visit _ _ _ _) as [[converter node]|e]; [|discriminate].
    cbn [bind]. intros H. inversion H. cbn [id]. now split.
Qed.

Lemma X11_witness : exists m, re_search_page_id html_two_comments = Some m.
Proof.
  apply (proj1 (X11_page_id_needs_a_comment Reference.fromstringlist no_check
                  no_check run_limit html_two_comments)).
  exists "<!-- confluence-page-id: 1 --><p>x</p>", "2",
    "<!-- confluence-page-id: 2 -->", EmptyString.
  split; [|reflexivity].
  exists " ", " ", " ". repeat split; reflexivity.
Defined.

(** X12. A page that is nothing but its identifier comment gives a
    document whose root is the banner macro itself, not the synthetic root,
    and [xhtml] of that document raises [AttributeError]. *)
Theorem X12_page_of_comment_only (chk nf : string -> result unit)
    (depth : nat) (d c : string) :
  is_page_id_comment d c -> 2 <= depth ->
  let doc := mkDocument d [] [] (Handle banner_macro [ac; ri]) in
  ConfluenceDocument_init Reference.fromstringlist chk nf depth c = Ok doc
  /\ xhtml doc = Raise AttributeError.
Proof.
  intros Hc Hd doc. split; [|vm_compute; reflexivity].
  unfold ConfluenceDocument_init, re_search_page_id.
  pose proof (match_page_id_here_complete d c EmptyString Hc) as Hm.
  rewrite append_empty_r in Hm.
  rewrite (search_here _ _ _ 0 Hm). cbn [m_start m_end group1 take_str].
  pose proof (drop_str_append c EmptyString) as Hdrop.
  rewrite append_empty_r in Hdrop. cbn [Nat.add]. rewrite Hdrop.
  replace (take_str 0 c) with EmptyString by (now destruct c).
  replace (element_from_string_list Reference.fromstringlist
             (banner ++ [EmptyString; EmptyString]))
    with (Ok (Handle banner_macro [ac; ri]))
    by (vm_compute; reflexivity).
  cbn [bind elem outer_ns].
  rewrite converter_visit_plain; [reflexivity|reflexivity|exact Hd].
Qed.

Lemma X12_witness :
  ConfluenceDocument_init Reference.fromstringlist no_check no_check 2
    html_comment_only
  = Ok (mkDocument "12" [] [] (Handle banner_macro [ac; ri]))
  /\ xhtml (mkDocument "12" [] [] (Handle banner_macro [ac; ri]))
     = Raise AttributeError.
Proof.
  apply (X12_page_of_comment_only no_check no_check 2 "12" html_comment_only);
    [|apply le_n].
  exists " ", " ", " ". repeat split; reflexivity.
Defined.

(** X13. What [_content_to_string] returns for the synthetic root is the
    markup of what the root contains: its text, then each child with its
    tail, in order.  For a synthetic root without text and without
    children, which is written as an empty-element tag, it raises
    [AttributeError]. *)
Theorem X13_content_of_synthetic_root (text : list text_node)
    (cs : list element) :
  _content_to_string (Handle (synthetic_root text cs) [])
  = match text, cs with
    | [], [] => Raise AttributeError
    | _, _ => Ok (inner_markup (synthetic_root text cs))
    end.
Proof. apply content_of_synthetic_root. Qed.

(** X14. [xhtml] does not fail on a document built from a page with
    content: when the parser returns the synthetic root with two children
    or more, the document keeps that root, with as many children, and
    [xhtml] returns the markup of what the root then contains. *)
Theorem X14_xhtml_of_built_document
    (fromstringlist : list string -> XMLSyntaxError + element)
    (chk nf : string -> result unit) (depth : nat) (html : string)
    (doc : ConfluenceDocument) (m : Match) (text : list text_node)
    (cs : list element) :
  re_search_page_id html = Some m ->
  fromstringlist
    (wrap (banner ++ [take_str (m_start m) html; drop_str (m_end m) html]))
  = inr (synthetic_root text cs) ->
  2 <= length cs ->
  ConfluenceDocument_init fromstringlist chk nf depth html = Ok doc ->
  exists cs',
    length cs' = length cs
    /\ root doc = Handle (synthetic_root text cs') []
    /\ xhtml doc = Ok (inner_markup (synthetic_root text cs')).
Proof.
  intros Hm Hfs Hlen. unfold ConfluenceDocument_init, element_from_string_list.
  rewrite Hm, Hfs.
  assert (Hl : (1 <? len (synthetic_root text cs))%nat = true)
    by (apply Nat.ltb_lt; exact Hlen).
  rewrite Hl. cbn [bind elem outer_ns].
  destruct (visit _ depth _ (synthetic_root text cs))
    as [[converter node]|e] eqn:Hv; [|discriminate].
  cbn [bind]. intros H. inversion H. subst doc. clear H.
  pose proof (visit_shell _ _ _ _ _ _ Hv) as Hshell.
  pose proof (visit_len _ _ _ _ _ _ Hv) as Hsame.
  cbn [set_children synthetic_root] in Hshell.
  fold (synthetic_root text (children node)) in Hshell.
  exists (children node). split; [exact Hsame|].
  cbn [root]. rewrite Hshell at 1 2. split; [reflexivity|].
  unfold xhtml. cbn [root]. rewrite Hshell at 1.
  rewrite content_of_synthetic_root.
  unfold len in Hsame. cbn [children synthetic_root] in Hsame.
  destruct (children node) as [|x xs]; [cbn in Hsame; lia|].
  now destruct text.
Qed.

Lemma X14_witness :
  exists cs',
    length cs' = 2
    /\ root image_page_document = Handle (synthetic_root [] cs') []
    /\ xhtml image_page_document = Ok (inner_markup (synthetic_root [] cs')).
Proof.
  refine (X14_xhtml_of_built_document Reference.fromstringlist no_check
            no_check run_limit html_image_page image_page_document
            (mkMatch 0 31 "12") [] [banner_macro; paragraph_with_image]
            _ _ _ _).
  - vm_compute. reflexivity.
  - vm_compute. reflexivity.
  - apply le_n.
  - vm_compute. reflexivity.
Defined.

(** X15. Sanitising returns the content with the volatile attributes gone:
    when the parser returns the synthetic root with two children or more,
    all of them trees of elements, and the depth is enough, the result is
    the markup of the text of the root and of its children, each without
    the two volatile attributes on any of its elements. *)
Theorem X15_sanitize_serialises_stripped_content
    (fromstringlist : list string -> XMLSyntaxError + element)
    (depth : nat) (html : string) (text : list text_node)
    (cs : list element) :
  fromstringlist (wrap [html]) = inr (synthetic_root text cs) ->
  2 <= length cs -> forallb elements_only cs = true ->
  height (synthetic_root text cs) <= depth ->
  sanitize_confluence fromstringlist depth html
  = Ok (inner_markup (synthetic_root text (map strip_deep cs))).
Proof.
  intros Hfs Hlen Hel Hh.
  unfold sanitize_confluence, element_from_string, element_from_string_list.
  rewrite Hfs.
  assert (Hl : (1 <? len (synthetic_root text cs))%nat = true)
    by (apply Nat.ltb_lt; exact Hlen).
  rewrite Hl. cbn [bind elem outer_ns].
  rewrite cleaner_strip_below by assumption. cbn [bind].
  change (strip_below (synthetic_root text cs))
    with (synthetic_root text (map strip_deep cs)).
  rewrite content_of_synthetic_root.
  destruct cs as [|c cs]; [cbn in Hlen; lia|]. now destruct text.
Qed.

Lemma X15_witness :
  sanitize_confluence Reference.fromstringlist run_limit two_paragraphs
  = Ok (inner_markup
          (synthetic_root []
             (map strip_deep
                [Element None "p" [] [mkAttr (Some ac) "macro-id" "1"] []
                   [Element None "b" [] [] [] [] []] [];
                 Element None "q" [] [] [] [] []]))).
Proof.
  apply X15_sanitize_serialises_stripped_content.
  - vm_compute. reflexivity.
  - apply le_n.
  - reflexivity.
  - apply Nat.leb_le. vm_compute. reflexivity.
Defined.

(** X16. The errors of sanitising.  A parse that returns a root without
    children, as for an empty text, ends in [IndexError].  Whenever
    sanitising fails, it is with the [ParseError] of the diagnostic of the
    parser, with [IndexError] on such an empty root, with [RecursionError]
    when the depth granted is less than the height of the tree, or with
    [AttributeError] when the serialisation of the cleaned tree does not
    match the root pattern; the cleaner itself fails on no node, comments
    and processing instructions included. *)
Theorem X16_sanitize_errors
    (fromstringlist : list string -> XMLSyntaxError + element)
    (depth : nat) (html : string) :
  (forall parsed,
     fromstringlist (wrap [html]) = inr parsed -> children parsed = [] ->
     sanitize_confluence fromstringlist depth html = Raise IndexError)
  /\ (forall e,
        sanitize_confluence fromstringlist depth html = Raise e ->
        (exists x, e = ParseError x /\ fromstringlist (wrap [html]) = inl x)
        \/ (e = IndexError
            /\ exists parsed, fromstringlist (wrap [html]) = inr parsed
                              /\ children parsed = [])
        \/ (e = RecursionError
            /\ exists h, element_from_string fromstringlist html = Ok h
                         /\ depth < height (elem h))
        \/ (e = AttributeError
            /\ exists h, element_from_string fromstringlist html = Ok h
                 /\ re_match_root
                      (tostring (Handle (strip_below (elem h)) (outer_ns h)))
                    = None)).
Proof.
  unfold sanitize_confluence. split.
  - intros parsed Hfs Hcs.
    unfold element_from_string, element_from_string_list.
    rewrite Hfs. unfold len, getitem. now rewrite Hcs.
  - intros e.
    destruct (element_from_string fromstringlist html) as [h|e0] eqn:Hh;
      cbn [bind].
    + destruct (visit Cleaner_transform depth tt (elem h)) as [[[] node]|x]
        eqn:Hv; cbn [bind].
      * apply cleaner_ok in Hv as [-> _]. unfold _content_to_string.
        destruct (re_match_root _) eqn:Hm; [discriminate|].
        intros H. inversion H. right; right; right.
        split; [reflexivity|]. now exists h.
      * intros H. inversion H; subst x.
        apply cleaner_raises in Hv as [-> Hlt]. right; right; left.
        split; [reflexivity|]. now exists h.
    + intros H. inversion H; subst e0. clear H.
      unfold element_from_string, element_from_string_list in Hh.
      destruct (fromstringlist (wrap [html])) as [x|parsed] eqn:Hfs.
      { inversion Hh. left. now exists x. }
      destruct (1 <? len parsed)%nat; [discriminate|].
      unfold getitem in Hh.
      destruct (children parsed) as [|c cs] eqn:Hcs;
        cbn [lookup list_lookup bind] in Hh; [|discriminate].
      inversion Hh. right; left. split; [reflexivity|]. now exists parsed.
Qed.

Lemma X16_witness :
  sanitize_confluence Reference.fromstringlist run_limit EmptyString
  = Raise IndexError.
Proof.
  apply (proj1 (X16_sanitize_errors Reference.fromstringlist run_limit
                  EmptyString) (Element None "root" [ac; ri] [] [] [] []));
    vm_compute; reflexivity.
Defined.

(** X17. The cleaner has nothing left to do on its own result: a second
    walk over the tree that the first one returned succeeds and returns
    that tree again.  This holds for every tree, comments and processing
    instructions included. *)
Theorem X17_cleaner_twice (depth : nat) (node node' : element) (u : unit) :
  visit ConfluenceStorageFormatCleaner_transform depth tt node
  = Ok (u, node') ->
  visit ConfluenceStorageFormatCleaner_transform depth tt node'
  = Ok (tt, node').
Proof.
  destruct u. intros H. now apply cleaner_ok in H as [_ H].
Qed.

Lemma X17_witness :
  visit ConfluenceStorageFormatCleaner_transform 5 tt
    (strip_below division_with_comment)
  = Ok (tt, strip_below division_with_comment).
Proof.
  apply (X17_cleaner_twice 5 division_with_comment
           (strip_below division_with_comment) tt).
  vm_compute. reflexivity.
Defined.

(** X18. A code element without text gives a macro whose body is the word
    None: for a preformatted block around a single code element that has
    no text and no class, or an empty class, the hook returns the code
    macro for the language none with the body [None]. *)
Theorem X18_code_without_text (chk nf : string -> result unit)
    (self : ConfluenceStorageFormatConverter) (pre code : element) :
  tag_is pre "pre" = true -> children pre = [code] ->
  tag_is code "code" = true ->
  attrib_get code "class" = None
  \/ attrib_get code "class" = Some EmptyString ->
  text code = None ->
  ConfluenceStorageFormatConverter_transform Reference.fromstringlist chk nf
    self pre
  = Ok (self, pre, Some (code_macro_body "none" "None")).
Proof.
  intros Hpre Hcs Hcode Hclass Htext.
  assert (Hblock :
    _transform_block Reference.fromstringlist self code
    = Ok (self, Some (code_macro_body "none" "None"))).
  { unfold _transform_block. rewrite Htext.
    assert (E : element_from_string_list Reference.fromstringlist
                  (block_items "none" "None")
                = Ok (Handle (code_macro_body "none" "None") [ac; ri]))
      by (vm_compute; reflexivity).
    destruct Hclass as [->| ->]; cbn [nonempty bind not_in_languages];
      [|replace (in_languages EmptyString) with false by reflexivity];
      cbn [negb format_opt]; now rewrite E. }
  unfold ConfluenceStorageFormatConverter_transform.
  rewrite (tag_is_other _ _ "p" Hpre), (tag_is_other _ _ "img" Hpre),
    (tag_is_other _ _ "a" Hpre), Hpre.
  unfold child0_tag_is, len, getitem. rewrite Hcs.
  cbn [String.eqb Ascii.eqb Bool.eqb andb length Nat.eqb lookup list_lookup
       bind].
  rewrite Hcode. cbn [bind]. now rewrite Hblock.
Qed.

Lemma X18_witness :
  T_ref ConfluenceStorageFormatConverter_init pre_with_empty_code
  = Ok (ConfluenceStorageFormatConverter_init, pre_with_empty_code,
        Some (code_macro_body "none" "None")).
Proof.
  apply (X18_code_without_text no_check no_check
           ConfluenceStorageFormatConverter_init pre_with_empty_code
           (Element None "code" [] [] [] [] [])); try reflexivity.
  left. reflexivity.
Defined.

(** ** The properties the specification states *)

(** C1, as amended. Without an identifier comment construction raises
    [AttributeError]. With at least one, [re.search] finds the leftmost
    comment, the identifier of a document that is built is the digit string
    this comment captures, and the document is built whenever the builder
    and the converter raise nothing on the banner and the HTML around the
    comment; later comments stay in that HTML. *)
Theorem C1_page_id_of_leftmost_comment
    (fromstringlist : list string -> XMLSyntaxError + element)
    (chk nf : string -> result unit) (depth : nat) (html : string) :
  let init := ConfluenceDocument_init fromstringlist chk nf depth in
  (count_page_id html = 0 -> init html = Raise AttributeError)
  /\ (1 <= count_page_id html ->
      exists m comment,
        re_search_page_id html = Some m
        /\ is_page_id_comment (group1 m) comment
        /\ html = take_str (m_start m) html +:+ comment
                    +:+ drop_str (m_end m) html
        /\ (forall k, k < m_start m ->
              match_page_id_here (drop_str k html) = None)
        /\ (forall doc, init html = Ok doc -> id doc = group1 m)
        /\ (forall root converter node,
              element_from_string_list fromstringlist
                (banner ++ [take_str (m_start m) html;
                            drop_str (m_end m) html]) = Ok root ->
              visit
                (ConfluenceStorageFormatConverter_transform fromstringlist
                   chk nf)
                depth ConfluenceStorageFormatConverter_init (elem root)
              = Ok (converter, node) ->
              init html
              = Ok (mkDocument (group1 m) (links converter)
                      (images converter) (Handle node (outer_ns root))))).
Proof.
  intros init. split.
  - intros H. unfold init, ConfluenceDocument_init, re_search_page_id.
    now rewrite search_none_of_count.
  - intros H.
    destruct (search_some_of_count html 0 H) as [m Hm].
    destruct (search_page_id_leftmost html 0 m Hm)
      as (k & n & Hstart & Hend & Hhere & Hleft).
    cbn [Nat.add] in Hstart, Hend. subst k.
    destruct (match_page_id_here_sound _ _ _ Hhere) as (c & Hc & Hs & Hl).
    exists m, c. split; [exact Hm|]. split; [exact Hc|].
    split; [|split; [exact Hleft|split]].
    + rewrite (take_drop_str (m_start m) html) at 1. f_equal.
      rewrite Hs at 1. f_equal. now rewrite Hend, drop_str_add.
    + intros doc. unfold init, ConfluenceDocument_init.
      unfold re_search_page_id. rewrite Hm.
      destruct (element_from_string_list _ _) as [r|e]; [|discriminate].
      cbn [bind]. destruct (visit _ _ _ _) as [[cv nd]|e]; [|discriminate].
      cbn [bind]. intros Hd. inversion Hd. reflexivity.
    + intros r cv nd Hr Hv. unfold init, ConfluenceDocument_init.
      unfold re_search_page_id. rewrite Hm, Hr. cbn [bind].
      rewrite Hv. reflexivity.
Qed.

Lemma C1_witness :
  ConfluenceDocument_init Reference.fromstringlist no_check no_check
    run_limit "<p>x</p>" = Raise AttributeError
  /\ exists m,
       re_search_page_id html_two_comments = Some m
       /\ forall doc,
            ConfluenceDocument_init Reference.fromstringlist no_check
              no_check run_limit html_two_comments = Ok doc ->
            id doc = group1 m.
Proof.
  split.
  - apply (proj1 (C1_page_id_of_leftmost_comment Reference.fromstringlist
                    no_check no_check run_limit "<p>x</p>")).
    reflexivity.
  - destruct (proj2 (C1_page_id_of_leftmost_comment Reference.fromstringlist
                       no_check no_check run_limit html_two_comments))
      as (m & c & Hm & _ & _ & _ & Hid & _).
    + vm_compute. apply le_S, le_n.
    + exists m. split; assumption.
Defined.

(** C1, counterexample. A page with two identifier comments is built, with
    the identifier of the first; a page with exactly one identifier comment
    and an anchor without [href] is not built. *)
Lemma C1_counterexample :
  (count_page_id html_two_comments = 2
   /\ exists doc,
        ConfluenceDocument_init Reference.fromstringlist no_check no_check
          run_limit html_two_comments = Ok doc
        /\ id doc = "1")
  /\ (count_page_id html_anchor_without_href = 1
      /\ ConfluenceDocument_init Reference.fromstringlist no_check no_check
           run_limit html_anchor_without_href = Raise (KeyError "href")).
Proof.
  split; split; try reflexivity.
  eexists. split; [vm_compute; reflexivity | reflexivity].
Qed.

(** C2. [visit] returns a node without children at once, whatever the depth
    left; otherwise it treats the children by increasing index as the
    specification says: a child for which [transform] returns a replacement
    is replaced at its index and the replacement is not entered, a child
    for which it returns nothing is visited.  The node returned has exactly
    the children this gives, as many as before, and is otherwise the node
    that was passed. *)
Theorem C2_visit_replace_or_recurse {Self : Type}
    (transform : Self -> element -> result (Self * element * option element))
    (depth : nat) (self : Self) (node : element) :
  (children node = [] -> visit transform depth self node = Ok (self, node))
  /\ (children node <> [] ->
      visit transform 0 self node = Raise RecursionError)
  /\ (forall self' cs,
        children node <> [] ->
        visit_children_spec transform (visit transform depth) self
          (children node) = Ok (self', cs) ->
        exists node',
          visit transform (S depth) self node = Ok (self', node')
          /\ children node' = cs
          /\ length cs = length (children node)
          /\ tag node' = tag node /\ attrs node' = attrs node
          /\ text_nodes node' = text_nodes node /\ tail node' = tail node)
  /\ (forall e,
        children node <> [] ->
        visit_children_spec transform (visit transform depth) self
          (children node) = Raise e ->
        visit transform (S depth) self node = Raise e)
  /\ (forall (walk : Self -> element -> result (Self * element))
             (child : element) (rest : list element),
        visit_children_spec transform walk self (child :: rest)
        = let! (self1, child1, target) := transform self child in
          match target with
          | Some replacement =>
              let! (self2, rest') :=
                visit_children_spec transform walk self1 rest in
              Ok (self2, replacement :: rest')
          | None =>
              let! (self2, child2) := walk self1 child1 in
              let! (self3, rest') :=
                visit_children_spec transform walk self2 rest in
              Ok (self3, child2 :: rest')
          end)
  /\ (forall walk : Self -> element -> result (Self * element),
        visit_children_spec transform walk self [] = Ok (self, [])).
Proof.
  split; [now apply visit_leaf|]. split.
  { intros Hne. cbn [visit]. unfold len.
    destruct (children node); [now destruct Hne | reflexivity]. }
  split.
  { intros self' cs Hne Hcs. exists (set_children node cs).
    rewrite visit_unfold, Hcs by exact Hne. cbn [bind].
    split; [reflexivity|].
    split; [now apply children_set_children|].
    split; [eapply visit_children_spec_length, Hcs|].
    apply set_children_shell. }
  split.
  { intros e Hne Hcs. now rewrite visit_unfold, Hcs by exact Hne. }
  split; reflexivity.
Qed.

Lemma C2_witness :
  exists node',
    visit noting_transform 2 [] noted_tree
    = Ok (["old"; "kept"; "entered"], node')
    /\ children node' = [noted_replacement; noted_kept]
    /\ tag node' = TagStr "top" /\ attrs node' = [mkAttr None "id" "t"].
Proof.
  destruct (proj1 (proj2 (proj2
              (C2_visit_replace_or_recurse noting_transform 1 [] noted_tree)))
              ["old"; "kept"; "entered"] [noted_replacement; noted_kept])
    as (node' & Hv & Hcs & _ & Htag & Hattrs & _).
  - discriminate.
  - vm_compute. reflexivity.
  - exists node'. repeat split; assumption.
Defined.

(** C3, as amended. For an anchor with an [href] on which [urlparse]
    returns, the classification is that of the network location:
    [transform] appends the URL to [links] exactly when the location is
    empty, returns no replacement and leaves the anchor as it is; the loop
    of [visit] then enters the anchor, and the walk changes at most its
    children.  [urlparse] returns whenever the location is ASCII without
    square brackets.  When it raises, the error leaves [transform] and the
    loop of [visit]. *)
Theorem C3_anchor_recorded_not_replaced
    (fromstringlist : list string -> XMLSyntaxError + element)
    (chk nf : string -> result unit)
    (self : ConfluenceStorageFormatConverter) (anchor : element)
    (url : string) :
  tag_is anchor "a" = true ->
  attrib_get anchor "href" = Some url ->
  let T := ConfluenceStorageFormatConverter_transform fromstringlist chk nf in
  let recorded := mkConverter (links self ++ [url]) (images self) in
  (forall absolute,
     is_absolute_url chk nf url = Ok absolute ->
     let self' := if absolute then self else recorded in
     absolute = nonempty (netloc_text url)
     /\ T self anchor = Ok (self', anchor, None)
     /\ (forall depth node index,
           getitem node index = Ok anchor ->
           visit_index T (visit T depth) (Ok (self, node)) index
           = let! (self'', anchor') := visit T depth self' anchor in
             Ok (self'', setitem node index anchor'))
     /\ (forall depth self'' anchor',
           visit T depth self' anchor = Ok (self'', anchor') ->
           tag anchor' = tag anchor /\ attrs anchor' = attrs anchor
           /\ text_nodes anchor' = text_nodes anchor
           /\ tail anchor' = tail anchor /\ len anchor' = len anchor))
  /\ (contains "[" (netloc_text url) = false ->
      contains "]" (netloc_text url) = false ->
      isascii (netloc_text url) = true ->
      T self anchor
      = Ok (if nonempty (netloc_text url) then self else recorded,
            anchor, None))
  /\ (forall e,
        is_absolute_url chk nf url = Raise e ->
        T self anchor = Raise e
        /\ forall depth node index,
             getitem node index = Ok anchor ->
             visit_index T (visit T depth) (Ok (self, node)) index
             = Raise e).
Proof.
  intros Htag Hhref T recorded.
  assert (HT : T self anchor
               = let! absolute := is_absolute_url chk nf url in
                 Ok (if absolute then self else recorded, anchor, None)).
  { unfold T. rewrite Converter_transform_anchor by exact Htag.
    unfold _transform_link, attrib_getitem. rewrite Hhref. cbn [bind].
    destruct (is_absolute_url chk nf url) as [[|]|e]; reflexivity. }
  split; [|split].
  - intros absolute Habs self'. rewrite Habs in HT. cbn [bind] in HT.
    split; [now apply (is_absolute_url_ok chk nf)|].
    split; [exact HT|]. split.
    + intros depth node index Hget.
      unfold visit_index. cbn [bind]. rewrite Hget. cbn [bind].
      rewrite HT. reflexivity.
    + intros depth self'' anchor' Hv.
      pose proof (visit_shell T _ _ _ _ _ Hv) as Hshell.
      pose proof (visit_len T _ _ _ _ _ Hv) as Hlen.
      destruct (set_children_shell anchor (children anchor'))
        as (H1 & H2 & H3 & H4).
      rewrite <- Hshell in H1, H2, H3, H4. repeat split; assumption.
  - intros Hl Hr Ha.
    rewrite HT, (is_absolute_url_of_netloc chk nf url Hl Hr Ha).
    reflexivity.
  - intros e Habs. rewrite Habs in HT. cbn [bind] in HT.
    split; [exact HT|]. intros depth node index Hget.
    unfold visit_index. cbn [bind]. rewrite Hget. cbn [bind].
    rewrite HT. reflexivity.
Qed.

Lemma C3_witness :
  T_ref ConfluenceStorageFormatConverter_init relative_anchor
  = Ok (mkConverter ["./doc.md"] [], relative_anchor, None)
  /\ T_ref ConfluenceStorageFormatConverter_init absolute_anchor
     = Ok (ConfluenceStorageFormatConverter_init, absolute_anchor, None).
Proof.
  split.
  - exact (proj1 (proj2 (C3_anchor_recorded_not_replaced
                           Reference.fromstringlist no_check no_check
                           ConfluenceStorageFormatConverter_init
                           relative_anchor "./doc.md" eq_refl eq_refl))
             eq_refl eq_refl eq_refl).
  - exact (proj1 (proj2 (C3_anchor_recorded_not_replaced
                           Reference.fromstringlist no_check no_check
                           ConfluenceStorageFormatConverter_init
                           absolute_anchor "https://x.com/y" eq_refl eq_refl))
             eq_refl eq_refl eq_refl).
Defined.

(** C3, counterexample. An anchor whose address has an opening square
    bracket without a closing one in its network location is neither
    recorded nor passed over: the hook raises [ValueError], and so does
    the walk over a paragraph that holds the anchor. *)
Lemma C3_counterexample :
  tag_is (anchor_to "https://[x.com/y") "a" = true
  /\ attrib_get (anchor_to "https://[x.com/y") "href"
     = Some "https://[x.com/y"
  /\ T_ref ConfluenceStorageFormatConverter_init
       (anchor_to "https://[x.com/y")
     = Raise ValueError
  /\ visit T_ref run_limit ConfluenceStorageFormatConverter_init
       (Element None "p" [] [] [] [anchor_to "https://[x.com/y"] [])
     = Raise ValueError.
Proof. repeat split; vm_compute; reflexivity. Qed.

(** C4, as amended. For a [pre] element whose only child is a [code]
    element, the language of the emitted code macro is the name taken
    from a class [language-name] when the name is a recognised language,
    and [none] when the class attribute is absent, is the empty string, or
    names a language outside the set; a class attribute that is not empty
    and does not match the pattern raises [AttributeError]. *)
Theorem C4_code_block_language
    (fromstringlist : list string -> XMLSyntaxError + element)
    (chk nf : string -> result unit)
    (self : ConfluenceStorageFormatConverter) (pre code : element) :
  tag_is pre "pre" = true -> children pre = [code] ->
  tag_is code "code" = true ->
  let T := ConfluenceStorageFormatConverter_transform fromstringlist chk nf in
  let emit := fun language : string =>
    let! macro :=
      element_from_string_list fromstringlist
        (block_items language (format_opt (text code))) in
    Ok (self, pre, Some (elem macro)) in
  (attrib_get code "class" = None -> T self pre = emit "none")
  /\ (attrib_get code "class" = Some EmptyString -> T self pre = emit "none")
  /\ (forall cls name,
        attrib_get code "class" = Some cls -> nonempty cls = true ->
        re_match_language cls = Some name ->
        T self pre = emit (if in_languages name then name else "none"))
  /\ (forall cls,
        attrib_get code "class" = Some cls -> nonempty cls = true ->
        re_match_language cls = None ->
        T self pre = Raise AttributeError).
Proof.
  intros Hpre Hch Hcode T emit.
  assert (HT : T self pre
               = let! (s, t) := _transform_block fromstringlist self code in
                 Ok (s, pre, t)).
  { unfold T, Converter_transform.
    rewrite (tag_is_other pre "pre" "p" Hpre),
      (tag_is_other pre "pre" "img" Hpre),
      (tag_is_other pre "pre" "a" Hpre), Hpre.
    replace ("pre" =? "p") with false by reflexivity.
    replace ("pre" =? "img") with false by reflexivity.
    replace ("pre" =? "a") with false by reflexivity.
    unfold len, child0_tag_is, getitem. rewrite Hch.
    cbn [andb length Nat.eqb lookup list_lookup]. rewrite Hcode.
    cbn [andb bind]. reflexivity. }
  rewrite HT. unfold _transform_block, emit.
  repeat split.
  - intros ->. cbn [bind not_in_languages format_opt].
    destruct (element_from_string_list _ _); reflexivity.
  - intros ->. cbn [nonempty bind not_in_languages in_languages].
    replace (negb (existsb (String.eqb EmptyString) _languages)) with true
      by reflexivity.
    cbn [format_opt].
    destruct (element_from_string_list _ _); reflexivity.
  - intros cls name -> -> ->. cbn [bind not_in_languages].
    destruct (in_languages name); cbn [negb format_opt];
      destruct (element_from_string_list _ _); reflexivity.
  - intros cls -> -> ->. reflexivity.
Qed.

Lemma C4_witness :
  T_ref ConfluenceStorageFormatConverter_init (pre_with_class "language-python")
  = Ok (ConfluenceStorageFormatConverter_init, pre_with_class "language-python",
        Some (code_macro "python"))
  /\ T_ref ConfluenceStorageFormatConverter_init (pre_with_class "language")
     = Raise AttributeError.
Proof.
  pose proof (C4_code_block_language Reference.fromstringlist no_check
                no_check ConfluenceStorageFormatConverter_init
                (pre_with_class "language-python")
                (code_with_class "language-python") eq_refl eq_refl eq_refl)
    as (_ & _ & H & _).
  pose proof (C4_code_block_language Reference.fromstringlist no_check
                no_check ConfluenceStorageFormatConverter_init
                (pre_with_class "language")
                (code_with_class "language") eq_refl eq_refl eq_refl)
    as (_ & _ & _ & H').
  split.
  - exact (H "language-python" "python" eq_refl eq_refl eq_refl).
  - exact (H' "language" eq_refl eq_refl eq_refl).
Defined.

(** C4, counterexample. A class attribute that is present and empty does
    not match the pattern, yet the conversion does not fail: the macro is
    emitted with the language [none]. *)
Lemma C4_counterexample :
  attrib_get (code_with_class EmptyString) "class" = Some EmptyString
  /\ re_match_language EmptyString = None
  /\ T_ref ConfluenceStorageFormatConverter_init (pre_with_class EmptyString)
     = Ok (ConfluenceStorageFormatConverter_init, pre_with_class EmptyString,
           Some (code_macro "none")).
Proof. repeat split; vm_compute; reflexivity. Qed.

(** C5. The paragraph [<p><img src=a.png alt=Cap/></p>] parses to
    [paragraph_with_image]; [transform] appends [a.png] to [images] and
    returns [image_macro], an [ac:image] element whose attachment child
    carries the file name [a.png] and whose caption child holds [Cap] in a
    paragraph; the loop of [visit] puts that macro in the place of the
    paragraph; and a page made of the identifier comment and this paragraph
    becomes the banner followed by that one macro, with [a.png] as its only
    image. *)
Theorem C5_image_paragraph_becomes_macro (chk nf : string -> result unit)
    (self : ConfluenceStorageFormatConverter) :
  let T :=
    ConfluenceStorageFormatConverter_transform Reference.fromstringlist
      chk nf in
  let self' := mkConverter (links self) (images self ++ ["a.png"]) in
  element_from_string Reference.fromstringlist
    (Q "<p><img src=`a.png` alt=`Cap`/></p>")
  = Ok (Handle paragraph_with_image [ac; ri])
  /\ T self paragraph_with_image
     = Ok (self', paragraph_with_image, Some image_macro)
  /\ (forall depth node index,
        getitem node index = Ok paragraph_with_image ->
        visit_index T (visit T depth) (Ok (self, node)) index
        = Ok (self', setitem node index image_macro))
  /\ tag image_macro = TagStr "{http://atlassian.com/content}image"
  /\ dump image_macro
     = Q "<ac:image ac:align=`center` ac:layout=`center`><ri:attachment ri:filename=`a.png`/><ac:caption><p>Cap</p></ac:caption></ac:image>"
  /\ ConfluenceDocument_init Reference.fromstringlist chk nf run_limit
       html_image_page
     = Ok (mkDocument "12" [] ["a.png"]
             (Handle (Element None "root" [ac; ri] [] []
                        [banner_macro; image_macro] []) [])).
Proof.
  intros T self'.
  assert (HT : T self paragraph_with_image
               = Ok (self', paragraph_with_image, Some image_macro))
    by reflexivity.
  split; [reflexivity|]. split; [exact HT|].
  split; [|split; [|split]; reflexivity].
  intros depth node index Hget.
  unfold visit_index. cbn [bind]. rewrite Hget. cbn [bind].
  rewrite HT. reflexivity.
Qed.

Lemma C5_witness :
  visit_index T_ref (visit T_ref run_limit)
    (Ok (ConfluenceStorageFormatConverter_init,
         Element None "div" [] [] [] [paragraph_with_image] []))
    0
  = Ok (mkConverter [] ["a.png"],
        Element None "div" [] [] [] [image_macro] []).
Proof.
  exact (proj1 (proj2 (proj2
           (C5_image_paragraph_becomes_macro no_check no_check
              ConfluenceStorageFormatConverter_init)))
         run_limit (Element None "div" [] [] [] [paragraph_with_image] [])
         0 eq_refl).
Defined.

(** C6. When the synthetic root has more than one child the builder
    returns the root; when it has exactly one child the builder returns
    that child; when the parser reports a syntax error the builder raises
    [ParseError] around the diagnostic. *)
Theorem C6_builder_unwraps_or_fails
    (fromstringlist : list string -> XMLSyntaxError + element)
    (items : list string) :
  (forall root,
     fromstringlist (wrap items) = inr root -> 1 < len root ->
     element_from_string_list fromstringlist items = Ok (Handle root []))
  /\ (forall root child,
        fromstringlist (wrap items) = inr root -> children root = [child] ->
        element_from_string_list fromstringlist items
        = Ok (Handle child (nsDef root)))
  /\ (forall e,
        fromstringlist (wrap items) = inl e ->
        element_from_string_list fromstringlist items = Raise (ParseError e)).
Proof.
  unfold element_from_string_list. repeat split.
  - intros root -> Hlen. apply Nat.ltb_lt in Hlen. now rewrite Hlen.
  - intros root child -> Hch. unfold len, getitem. rewrite Hch. reflexivity.
  - intros e ->. reflexivity.
Qed.

Lemma C6_witness :
  (exists root,
     element_from_string_list Reference.fromstringlist ["<p/>"; "<q/>"]
     = Ok (Handle root []) /\ len root = 2)
  /\ element_from_string_list Reference.fromstringlist ["<p/>"]
     = Ok (Handle (Element None "p" [] [] [] [] []) [ac; ri])
  /\ element_from_string_list Reference.fromstringlist ["<p>"]
     = Raise (ParseError "Opening and ending tag mismatch").
Proof.
  split; [|split].
  - eexists. split.
    + apply (proj1 (C6_builder_unwraps_or_fails Reference.fromstringlist
                      ["<p/>"; "<q/>"])); [vm_compute; reflexivity|].
      vm_compute. apply le_n.
    + reflexivity.
  - exact (proj1 (proj2 (C6_builder_unwraps_or_fails
                           Reference.fromstringlist ["<p/>"]))
             (Element None "root" [ac; ri] [] []
                [Element None "p" [] [] [] [] []] [])
             (Element None "p" [] [] [] [] []) eq_refl eq_refl).
  - exact (proj2 (proj2 (C6_builder_unwraps_or_fails
                           Reference.fromstringlist ["<p>"]))
             "Opening and ending tag mismatch" eq_refl).
Defined.

(** C7, as amended. When the parser reads [x] as the synthetic root with
    two children or more, [sanitize_confluence] returns the markup [y] of
    the content of the root with the volatile attributes gone below it.
    Sanitising [y] gives [y] again whenever the parser reads [y] back as
    the tree it was written from; whatever synthetic root with two
    children or more the parser reads [y] as, sanitising [y] returns the
    markup of that tree, cleaned. *)
Theorem C7_sanitize_idempotent_on_round_trip
    (fromstringlist : list string -> XMLSyntaxError + element)
    (depth : nat) (x : string) (text : list text_node) (cs : list element) :
  fromstringlist (wrap [x]) = inr (synthetic_root text cs) ->
  2 <= length cs ->
  height (synthetic_root text cs) <= depth ->
  let cleaned := synthetic_root text (map strip_deep cs) in
  let y := inner_markup cleaned in
  sanitize_confluence fromstringlist depth x = Ok y
  /\ (fromstringlist (wrap [y]) = inr cleaned ->
      sanitize_confluence fromstringlist depth y = Ok y)
  /\ (forall text' cs',
        fromstringlist (wrap [y]) = inr (synthetic_root text' cs') ->
        2 <= length cs' ->
        height (synthetic_root text' cs') <= depth ->
        sanitize_confluence fromstringlist depth y
        = Ok (inner_markup (synthetic_root text' (map strip_deep cs')))).
Proof.
  intros Hx Hlen Hh cleaned y.
  assert (Hs : forall html t l,
    fromstringlist (wrap [html]) = inr (synthetic_root t l) ->
    2 <= length l ->
    visit Cleaner_transform depth tt (synthetic_root t l)
    = Ok (tt, synthetic_root t (map strip_deep l)) ->
    sanitize_confluence fromstringlist depth html
    = Ok (inner_markup (synthetic_root t (map strip_deep l)))).
  { intros html t l Hfs Hl Hv.
    unfold sanitize_confluence, element_from_string,
      element_from_string_list.
    rewrite Hfs.
    assert (E : (1 <? len (synthetic_root t l))%nat = true)
      by (apply Nat.ltb_lt; exact Hl).
    rewrite E. cbn [bind elem outer_ns]. rewrite Hv. cbn [bind].
    rewrite content_of_synthetic_root.
    destruct l as [|c l]; [cbn in Hl; lia|]. now destruct t. }
  assert (Hv : visit Cleaner_transform depth tt (synthetic_root text cs)
               = Ok (tt, cleaned))
    by (now apply cleaner_strip_below).
  assert (Hidem : map strip_deep (map strip_deep cs) = map strip_deep cs).
  { rewrite map_map. apply map_ext. intros c. apply strip_deep_twice. }
  split; [now apply Hs|]. split.
  - intros Hy.
    rewrite (Hs y text (map strip_deep cs) Hy).
    + now rewrite Hidem.
    + now rewrite length_map.
    + rewrite Hidem. now apply cleaner_ok in Hv as [_ Hv].
  - intros text' cs' Hy Hl' Hh'. apply Hs; [exact Hy|exact Hl'|].
    now apply cleaner_strip_below.
Qed.

Lemma C7_witness :
  sanitize_confluence Reference.fromstringlist run_limit two_paragraphs
  = Ok "<p><b/></p><q/>"
  /\ sanitize_confluence Reference.fromstringlist run_limit "<p><b/></p><q/>"
     = Ok "<p><b/></p><q/>".
Proof.
  destruct (C7_sanitize_idempotent_on_round_trip Reference.fromstringlist
              run_limit two_paragraphs []
              [Element None "p" [] [mkAttr (Some ac) "macro-id" "1"] []
                 [Element None "b" [] [] [] [] []] [];
               Element None "q" [] [] [] [] []])
    as (Hx & Hy & _).
  - vm_compute. reflexivity.
  - apply le_n.
  - apply Nat.leb_le. vm_compute. reflexivity.
  - split; [exact Hx|]. apply Hy. vm_compute. reflexivity.
Defined.

(** C7, counterexample. Neither condition can be dropped.  A document
    that is a single element named [root] with a single child has no
    volatile attribute and is sanitised to the markup of that child;
    sanitising this output raises.  A document of two elements with a
    character reference to a space between them has no volatile attribute
    either and is sanitised with the space written out; read back, that
    space is ignorable white space, and sanitising the output gives another
    string. *)
Lemma C7_counterexample :
  ((exists parsed,
      Reference.fromstringlist (wrap [single_root_element]) = inr parsed
      /\ no_volatile parsed = true)
   /\ sanitize_confluence Reference.fromstringlist run_limit
        single_root_element = Ok "<p/>"
   /\ sanitize_confluence Reference.fromstringlist run_limit "<p/>"
      = Raise AttributeError)
  /\ ((exists parsed,
         Reference.fromstringlist (wrap ["<a/>&#32;<b/>"]) = inr parsed
         /\ no_volatile parsed = true /\ len parsed = 2)
      /\ sanitize_confluence Reference.fromstringlist run_limit
           "<a/>&#32;<b/>" = Ok "<a/> <b/>"
      /\ sanitize_confluence Reference.fromstringlist run_limit "<a/> <b/>"
         = Ok "<a/><b/>").
Proof.
  split.
  - split; [eexists; split; [vm_compute; reflexivity | reflexivity]|].
    split; vm_compute; reflexivity.
  - split; [eexists; split; [vm_compute; reflexivity | split; reflexivity]|].
    split; vm_compute; reflexivity.
Qed.

(** C8, as amended. With depth enough for the tree, the cleaner returns on
    every node, comments and processing instructions below it included
    (they are left as they are), and fails only for want of depth.  What
    it returns is the node with both volatile attributes removed from
    every element strictly below it and nothing else changed: the node it
    is run on keeps its attributes, and a tree without volatile attributes
    below the node is returned as it was. *)
Theorem C8_cleaner_strips_descendants (depth : nat) (node : element) :
  (height node <= depth ->
   visit ConfluenceStorageFormatCleaner_transform depth tt node
   = Ok (tt, strip_below node))
  /\ (forall e,
        visit ConfluenceStorageFormatCleaner_transform depth tt node
        = Raise e ->
        e = RecursionError /\ depth < height node)
  /\ (forall node',
        visit ConfluenceStorageFormatCleaner_transform depth tt node
        = Ok (tt, node') ->
        node' = strip_below node
        /\ (forall d, descendant d node' ->
              attrib_get d macro_id = None
              /\ attrib_get d version_at_save = None)
        /\ attrs node' = attrs node
        /\ (forallb no_volatile (children node) = true -> node' = node)).
Proof.
  split; [apply cleaner_strip_below|]. split; [apply cleaner_raises|].
  intros node' Hv. apply cleaner_ok in Hv as [-> _].
  split; [reflexivity|]. split; [|split].
  - intros d Hd. apply descendant_strip_below in Hd as (d0 & ->).
    apply strip_deep_clean.
  - unfold strip_below. apply set_children_shell.
  - apply strip_below_id.
Qed.

Lemma C8_witness :
  visit Cleaner_transform 1 tt division_with_comment
  = Ok (tt,
        Element None "div" [] [mkAttr (Some ac) "macro-id" "7"] []
          [Comment " note " []; ProcessingInstruction "pi" "x" [];
           Element None "p" [] [] [Text "x"] [] []] [])
  /\ forall d,
       descendant d (strip_below division_with_comment) ->
       attrib_get d macro_id = None.
Proof.
  split.
  - apply (proj1 (C8_cleaner_strips_descendants 1 division_with_comment)).
    apply le_n.
  - intros d H.
    apply (proj2 (proj2 (C8_cleaner_strips_descendants 1
                           division_with_comment))
             (strip_below division_with_comment)); [|exact H].
    vm_compute. reflexivity.
Defined.

(** C8, counterexample. The cleaner leaves the macro identifier on the
    node it is run on, and removes it from the paragraph below. *)
Lemma C8_counterexample :
  exists node',
    visit Cleaner_transform run_limit tt macro_with_ids = Ok (tt, node')
    /\ attrib_get macro_with_ids macro_id = Some "7"
    /\ attrib_get node' macro_id = Some "7"
    /\ children node' = [Element None "p" [] [] [Text "x"] [] []].
Proof.
  eexists. split; [vm_compute; reflexivity|]. repeat split.
Qed.

(** C9, as amended. The classification is decided by the network location
    that [urlsplit] finds.  When that location is ASCII without square
    brackets, whatever the rest of the URL holds, the classification does
    not fail: the URL is absolute exactly when the location is not empty,
    and [_transform_link] appends a URL that is not absolute.  A location
    with one square bracket and not the other raises [ValueError]; with
    both, the validation of bracketed hosts decides, and outside ASCII the
    check of the normal form does.  Whenever the classification returns,
    it is with the answer of the location; whenever it raises,
    [_transform_link] raises the same error and appends nothing. *)
Theorem C9_classification_can_fail (chk nf : string -> result unit)
    (url : string) :
  let netloc := netloc_text url in
  (contains "[" netloc = false -> contains "]" netloc = false ->
   isascii netloc = true ->
   is_absolute_url chk nf url = Ok (nonempty netloc)
   /\ forall self anchor,
        attrib_get anchor "href" = Some url ->
        _transform_link chk nf self anchor
        = Ok (if nonempty netloc then self
              else mkConverter (links self ++ [url]) (images self), None))
  /\ (contains "[" netloc <> contains "]" netloc ->
      is_absolute_url chk nf url = Raise ValueError)
  /\ (contains "[" netloc = true -> contains "]" netloc = true ->
      is_absolute_url chk nf url
      = let! _ := chk netloc in
        let! _ := _checknetloc nf netloc in
        Ok true)
  /\ (contains "[" netloc = false -> contains "]" netloc = false ->
      isascii netloc = false ->
      is_absolute_url chk nf url = let! _ := nf netloc in Ok true)
  /\ (forall absolute,
        is_absolute_url chk nf url = Ok absolute ->
        absolute = nonempty netloc)
  /\ (forall e self anchor,
        is_absolute_url chk nf url = Raise e ->
        attrib_get anchor "href" = Some url ->
        _transform_link chk nf self anchor = Raise e).
Proof.
  intros netloc.
  assert (Hne : forall c, contains c netloc = true -> nonempty netloc = true).
  { intros c. unfold contains, char_in. now destruct netloc. }
  split; [|split; [|split; [|split; [|split]]]].
  - intros Hl Hr Ha.
    pose proof (is_absolute_url_of_netloc chk nf url Hl Hr Ha) as E.
    split; [exact E|]. intros self anchor Hhref.
    unfold _transform_link, attrib_getitem. rewrite Hhref. cbn [bind].
    fold netloc in E. rewrite E. cbn [bind].
    destruct (nonempty netloc); reflexivity.
  - apply urlparse_unbalanced.
  - intros Hl Hr. rewrite is_absolute_url_unfold. cbv zeta.
    fold netloc. rewrite Hl, Hr, (Hne _ Hl). reflexivity.
  - intros Hl Hr Ha. rewrite is_absolute_url_unfold. cbv zeta.
    fold netloc. rewrite Hl, Hr. cbn [xorb bind].
    unfold _checknetloc. rewrite Ha.
    destruct (nonempty netloc) eqn:En; [reflexivity|].
    destruct netloc; [discriminate Ha | discriminate En].
  - apply is_absolute_url_ok.
  - intros e self anchor He Hhref.
    unfold _transform_link, attrib_getitem. rewrite Hhref. cbn [bind].
    now rewrite He.
Qed.

Lemma C9_witness :
  is_absolute_url no_check no_check "./doc.md" = Ok false
  /\ is_absolute_url no_check no_check "https://x.com/y" = Ok true
  /\ is_absolute_url no_check no_check "docs/a[1].md" = Ok false
  /\ is_absolute_url no_check no_check "https://x.com/y?a[]=1" = Ok true
  /\ is_absolute_url no_check no_check "//[" = Raise ValueError.
Proof.
  split; [|split; [|split; [|split]]].
  - exact (proj1 (proj1 (C9_classification_can_fail no_check no_check
                           "./doc.md") eq_refl eq_refl eq_refl)).
  - exact (proj1 (proj1 (C9_classification_can_fail no_check no_check
                           "https://x.com/y") eq_refl eq_refl eq_refl)).
  - exact (proj1 (proj1 (C9_classification_can_fail no_check no_check
                           "docs/a[1].md") eq_refl eq_refl eq_refl)).
  - exact (proj1 (proj1 (C9_classification_can_fail no_check no_check
                           "https://x.com/y?a[]=1") eq_refl eq_refl eq_refl)).
  - apply (proj1 (proj2 (C9_classification_can_fail no_check no_check "//["))).
    vm_compute. discriminate.
Defined.

(** C9, counterexample. A malformed URL with an opening bracket and no
    closing one makes the classification raise [ValueError], and
    [_transform_link] with it. *)
Lemma C9_counterexample :
  is_absolute_url no_check no_check "http://[::1" = Raise ValueError
  /\ _transform_link no_check no_check ConfluenceStorageFormatConverter_init
       (Element None "a" [] [mkAttr None "href" "http://[::1"] [] [] [])
     = Raise ValueError.
Proof. split; reflexivity. Qed.

(** C10, as amended. When the input parses to exactly one top-level node,
    the builder unwraps it and [sanitize_confluence] raises
    [AttributeError] unless that node is an element serialised under the
    name [root]: every other name fails the final pattern, and so does a
    comment.  For a single element named [root], with nothing but white
    space after it, the outcome is decided by its content: without text
    and children the element is written as an empty-element tag and
    [AttributeError] is raised; otherwise the markup of its content,
    cleaned, is returned.  [sanitize_confluence] never raises
    [ParseError] on input the parser accepts, and it returns only for
    input that parses to more than one top-level node or to a single
    element serialised under the name [root]. *)
Theorem C10_single_top_level_element
    (fromstringlist : list string -> XMLSyntaxError + element)
    (depth : nat) (html : string) :
  let sanitized := sanitize_confluence fromstringlist depth html in
  (forall parsed only,
     fromstringlist (wrap [html]) = inr parsed -> children parsed = [only] ->
     height only <= depth ->
     (forall q, element_qname only = Some q -> is_root_name q = false) ->
     sanitized = Raise AttributeError)
  /\ (forall parsed ns d a text cs tl,
        fromstringlist (wrap [html]) = inr parsed ->
        children parsed = [Element ns "root" d a text cs tl] ->
        height (Element ns "root" d a text cs tl) <= depth ->
        qname ns "root" = "root" ->
        nsDef parsed <> [] ->
        forallb plain_ns (copy_parent_namespaces d (nsDef parsed)) = true ->
        forallb plain_attr a = true ->
        all_of is_space (dump_texts tl) = true ->
        sanitized
        = match text, cs with
          | [], [] => Raise AttributeError
          | _, _ =>
              Ok (inner_markup
                    (Element ns "root" d a text (map strip_deep cs) tl))
          end)
  /\ (forall parsed e,
        fromstringlist (wrap [html]) = inr parsed ->
        sanitized <> Raise (ParseError e))
  /\ (forall y,
        sanitized = Ok y ->
        exists parsed,
          fromstringlist (wrap [html]) = inr parsed
          /\ (1 < len parsed
              \/ exists only q,
                   children parsed = [only]
                   /\ element_qname only = Some q
                   /\ is_root_name q = true)).
Proof.
  intros sanitized. unfold sanitized, sanitize_confluence, element_from_string,
    element_from_string_list.
  assert (Hname : forall c c' s s' d,
            visit Cleaner_transform d s c = Ok (s', c') ->
            element_qname c' = element_qname c).
  { intros c c' s s' d Hv. apply visit_shell in Hv. rewrite Hv.
    destruct c; reflexivity. }
  split; [|split; [|split]].
  - intros parsed only -> Hch Hh Hq. unfold len, getitem. rewrite Hch.
    cbn [length Nat.ltb Nat.leb lookup list_lookup bind elem outer_ns].
    rewrite cleaner_strip_below by exact Hh. cbn [bind].
    unfold _content_to_string.
    destruct (re_match_root _) as [g|] eqn:Hm; [|reflexivity].
    apply tostring_matches_root in Hm as (q & Hq1 & Hq2).
    assert (E : element_qname (strip_below only) = element_qname only)
      by (destruct only; reflexivity).
    rewrite E in Hq1. apply Hq in Hq1. congruence.
  - intros parsed ns d a text cs tl -> Hch Hh Hq Hns Hd Ha Ht.
    unfold len, getitem. rewrite Hch.
    cbn [length Nat.ltb Nat.leb lookup list_lookup bind elem outer_ns].
    rewrite cleaner_strip_below by exact Hh. cbn [bind].
    change (strip_below (Element ns "root" d a text cs tl))
      with (Element ns "root" d a text (map strip_deep cs) tl).
    rewrite content_of_root_element; try assumption.
    + now destruct text, cs.
    + left. now apply copy_parent_namespaces_nonempty.
  - intros parsed e -> H.
    unfold getitem in H.
    destruct (1 <? len parsed)%nat;
      [|destruct (children parsed !! 0) as [only|]];
      cbn [bind elem outer_ns] in H; try discriminate.
    + destruct (visit Cleaner_transform depth tt parsed) as [[[] c']|e'] eqn:Hv;
        cbn [bind] in H.
      * unfold _content_to_string in H.
        destruct (re_match_root _); discriminate.
      * destruct (cleaner_raises _ _ _ Hv) as [-> _]; discriminate.
    + destruct (visit Cleaner_transform depth tt only) as [[[] c']|e'] eqn:Hv;
        cbn [bind] in H.
      * unfold _content_to_string in H.
        destruct (re_match_root _); discriminate.
      * destruct (cleaner_raises _ _ _ Hv) as [-> _]; discriminate.
  - intros y H.
    destruct (fromstringlist (wrap [html])) as [e|parsed]; [discriminate|].
    exists parsed. split; [reflexivity|].
    destruct (1 <? len parsed)%nat eqn:E; [left; now apply Nat.ltb_lt|right].
    apply Nat.ltb_ge in E. unfold len, getitem in *.
    destruct (children parsed) as [|only [|c2 rest]] eqn:Hch;
      cbn [length] in E; try lia; [discriminate|].
    cbn [lookup list_lookup bind elem outer_ns] in H.
    destruct (visit Cleaner_transform depth tt only) as [[[] c']|e] eqn:Hv;
      cbn [bind] in H; [|discriminate].
    unfold _content_to_string in H.
    destruct (re_match_root _) as [g|] eqn:Hm; [|discriminate].
    apply tostring_matches_root in Hm as (q & Hq1 & Hq2).
    rewrite (Hname _ _ _ _ _ Hv) in Hq1.
    exists only, q. repeat split; assumption.
Qed.

Lemma C10_witness :
  sanitize_confluence Reference.fromstringlist run_limit "<p>text</p>"
  = Raise AttributeError
  /\ sanitize_confluence Reference.fromstringlist run_limit
       (Q "<rootx id=`r`>text</rootx>")
     = Raise AttributeError
  /\ sanitize_confluence Reference.fromstringlist run_limit "<root/>"
     = Raise AttributeError.
Proof.
  split; [|split].
  - refine (proj1 (C10_single_top_level_element Reference.fromstringlist
                     run_limit "<p>text</p>")
              (synthetic_root []
                 [Element None "p" [] [] [Text "text"] [] []])
              (Element None "p" [] [] [Text "text"] [] []) eq_refl eq_refl
              _ _).
    + vm_compute. apply Nat.le_0_l.
    + intros q Hq. inversion Hq. reflexivity.
  - refine (proj1 (C10_single_top_level_element Reference.fromstringlist
                     run_limit (Q "<rootx id=`r`>text</rootx>"))
              (synthetic_root []
                 [Element None "rootx" [] [mkAttr None "id" "r"]
                    [Text "text"] [] []])
              (Element None "rootx" [] [mkAttr None "id" "r"]
                 [Text "text"] [] []) eq_refl eq_refl _ _).
    + vm_compute. apply Nat.le_0_l.
    + intros q Hq. inversion Hq. reflexivity.
  - refine (proj1 (proj2 (C10_single_top_level_element
                            Reference.fromstringlist run_limit "<root/>"))
              (synthetic_root [] [Element None "root" [] [] [] [] []])
              None [] [] [] [] [] eq_refl eq_refl _ eq_refl _ eq_refl eq_refl
              eq_refl).
    + vm_compute. apply Nat.le_0_l.
    + discriminate.
Defined.

(** C10, counterexample. An input that is a single element named [root]
    is sanitised without an error: the output is the content of that
    element. *)
Lemma C10_counterexample :
  (exists parsed only,
     Reference.fromstringlist (wrap [single_root_text]) = inr parsed
     /\ children parsed = [only] /\ tag only = TagStr "root")
  /\ sanitize_confluence Reference.fromstringlist run_limit single_root_text
     = Ok "text".
Proof.
  split; [|vm_compute; reflexivity].
  eexists _, _. split; [vm_compute; reflexivity|]. split; reflexivity.
Qed.
